(** * StatsMonit: the telemetry aggregation engine

    A shallow embedding of the statistics module, in the version that
    starts all its adapters at once under [Promise.all] and caches the slow
    ones: [getStats], which produces one system snapshot per call, and the
    process-lifetime state it keeps between calls, that is three bounded
    history arrays, the TTL cache table [_cache] and the network rate
    estimator ([lastNetworkStats], [networkSpeedHistory]).  The older
    version of the module ([lib/stats.js]), which awaits its adapters one
    after the other and has no cache, is embedded in [Legacy] and compared
    with this one.

    Conventions of the embedding.
    - Byte counters and clock readings are integers ([Z]); percentages and
      averages are exact rationals ([Q]).  JavaScript numbers are doubles:
      the model is exact where the doubles are (integers below 2^53) and
      idealises the rounding of a division.  NaN and the infinities are not
      values of the model.
    - A promise that settles is an [Outcome]: it resolves with a value or
      rejects with a reason.  A [try]/[catch] around an [await] is a match
      on the outcome.
    - An instant is the millisecond count that [Date.now()] returns;
      [new Date().toISOString()] is a rendering of that same count, so a
      sample's [timestamp] is kept as the instant.
    - [formatBytes] lives in [./utils], outside this module: it is a
      parameter of every definition that calls it. *)

From Stdlib Require Import ZArith QArith Qround Qabs List String Ascii Lia Lqa.
From Stdlib Require Import DecimalString DecimalN Sorted.
From stdpp Require Import gmap strings list fin_maps.

Set Default Proof Using "Type".

(** ** JavaScript values the module relies on *)

Module Js.

(** A settled promise. *)
Inductive Outcome (A : Type) : Type :=
| Resolved (value : A)
| Rejected (reason : string).
Arguments Resolved {A} value.
Arguments Rejected {A} reason.

Definition isResolved {A} (o : Outcome A) : bool :=
  match o with Resolved _ => true | Rejected _ => false end.

(** [x || d] on an optional string field: [undefined], [null] and the
    empty string are falsy. *)
Definition strOr (x : option string) (d : string) : string :=
  match x with
  | Some s => if String.eqb s EmptyString then d else s
  | None => d
  end.

(** [x || 0] on an optional numeric field: [undefined], [null] and [0]
    are falsy, and all three give [0]. *)
Definition numOr0 (x : option Z) : Z :=
  match x with Some n => n | None => 0%Z end.

(** The decimal digits of a non-negative integer. *)
Definition digits (n : Z) : string :=
  NilZero.string_of_uint (N.to_uint (Z.to_N n)).

Fixpoint zeros (k : nat) : string :=
  match k with O => EmptyString | S k' => String "0"%char (zeros k') end.

(** [Number.prototype.toFixed(f)] for a finite number below 1e21: with
    [a = |x|], the integer [n] nearest to [a * 10^f] (the larger one on a
    tie), printed with at least [f + 1] digits and a point before the
    last [f]; a leading ["-"] when [x < 0]. *)
Definition toFixedUnits (x : Q) (f : nat) : Z :=
  Qfloor (Qabs x * inject_Z (10 ^ Z.of_nat f) + (1 # 2)).

Definition toFixed (x : Q) (f : nat) : string :=
  let m := digits (toFixedUnits x f) in
  let m := String.append (zeros (S f - String.length m)) m in
  let k := (String.length m - f)%nat in
  let body :=
    match f with
    | O => m
    | S _ => String.append (substring 0 k m)
               (String "."%char (substring k f m))
    end in
  if (Qnum x <? 0)%Z then String "-"%char body else body.

(** [parseFloat] on the strings this module gives it: an optional sign,
    digits, an optional point and digits; reading stops at the first
    other character.  [None] is NaN (no digit was read).  The result is
    the decimal that was read, exactly; the code has the double nearest
    to it.  The strings come from [toFixed] of a finite number: ["NaN"]
    and ["Infinity"] are never read here, as the model has no such
    number to print. *)
Definition digitVal (c : ascii) : option Z :=
  let n := nat_of_ascii c in
  if ((48 <=? n) && (n <=? 57))%nat then Some (Z.of_nat (n - 48)) else None.

Fixpoint readDigits (s : string) (acc : Z) (cnt : nat) : Z * nat * string :=
  match s with
  | EmptyString => (acc, cnt, s)
  | String c s' =>
      match digitVal c with
      | Some d => readDigits s' (acc * 10 + d)%Z (S cnt)
      | None => (acc, cnt, s)
      end
  end.

Definition parseUnsigned (s : string) : option Q :=
  let '(ip, ni, rest) := readDigits s 0%Z 0%nat in
  let '(fp, nf) :=
    match rest with
    | String "." rest' => let '(fp, nf, _) := readDigits rest' 0%Z 0%nat in (fp, nf)
    | _ => (0%Z, 0%nat)
    end in
  match ni, nf with
  | O, O => None
  | _, _ =>
      Some (Qmake (ip * 10 ^ Z.of_nat nf + fp) (Z.to_pos (10 ^ Z.of_nat nf)))
  end.

Definition parseFloat (s : string) : option Q :=
  match s with
  | String "-" s' => option_map Qopp (parseUnsigned s')
  | String "+" s' => parseUnsigned s'
  | _ => parseUnsigned s
  end.

End Js.
Import Js.

(** ** Bounded history arrays *)

Module History.

(** [const historyLimit = 20;] *)
Definition historyLimit : nat := 20.

(** The idiom used for every bounded array of the module:
    [h.push(x); if (h.length > limit) h.shift();] *)
Definition pushShift {A : Type} (limit : nat) (h : list A) (x : A) : list A :=
  let h' := h ++ [x] in
  if (limit <? length h')%nat then tail h' else h'.

(** [append] is what one pass does to one history array. *)
Definition append {A : Type} (h : list A) (x : A) : list A :=
  pushShift historyLimit h x.

(** The array after a sequence of appends, oldest first. *)
Definition appendAll {A : Type} (h : list A) (xs : list A) : list A :=
  fold_left append xs h.

End History.

(** ** The TTL cache *)

Module Cache.

(** [_cache[key] = { data, ts }] *)
Record Entry (V : Type) : Type := { data : V; ts : Z }.
Arguments data {V} _.
Arguments ts {V} _.

Section CachedCall.
Context {V : Type}.

(** The guard of [cachedCall]:
    [_cache[key] && (now - _cache[key].ts) < ttlMs].  [Some d] is a
    hit that resolves with [d]; [None] means the producer is called. *)
Definition fresh (cache : gmap string (Entry V)) (key : string)
    (ttlMs now : Z) : option V :=
  match cache !! key with
  | Some e => if (now - ts e <? ttlMs)%Z then Some (data e) else None
  | None => None
  end.

(** The callback given to [.then]: it runs only when the producer's
    promise resolves, stores under the clock value [now] read when
    [cachedCall] was entered, and passes the value on.  A rejection
    skips the callback and goes through unchanged. *)
Definition thenStore (key : string) (now : Z) (o : Outcome V)
    (cache : gmap string (Entry V)) : Outcome V * gmap string (Entry V) :=
  match o with
  | Resolved d => (Resolved d, <[key := {| data := d; ts := now |}]> cache)
  | Rejected r => (Rejected r, cache)
  end.

(** [cachedCall(key, fn, ttlMs)] against a world [W] whose clock is
    [clock]: the producer [fn] is a computation on the world (it may
    let time pass); it is run only on a miss. *)
Context {W : Type} (clock : W -> Z).

Definition cachedCall (key : string) (fn : W -> Outcome V * W) (ttlMs : Z)
    (cache : gmap string (Entry V)) (w : W)
    : Outcome V * gmap string (Entry V) * W :=
  let now := clock w in
  match fresh cache key ttlMs now with
  | Some d => (Resolved d, cache, w)
  | None =>
      let '(o, w') := fn w in
      let '(r, cache') := thenStore key now o cache in
      (r, cache', w')
  end.

(** The same call split where it suspends.  [hit] is the guard as it
    was evaluated when the call was made, at clock [now]; what is left
    runs when the producer's promise settles with [o], on the table as
    it is by then. *)
Definition settle (key : string) (now : Z) (hit : option V) (o : Outcome V)
    (cache : gmap string (Entry V)) : Outcome V * gmap string (Entry V) :=
  match hit with
  | Some d => (Resolved d, cache)
  | None => thenStore key now o cache
  end.

End CachedCall.

(** [ttlMs = 5000] when the caller passes none. *)
Definition defaultTtlMs : Z := 5000.

End Cache.

(** ** Shapes returned by the telemetry libraries *)

Module Sources.

(** What an [osutils] call resolves with: [{ success: true, data }] or
    [{ success: false, ... }]. *)
Inductive MonitorResult (A : Type) : Type :=
| Success (data : A)
| Failure.
Arguments Success {A} data.
Arguments Failure {A}.

(** A [DataSize] object is kept as the number [toBytes()] returns. *)
Module MemInfo.
Record t := { total : Z; used : Z; usagePercentage : Q }.
End MemInfo.

Module CpuInfo.
Record t := { model : string; cores : Z }.
End CpuInfo.

Module DiskUsage.
Record t := { total : Z; used : Z; available : Z; usagePercentage : Q }.
End DiskUsage.

Module Iface.
Record t := { interface : string; rxBytes : option Z; txBytes : option Z }.
End Iface.

Module ProcStats.
Record t := { total : Z; running : Z; stopped : option Z; sleeping : option Z }.
End ProcStats.

Module FsSize.
Record t := { type : option string; mount : option string;
              size : option Z; used : option Z; use : option Q }.
End FsSize.

Module Disk.
Record t := { name : option string; vendor : option string;
              type : option string; size : option Z;
              interfaceType : option string; serialNum : option string;
              firmwareRevision : option string }.
End Disk.

Module Battery.
Record t := { hasBattery : bool; percent : option Z; isCharging : bool;
              timeRemaining : option Z; voltage : option Q;
              cycleCount : option Z }.
End Battery.

Module MemoryUsage.
Record t := { rss : Z; heapTotal : Z; heapUsed : Z; external : Z;
              arrayBuffers : option Z }.
End MemoryUsage.

End Sources.
Import Sources.

(** ** Records of the snapshot *)

Module Fields.

Module DiskStats.
Record t := { path : string; total : string; used : string;
              available : string; usedPercent : string }.
End DiskStats.

Module NetIface.
Record t := { interface : string; inputBytes : string; outputBytes : string;
              totalBytes : string; rawInputBytes : Z; rawOutputBytes : Z }.
End NetIface.

Module Heap.
Record t := { rss : string; heapTotal : string; heapUsed : string;
              external : string; arrayBuffers : string;
              rawHeapUsed : Z; rawHeapTotal : Z; heapUsedPercent : string }.
End Heap.

Module ProcessCount.
Record t := { all : Z; running : Z; blocked : Z; sleeping : Z }.
End ProcessCount.

Module FsInfo.
Record t := { type : string; mount : string; size : string; used : string;
              available : string; usedPercent : string }.
End FsInfo.

Module DiskInfo.
Record t := { name : string; vendor : string; type : string; size : string;
              interfaceType : string; serialNum : string;
              firmwareRevision : string }.
End DiskInfo.

Module Speed.
Record t := { download : string; upload : string;
              downloadRaw : Q; uploadRaw : Q }.
End Speed.

Module BatteryStatus.
Record t := { level : Z; isCharging : bool; timeLeft : Z; voltage : Q;
              cycleCount : Z }.
End BatteryStatus.

(** [time], [date] and [timestamp] are three renderings of one instant. *)
Module SystemTime.
Record t := { time : string; date : string; timezone : string;
              timestamp : Z }.
End SystemTime.

Module CpuSample.
Record t := { timestamp : Z; usage : Q }.
End CpuSample.

(** [usage] is [parseFloat(usedMemPercent)]; [None] is NaN. *)
Module MemSample.
Record t := { timestamp : Z; usage : option Q; used : Z; total : Z }.
End MemSample.

Module NetSample.
Record t := { timestamp : Z; input : Z; output : Z }.
End NetSample.

(** An element of [networkSpeedHistory]. *)
Module RateSample.
Record t := { download : Z; upload : Z; timestamp : Z }.
End RateSample.

(** [lastNetworkStats = { rx, tx }] *)
Module Counters.
Record t := { rx : Z; tx : Z }.
End Counters.

End Fields.
Import Fields.

(** ** Module state *)

Module Store.

(** What the three [cachedCall] sites put in [_cache]: the raw result of
    [si.fsSize()], of [si.diskLayout()] ([None] is a falsy result), and
    the result of [getBatteryStatus()]. *)
Inductive CacheData : Type :=
| FsSizeData (v : option (list FsSize.t))
| DiskLayoutData (v : option (list Disk.t))
| BatteryData (v : option BatteryStatus.t).

(** The [let] and [const] bindings at module scope. *)
Record State := {
  cpuHistory : list CpuSample.t;
  memoryHistory : list MemSample.t;
  networkHistory : list NetSample.t;
  _cache : gmap string (Cache.Entry CacheData);
  lastNetworkStats : option Counters.t;
  networkSpeedHistory : list RateSample.t
}.

(** The state when the module has just been loaded. *)
Definition initial : State :=
  {| cpuHistory := []; memoryHistory := []; networkHistory := [];
     _cache := ∅; lastNetworkStats := None; networkSpeedHistory := [] |}.

Definition set_cpuHistory (h : list CpuSample.t) (st : State) : State :=
  {| cpuHistory := h; memoryHistory := memoryHistory st;
     networkHistory := networkHistory st; _cache := _cache st;
     lastNetworkStats := lastNetworkStats st;
     networkSpeedHistory := networkSpeedHistory st |}.

Definition set_memoryHistory (h : list MemSample.t) (st : State) : State :=
  {| cpuHistory := cpuHistory st; memoryHistory := h;
     networkHistory := networkHistory st; _cache := _cache st;
     lastNetworkStats := lastNetworkStats st;
     networkSpeedHistory := networkSpeedHistory st |}.

Definition set_networkHistory (h : list NetSample.t) (st : State) : State :=
  {| cpuHistory := cpuHistory st; memoryHistory := memoryHistory st;
     networkHistory := h; _cache := _cache st;
     lastNetworkStats := lastNetworkStats st;
     networkSpeedHistory := networkSpeedHistory st |}.

Definition set_cache (c : gmap string (Cache.Entry CacheData)) (st : State) : State :=
  {| cpuHistory := cpuHistory st; memoryHistory := memoryHistory st;
     networkHistory := networkHistory st; _cache := c;
     lastNetworkStats := lastNetworkStats st;
     networkSpeedHistory := networkSpeedHistory st |}.

Definition set_lastNetworkStats (l : option Counters.t) (st : State) : State :=
  {| cpuHistory := cpuHistory st; memoryHistory := memoryHistory st;
     networkHistory := networkHistory st; _cache := _cache st;
     lastNetworkStats := l;
     networkSpeedHistory := networkSpeedHistory st |}.

Definition set_networkSpeedHistory (h : list RateSample.t) (st : State) : State :=
  {| cpuHistory := cpuHistory st; memoryHistory := memoryHistory st;
     networkHistory := networkHistory st; _cache := _cache st;
     lastNetworkStats := lastNetworkStats st;
     networkSpeedHistory := h |}.

End Store.
Import Store.

(** ** The adapters

    Each [async function] is given the outcome of the library promise it
    awaits and returns the outcome of its own promise (and the new module
    state when it writes to it). *)

Module Adapters.

(** [iface.rxBytes ? iface.rxBytes.toBytes() : 0] *)
Definition bytesOf (x : option Z) : Z :=
  match x with Some b => b | None => 0%Z end.

(** [x || 0] on an optional number that need not be an integer. *)
Definition qOr0 (x : option Q) : Q :=
  match x with Some q => q | None => 0%Q end.

(** [!x] on an optional number. *)
Definition falsyNum (x : option Z) : bool :=
  match x with Some n => (n =? 0)%Z | None => true end.

Definition totalRxOf (data : list Iface.t) : Z :=
  fold_left (fun acc iface => (acc + bytesOf (Iface.rxBytes iface))%Z) data 0%Z.

Definition totalTxOf (data : list Iface.t) : Z :=
  fold_left (fun acc iface => (acc + bytesOf (Iface.txBytes iface))%Z) data 0%Z.

Definition sumDownload (h : list RateSample.t) : Z :=
  fold_left (fun sum item => (sum + RateSample.download item)%Z) h 0%Z.

Definition sumUpload (h : list RateSample.t) : Z :=
  fold_left (fun sum item => (sum + RateSample.upload item)%Z) h 0%Z.

(** [reduce(...) / networkSpeedHistory.length] *)
Definition average (sum : Z) (n : nat) : Q :=
  (inject_Z sum / inject_Z (Z.of_nat n))%Q.

(** [_cache] is one table shared by three call sites with three literal
    keys; each site reads back under its key what it stored there
    ([getStats_cacheTyped]), so the other tags never reach these. *)
Definition asFsSize (d : CacheData) : option (list FsSize.t) :=
  match d with FsSizeData v => v | _ => None end.

Definition asDiskLayout (d : CacheData) : option (list Disk.t) :=
  match d with DiskLayoutData v => v | _ => None end.

Definition asBattery (d : CacheData) : option BatteryStatus.t :=
  match d with BatteryData v => v | _ => None end.

Section WithFormatBytes.
Variable formatBytes : Q -> string.

Definition fmt (n : Z) : string := formatBytes (inject_Z n).

Definition getDiskStats (mountPath : string)
    (o : Outcome (MonitorResult (option DiskUsage.t)))
    : Outcome (option DiskStats.t) :=
  match o with
  | Resolved (Success (Some d)) =>
      Resolved (Some
        {| DiskStats.path := mountPath;
           DiskStats.total := fmt (DiskUsage.total d);
           DiskStats.used := fmt (DiskUsage.used d);
           DiskStats.available := fmt (DiskUsage.available d);
           DiskStats.usedPercent :=
             toFixed (DiskUsage.usagePercentage d) 2 +:+ "%" |})
  | Resolved _ => Resolved None
  | Rejected _ => Resolved None
  end.

Definition netIfaceOf (iface : Iface.t) : NetIface.t :=
  let input := bytesOf (Iface.rxBytes iface) in
  let output := bytesOf (Iface.txBytes iface) in
  {| NetIface.interface := Iface.interface iface;
     NetIface.inputBytes := fmt input;
     NetIface.outputBytes := fmt output;
     NetIface.totalBytes := fmt (input + output);
     NetIface.rawInputBytes := input;
     NetIface.rawOutputBytes := output |}.

(** No [try] here: a rejection of the awaited promise rejects the
    adapter's own promise.  [now] is the clock when the function
    resumes after the [await]. *)
Definition getNetworkStats (o : Outcome (MonitorResult (list Iface.t)))
    (now : Z) (st : State) : Outcome (list NetIface.t) * State :=
  match o with
  | Rejected r => (Rejected r, st)
  | Resolved Failure => (Resolved [], st)
  | Resolved (Success data) =>
      let interfaces := map netIfaceOf data in
      let sample :=
        {| NetSample.timestamp := now;
           NetSample.input := totalRxOf data;
           NetSample.output := totalTxOf data |} in
      (Resolved interfaces,
       set_networkHistory
         (History.pushShift History.historyLimit (networkHistory st) sample) st)
  end.

(** [main] is [Some] when [tempData.main] is a number other than NaN. *)
Definition getTemperatureInfo (o : Outcome (option Q)) : Outcome (option string) :=
  match o with
  | Resolved (Some main) => Resolved (Some (toFixed main 1 +:+ "°C"))
  | Resolved None => Resolved None
  | Rejected _ => Resolved None
  end.

(** The quotient is taken in [Q], where [x / 0 = 0]; the source gives
    NaN or Infinity for an empty heap. *)
Definition getHeapStats (memoryUsage : MemoryUsage.t) : Outcome Heap.t :=
  Resolved
    {| Heap.rss := fmt (MemoryUsage.rss memoryUsage);
       Heap.heapTotal := fmt (MemoryUsage.heapTotal memoryUsage);
       Heap.heapUsed := fmt (MemoryUsage.heapUsed memoryUsage);
       Heap.external := fmt (MemoryUsage.external memoryUsage);
       Heap.arrayBuffers := fmt (numOr0 (MemoryUsage.arrayBuffers memoryUsage));
       Heap.rawHeapUsed := MemoryUsage.heapUsed memoryUsage;
       Heap.rawHeapTotal := MemoryUsage.heapTotal memoryUsage;
       Heap.heapUsedPercent :=
         toFixed ((inject_Z (MemoryUsage.heapUsed memoryUsage)
                   / inject_Z (MemoryUsage.heapTotal memoryUsage)) * 100)%Q 2 |}.

Definition zeroProcessCount : ProcessCount.t :=
  {| ProcessCount.all := 0; ProcessCount.running := 0;
     ProcessCount.blocked := 0; ProcessCount.sleeping := 0 |}.

Definition getProcessCount (o : Outcome (MonitorResult ProcStats.t))
    : Outcome ProcessCount.t :=
  match o with
  | Rejected r => Rejected r
  | Resolved (Success d) =>
      Resolved
        {| ProcessCount.all := ProcStats.total d;
           ProcessCount.running := ProcStats.running d;
           ProcessCount.blocked := numOr0 (ProcStats.stopped d);
           ProcessCount.sleeping := numOr0 (ProcStats.sleeping d) |}
  | Resolved Failure => Resolved zeroProcessCount
  end.

Definition fsInfoOf (fs : FsSize.t) : FsInfo.t :=
  {| FsInfo.type := strOr (FsSize.type fs) "Unknown";
     FsInfo.mount := strOr (FsSize.mount fs) "Unknown";
     FsInfo.size := fmt (numOr0 (FsSize.size fs));
     FsInfo.used := fmt (numOr0 (FsSize.used fs));
     FsInfo.available := fmt (numOr0 (FsSize.size fs) - numOr0 (FsSize.used fs));
     FsInfo.usedPercent :=
       match FsSize.use fs with
       | Some u => toFixed u 1 +:+ "%"
       | None => "N/A"
       end |}.

(** [c] is the outcome of [cachedCall('fsSize', ...)]. *)
Definition getFileSystemInfo (c : Outcome CacheData) : Outcome (list FsInfo.t) :=
  match c with
  | Resolved d =>
      match asFsSize d with
      | Some fsSize =>
          if (0 <? length fsSize)%nat then Resolved (map fsInfoOf fsSize)
          else Resolved []
      | None => Resolved []
      end
  | Rejected _ => Resolved []
  end.

Definition diskInfoOf (d : Disk.t) : DiskInfo.t :=
  {| DiskInfo.name := strOr (Disk.name d) "Unknown";
     DiskInfo.vendor := strOr (Disk.vendor d) EmptyString;
     DiskInfo.type := strOr (Disk.type d) "Unknown";
     DiskInfo.size := fmt (numOr0 (Disk.size d));
     DiskInfo.interfaceType := strOr (Disk.interfaceType d) "Unknown";
     DiskInfo.serialNum := strOr (Disk.serialNum d) EmptyString;
     DiskInfo.firmwareRevision :=
       strOr (Disk.firmwareRevision d) EmptyString |}.

(** [c] is the outcome of [cachedCall('diskLayout', ...)]. *)
Definition getDiskLayout (c : Outcome CacheData) : Outcome (list DiskInfo.t) :=
  match c with
  | Resolved d =>
      match asDiskLayout d with
      | Some disks =>
          if (0 <? length disks)%nat then Resolved (map diskInfoOf disks)
          else Resolved []
      | None => Resolved []
      end
  | Rejected _ => Resolved []
  end.

Definition zeroSpeed : Speed.t :=
  {| Speed.download := "0 KB/s"; Speed.upload := "0 KB/s";
     Speed.downloadRaw := 0; Speed.uploadRaw := 0 |}.

(** [const timeDiff = 1;] *)
Definition timeDiff : Z := 1.

(** The rate estimator.  [o] is the outcome of
    [osutils.network.statsAsync()], [now] the clock when the function
    resumes after the [await]. *)
Definition getNetworkSpeed (o : Outcome (MonitorResult (list Iface.t)))
    (now : Z) (st : State) : Outcome Speed.t * State :=
  match o with
  | Resolved (Success data) =>
      if (length data =? 0)%nat then (Resolved zeroSpeed, st)
      else
        let totalRxBytes := totalRxOf data in
        let totalTxBytes := totalTxOf data in
        let current := {| Counters.rx := totalRxBytes; Counters.tx := totalTxBytes |} in
        match lastNetworkStats st with
        | Some last =>
            let downloadSpeed := ((totalRxBytes - Counters.rx last) / timeDiff)%Z in
            let uploadSpeed := ((totalTxBytes - Counters.tx last) / timeDiff)%Z in
            let history :=
              History.pushShift 5 (networkSpeedHistory st)
                {| RateSample.download := Z.max 0 downloadSpeed;
                   RateSample.upload := Z.max 0 uploadSpeed;
                   RateSample.timestamp := now |} in
            let avgDownload := average (sumDownload history) (length history) in
            let avgUpload := average (sumUpload history) (length history) in
            (Resolved
               {| Speed.download := formatBytes avgDownload +:+ "/s";
                  Speed.upload := formatBytes avgUpload +:+ "/s";
                  Speed.downloadRaw := avgDownload;
                  Speed.uploadRaw := avgUpload |},
             set_lastNetworkStats (Some current)
               (set_networkSpeedHistory history st))
        | None =>
            (Resolved zeroSpeed, set_lastNetworkStats (Some current) st)
        end
  | Resolved Failure => (Resolved zeroSpeed, st)
  | Rejected _ => (Resolved zeroSpeed, st)
  end.

(** [battery] is [None] when [si.battery()] resolves with a falsy
    value. *)
Definition getBatteryStatus (o : Outcome (option Battery.t))
    : Outcome (option BatteryStatus.t) :=
  match o with
  | Resolved (Some battery) =>
      if Battery.hasBattery battery then
        Resolved (Some
          {| BatteryStatus.level := numOr0 (Battery.percent battery);
             BatteryStatus.isCharging :=
               Battery.isCharging battery
               || falsyNum (Battery.timeRemaining battery);
             BatteryStatus.timeLeft := numOr0 (Battery.timeRemaining battery);
             BatteryStatus.voltage := qOr0 (Battery.voltage battery);
             BatteryStatus.cycleCount := numOr0 (Battery.cycleCount battery) |})
      else Resolved None
  | Resolved None => Resolved None
  | Rejected _ => Resolved None
  end.

End WithFormatBytes.

End Adapters.
Import Adapters.

(** ** The aggregator: [getStats] *)

Module Aggregator.

(** The twelve promises handed to [Promise.all], in array order. *)
Inductive Task : Type :=
| TMemory | TCpuUsage | TCpuInfo | TDiskStats | TNetworkStats | TTemperature
| THeapStats | TProcessCount | TFileSystemInfo | TNetworkSpeed | TBattery
| TDiskLayout.

Definition tasks : list Task :=
  [TMemory; TCpuUsage; TCpuInfo; TDiskStats; TNetworkStats; TTemperature;
   THeapStats; TProcessCount; TFileSystemInfo; TNetworkSpeed; TBattery;
   TDiskLayout].

Definition Task_eqb (a b : Task) : bool :=
  match a, b with
  | TMemory, TMemory | TCpuUsage, TCpuUsage | TCpuInfo, TCpuInfo
  | TDiskStats, TDiskStats | TNetworkStats, TNetworkStats
  | TTemperature, TTemperature | THeapStats, THeapStats
  | TProcessCount, TProcessCount | TFileSystemInfo, TFileSystemInfo
  | TNetworkSpeed, TNetworkSpeed | TBattery, TBattery
  | TDiskLayout, TDiskLayout => true
  | _, _ => false
  end.

(** Everything one pass takes from outside the module: how each library
    promise settles, the host's answers, and the clock.  Every library
    promise is given an outcome here: a pass in which a library promise
    stays pending for ever, which stalls the real [getStats] for ever, is
    not an environment, and nothing below speaks of it. *)
Record Env := {
  osutils_memory_info : Outcome (MonitorResult MemInfo.t);
  osutils_cpu_usage : Outcome (MonitorResult Q);
  osutils_cpu_info : Outcome (MonitorResult CpuInfo.t);
  osutils_disk_usageByMountPoint : Outcome (MonitorResult (option DiskUsage.t));
  (** [osutils.network.statsAsync()] as called by [getNetworkStats] *)
  osutils_network_statsAsync : Outcome (MonitorResult (list Iface.t));
  (** [osutils.network.statsAsync()] as called by [getNetworkSpeed] *)
  osutils_network_statsAsync_speed : Outcome (MonitorResult (list Iface.t));
  osutils_process_stats : Outcome (MonitorResult ProcStats.t);
  si_cpuTemperature : Outcome (option Q);
  si_fsSize : Outcome (option (list FsSize.t));
  si_diskLayout : Outcome (option (list Disk.t));
  si_battery : Outcome (option Battery.t);
  process_memoryUsage : MemoryUsage.t;
  (** the [model] of each entry of [os.cpus()] *)
  os_cpus : list string;
  os_uptime : Z;
  os_platform : string;
  os_arch : string;
  os_hostname : string;
  os_loadavg : list Q;
  timeZone : string;
  toLocaleTimeString : Z -> string;
  toLocaleDateString : Z -> string;
  (** the clock when each adapter is called, during the fan-out *)
  calledAt : Task -> Z;
  (** the clock when the promise an adapter awaits settles and the
      adapter resumes; the adapters resume in this order *)
  settledAt : Task -> Z;
  (** the clock read by [getSystemTime()] in the continuation of
      [Promise.all] *)
  systemTimeAt : Z;
  (** the clock read by [new Date()] for the history samples, in the same
      continuation *)
  joinedAt : Z
}.

(** The state of the twelve promises: [None] while pending. *)
Record Promises := {
  memRes : option (Outcome (MonitorResult MemInfo.t));
  cpuUsageRes : option (Outcome (MonitorResult Q));
  cpuInfoRes : option (Outcome (MonitorResult CpuInfo.t));
  diskStats : option (Outcome (option DiskStats.t));
  networkStats : option (Outcome (list NetIface.t));
  tempInfo : option (Outcome (option string));
  heapStats : option (Outcome Heap.t);
  processCount : option (Outcome ProcessCount.t);
  fileSystemInfo : option (Outcome (list FsInfo.t));
  networkSpeed : option (Outcome Speed.t);
  batteryStatus : option (Outcome CacheData);
  diskLayout : option (Outcome (list DiskInfo.t))
}.

Inductive Buffer : Type := CpuBuffer | MemoryBuffer | NetworkBuffer.

(** What is observed of a pass, in the order it happens. *)
Inductive Event : Type :=
| Settled (t : Task)
| HistoryAppend (b : Buffer) (timestamp : Z)
| RateUpdate.

(** A pass in flight. *)
Record Pass := {
  promises : Promises;
  state : State;
  (** the reason of the first promise that rejected, if any *)
  rejection : option string;
  log : list Event
}.

Record Snapshot := {
  cpu : string;
  cpu_name : string;
  ram : string;
  uptime : Z;
  ram_text : string;
  platform : string;
  architecture : string;
  cpu_cores : Z;
  hostname : string;
  load_average : list Q;
  temperature : option string;
  disk : option DiskStats.t;
  network : list NetIface.t;
  cpu_history : list CpuSample.t;
  memory_history : list MemSample.t;
  network_history : list NetSample.t;
  heap : Heap.t;
  process_count : ProcessCount.t;
  file_system_info : list FsInfo.t;
  network_speed : Speed.t;
  battery_status : option BatteryStatus.t;
  system_time : SystemTime.t;
  disk_layout : list DiskInfo.t
}.

Definition mapOutcome {A B} (f : A -> B) (o : Outcome A) : Outcome B :=
  match o with Resolved a => Resolved (f a) | Rejected r => Rejected r end.

Definition reasonOf {A} (o : Outcome A) : option string :=
  match o with Resolved _ => None | Rejected r => Some r end.

(** Stable insertion sort of the tasks by the instant they resume. *)
Fixpoint insertBy (key : Task -> Z) (t : Task) (l : list Task) : list Task :=
  match l with
  | [] => [t]
  | u :: l' => if (key t <=? key u)%Z then t :: l else u :: insertBy key t l'
  end.

Definition sortBy (key : Task -> Z) (l : list Task) : list Task :=
  fold_right (insertBy key) [] l.

Definition getSystemTime (env : Env) (now : Z) : SystemTime.t :=
  {| SystemTime.time := toLocaleTimeString env now;
     SystemTime.date := toLocaleDateString env now;
     SystemTime.timezone := timeZone env;
     SystemTime.timestamp := now |}.

Section WithFormatBytes.
Variable formatBytes : Q -> string.

(** The three cached producers, as values of the cache table. *)
Definition fsSizeProducer (env : Env) : Outcome CacheData :=
  mapOutcome FsSizeData (si_fsSize env).

Definition diskLayoutProducer (env : Env) : Outcome CacheData :=
  mapOutcome DiskLayoutData (si_diskLayout env).

Definition batteryProducer (env : Env) : Outcome CacheData :=
  mapOutcome BatteryData (getBatteryStatus (si_battery env)).

(** The guard of [cachedCall] for each cached adapter, evaluated when
    the call is made: the fan-out is synchronous, so it sees the table
    [cache0] as it was when the pass began. *)
Definition hitFor (env : Env) (cache0 : gmap string (Cache.Entry CacheData))
    (t : Task) : option CacheData :=
  match t with
  | TFileSystemInfo => Cache.fresh cache0 "fsSize" 10000 (calledAt env t)
  | TBattery => Cache.fresh cache0 "battery" 10000 (calledAt env t)
  | TDiskLayout => Cache.fresh cache0 "diskLayout" 30000 (calledAt env t)
  | _ => None
  end.

Definition pending : Promises :=
  {| memRes := None; cpuUsageRes := None; cpuInfoRes := None;
     diskStats := None; networkStats := None; tempInfo := None;
     heapStats := None; processCount := None; fileSystemInfo := None;
     networkSpeed := None; batteryStatus := None; diskLayout := None |}.

(** The cache table after the [.then] callback of a cached adapter. *)
Definition cachedOutcome (env : Env) (cache0 : gmap string (Cache.Entry CacheData))
    (t : Task) (key : string) (producer : Outcome CacheData)
    (cache : gmap string (Cache.Entry CacheData))
    : Outcome CacheData * gmap string (Cache.Entry CacheData) :=
  Cache.settle key (calledAt env t) (hitFor env cache0 t) producer cache.

(** The module state after the adapter of task [t] has run to its end,
    given the state [st] in which it resumes. *)
Definition stateAfter (env : Env) (cache0 : gmap string (Cache.Entry CacheData))
    (t : Task) (st : State) : State :=
  match t with
  | TNetworkStats =>
      snd (getNetworkStats formatBytes (osutils_network_statsAsync env)
             (settledAt env t) st)
  | TNetworkSpeed =>
      snd (getNetworkSpeed formatBytes (osutils_network_statsAsync_speed env)
             (settledAt env t) st)
  | TFileSystemInfo =>
      set_cache (snd (cachedOutcome env cache0 t "fsSize"
                        (fsSizeProducer env) (_cache st))) st
  | TBattery =>
      set_cache (snd (cachedOutcome env cache0 t "battery"
                        (batteryProducer env) (_cache st))) st
  | TDiskLayout =>
      set_cache (snd (cachedOutcome env cache0 t "diskLayout"
                        (diskLayoutProducer env) (_cache st))) st
  | _ => st
  end.

Definition settlePromise (env : Env) (cache0 : gmap string (Cache.Entry CacheData))
    (t : Task) (st : State) (ps : Promises) : Promises :=
  {| memRes :=
       match t with TMemory => Some (osutils_memory_info env) | _ => memRes ps end;
     cpuUsageRes :=
       match t with TCpuUsage => Some (osutils_cpu_usage env) | _ => cpuUsageRes ps end;
     cpuInfoRes :=
       match t with TCpuInfo => Some (osutils_cpu_info env) | _ => cpuInfoRes ps end;
     diskStats :=
       match t with
       | TDiskStats =>
           Some (getDiskStats formatBytes "/" (osutils_disk_usageByMountPoint env))
       | _ => diskStats ps
       end;
     networkStats :=
       match t with
       | TNetworkStats =>
           Some (fst (getNetworkStats formatBytes (osutils_network_statsAsync env)
                        (settledAt env t) st))
       | _ => networkStats ps
       end;
     tempInfo :=
       match t with
       | TTemperature => Some (getTemperatureInfo (si_cpuTemperature env))
       | _ => tempInfo ps
       end;
     heapStats :=
       match t with
       | THeapStats => Some (getHeapStats formatBytes (process_memoryUsage env))
       | _ => heapStats ps
       end;
     processCount :=
       match t with
       | TProcessCount => Some (getProcessCount (osutils_process_stats env))
       | _ => processCount ps
       end;
     fileSystemInfo :=
       match t with
       | TFileSystemInfo =>
           Some (getFileSystemInfo formatBytes
                   (fst (cachedOutcome env cache0 t "fsSize"
                           (fsSizeProducer env) (_cache st))))
       | _ => fileSystemInfo ps
       end;
     networkSpeed :=
       match t with
       | TNetworkSpeed =>
           Some (fst (getNetworkSpeed formatBytes
                        (osutils_network_statsAsync_speed env)
                        (settledAt env t) st))
       | _ => networkSpeed ps
       end;
     batteryStatus :=
       match t with
       | TBattery =>
           Some (fst (cachedOutcome env cache0 t "battery"
                        (batteryProducer env) (_cache st)))
       | _ => batteryStatus ps
       end;
     diskLayout :=
       match t with
       | TDiskLayout =>
           Some (getDiskLayout formatBytes
                   (fst (cachedOutcome env cache0 t "diskLayout"
                           (diskLayoutProducer env) (_cache st))))
       | _ => diskLayout ps
       end |}.

(** The reason with which the promise of [t] rejects, if it does. *)
Definition rejectionOf (env : Env) (t : Task) : option string :=
  match t with
  | TMemory => reasonOf (osutils_memory_info env)
  | TCpuUsage => reasonOf (osutils_cpu_usage env)
  | TCpuInfo => reasonOf (osutils_cpu_info env)
  | TNetworkStats => reasonOf (osutils_network_statsAsync env)
  | TProcessCount => reasonOf (osutils_process_stats env)
  | _ => None
  end.

(** The writes to the history arrays and to the rate estimator that an
    adapter makes between resuming and settling. *)
Definition effectsOf (env : Env) (t : Task) : list Event :=
  match t with
  | TNetworkStats =>
      match osutils_network_statsAsync env with
      | Resolved (Success _) => [HistoryAppend NetworkBuffer (settledAt env t)]
      | _ => []
      end
  | TNetworkSpeed =>
      match osutils_network_statsAsync_speed env with
      | Resolved (Success data) =>
          if (length data =? 0)%nat then [] else [RateUpdate]
      | _ => []
      end
  | _ => []
  end.

(** One adapter resumes, runs to its end, and its promise settles. *)
Definition resume (env : Env) (cache0 : gmap string (Cache.Entry CacheData))
    (p : Pass) (t : Task) : Pass :=
  {| promises := settlePromise env cache0 t (state p) (promises p);
     state := stateAfter env cache0 t (state p);
     rejection :=
       match rejection p with
       | Some r => Some r
       | None => rejectionOf env t
       end;
     log := log p ++ effectsOf env t ++ [Settled t] |}.

(** [getHeapStats] has no [await]: its promise is settled when the
    call returns.  The others resume in the order of [settledAt]. *)
Definition schedule (env : Env) : list Task :=
  THeapStats
  :: sortBy (settledAt env)
       (List.filter (fun t => negb (Task_eqb t THeapStats)) tasks).

Definition fanOut (st : State) : Pass :=
  {| promises := pending; state := st; rejection := None; log := [] |}.

Definition runAdapters (env : Env) (st : State) : Pass :=
  fold_left (resume env (_cache st)) (schedule env) (fanOut st).

(** [await] on one element of the array: the continuation runs only on a
    resolved promise. *)
Definition await {A B : Type} (p : option (Outcome A)) (k : A -> option B)
    : option B :=
  match p with
  | Some (Resolved a) => k a
  | _ => None
  end.

(** The body of [getStats] after [await Promise.all([...])]. *)
Definition assemble (env : Env) (st : State)
    (memRes : MonitorResult MemInfo.t) (cpuUsageRes : MonitorResult Q)
    (cpuInfoRes : MonitorResult CpuInfo.t) (diskStats : option DiskStats.t)
    (networkStats : list NetIface.t) (tempInfo : option string)
    (heapStats : Heap.t) (processCount : ProcessCount.t)
    (fileSystemInfo : list FsInfo.t) (networkSpeed : Speed.t)
    (batteryStatus : CacheData) (diskLayout : list DiskInfo.t)
    : Snapshot * State :=
  let totalMem := match memRes with Success d => MemInfo.total d | Failure => 0%Z end in
  let usedMem := match memRes with Success d => MemInfo.used d | Failure => 0%Z end in
  let usedMemPercent :=
    match memRes with
    | Success d => toFixed (MemInfo.usagePercentage d) 2
    | Failure => "0.00"
    end in
  let cpuUsage := match cpuUsageRes with Success d => d | Failure => 0%Q end in
  let cpuName :=
    match cpuInfoRes with
    | Success d => CpuInfo.model d
    | Failure => strOr (head (os_cpus env)) "Unknown"
    end in
  let cpuCores :=
    match cpuInfoRes with
    | Success d => CpuInfo.cores d
    | Failure => Z.of_nat (length (os_cpus env))
    end in
  let uptime := os_uptime env in
  let systemTime := getSystemTime env (systemTimeAt env) in
  let timestamp := joinedAt env in
  let cpuHistory' :=
    History.pushShift History.historyLimit (cpuHistory st)
      {| CpuSample.timestamp := timestamp; CpuSample.usage := cpuUsage |} in
  let memoryHistory' :=
    History.pushShift History.historyLimit (memoryHistory st)
      {| MemSample.timestamp := timestamp;
         MemSample.usage := parseFloat usedMemPercent;
         MemSample.used := usedMem; MemSample.total := totalMem |} in
  let st' := set_memoryHistory memoryHistory' (set_cpuHistory cpuHistory' st) in
  ({| cpu := toFixed cpuUsage 2 +:+ "%";
      cpu_name := cpuName;
      ram := usedMemPercent +:+ "%";
      uptime := uptime;
      ram_text :=
        fmt formatBytes usedMem +:+ " / " +:+ fmt formatBytes totalMem
        +:+ " (" +:+ usedMemPercent +:+ "%)";
      platform := os_platform env;
      architecture := os_arch env;
      cpu_cores := cpuCores;
      hostname := os_hostname env;
      load_average := os_loadavg env;
      temperature := tempInfo;
      disk := diskStats;
      network := networkStats;
      cpu_history := cpuHistory st';
      memory_history := memoryHistory st';
      network_history := networkHistory st';
      heap := heapStats;
      process_count := processCount;
      file_system_info := fileSystemInfo;
      network_speed := networkSpeed;
      battery_status := asBattery batteryStatus;
      system_time := systemTime;
      disk_layout := diskLayout |}, st').

(** The continuation of [Promise.all] once it has resolved: [None] while
    an element is not resolved. *)
Definition join (env : Env) (p : Pass) : option (Snapshot * State) :=
  let ps := promises p in
  await (memRes ps) (fun memRes =>
  await (cpuUsageRes ps) (fun cpuUsageRes =>
  await (cpuInfoRes ps) (fun cpuInfoRes =>
  await (diskStats ps) (fun diskStats =>
  await (networkStats ps) (fun networkStats =>
  await (tempInfo ps) (fun tempInfo =>
  await (heapStats ps) (fun heapStats =>
  await (processCount ps) (fun processCount =>
  await (fileSystemInfo ps) (fun fileSystemInfo =>
  await (networkSpeed ps) (fun networkSpeed =>
  await (batteryStatus ps) (fun batteryStatus =>
  await (diskLayout ps) (fun diskLayout =>
    Some (assemble env (state p) memRes cpuUsageRes cpuInfoRes diskStats
            networkStats tempInfo heapStats processCount fileSystemInfo
            networkSpeed batteryStatus diskLayout))))))))))))).

(** One call of [getStats] in module state [st].  The first component is
    the promise it returns: [Some (Resolved snapshot)], [Some (Rejected r)]
    when an element of the array rejected ([Promise.all] rejects with the
    first rejection and the continuation never runs), [None] if it never
    settles.  Then the module state and the events of the pass, both taken
    when the pass is over, that is when the last adapter the call started
    has settled.  For a call that resolves that is the instant it
    resolves.  A call that rejects does so earlier, while the adapters
    that resume after the rejecting one are still pending; they run on,
    and the state given here is the one they leave (the state at the
    instant of the rejection is [stateAtRejection] below). *)
Definition getStats (env : Env) (st : State)
    : option (Outcome Snapshot) * State * list Event :=
  let p := runAdapters env st in
  match rejection p with
  | Some r => (Some (Rejected r), state p, log p)
  | None =>
      match join env p with
      | Some (snapshot, st') =>
          (Some (Resolved snapshot), st',
           log p ++ [HistoryAppend CpuBuffer (joinedAt env);
                     HistoryAppend MemoryBuffer (joinedAt env)])
      | None => (None, state p, log p)
      end
  end.

(** The module state after a sequence of calls, one after the other:
    each call is made when the one before is over, so that no two passes
    overlap. *)
Definition stateAfterCalls (envs : list Env) (st : State) : State :=
  fold_left (fun st env => snd (fst (getStats env st))) envs st.

End WithFormatBytes.

End Aggregator.
Import Aggregator.

(** ** Vocabulary of the statements *)

Module Spec.

(** [t] is among the adapters in [l]. *)
Definition among (t : Task) (l : list Task) : bool := existsb (Task_eqb t) l.

Section WithFormatBytes.
Variable formatBytes : Q -> string.

(** What the promise of each adapter settles with in a pass that starts in
    state [st]: a function of the environment and of [st] alone. *)
Definition outcomes (env : Env) (st : State) : Promises :=
  {| memRes := Some (osutils_memory_info env);
     cpuUsageRes := Some (osutils_cpu_usage env);
     cpuInfoRes := Some (osutils_cpu_info env);
     diskStats :=
       Some (getDiskStats formatBytes "/" (osutils_disk_usageByMountPoint env));
     networkStats :=
       Some (fst (getNetworkStats formatBytes (osutils_network_statsAsync env)
                    (settledAt env TNetworkStats) st));
     tempInfo := Some (getTemperatureInfo (si_cpuTemperature env));
     heapStats := Some (getHeapStats formatBytes (process_memoryUsage env));
     processCount := Some (getProcessCount (osutils_process_stats env));
     fileSystemInfo :=
       Some (getFileSystemInfo formatBytes
               (match hitFor env (_cache st) TFileSystemInfo with
                | Some d => Resolved d
                | None => fsSizeProducer env
                end));
     networkSpeed :=
       Some (fst (getNetworkSpeed formatBytes (osutils_network_statsAsync_speed env)
                    (settledAt env TNetworkSpeed) st));
     batteryStatus :=
       Some (match hitFor env (_cache st) TBattery with
             | Some d => Resolved d
             | None => batteryProducer env
             end);
     diskLayout :=
       Some (getDiskLayout formatBytes
               (match hitFor env (_cache st) TDiskLayout with
                | Some d => Resolved d
                | None => diskLayoutProducer env
                end)) |}.

(** The promises when exactly the adapters in [l] have settled. *)
Definition settledAmong (env : Env) (st : State) (l : list Task) : Promises :=
  let o := outcomes env st in
  {| memRes := if among TMemory l then memRes o else None;
     cpuUsageRes := if among TCpuUsage l then cpuUsageRes o else None;
     cpuInfoRes := if among TCpuInfo l then cpuInfoRes o else None;
     diskStats := if among TDiskStats l then diskStats o else None;
     networkStats := if among TNetworkStats l then networkStats o else None;
     tempInfo := if among TTemperature l then tempInfo o else None;
     heapStats := if among THeapStats l then heapStats o else None;
     processCount := if among TProcessCount l then processCount o else None;
     fileSystemInfo := if among TFileSystemInfo l then fileSystemInfo o else None;
     networkSpeed := if among TNetworkSpeed l then networkSpeed o else None;
     batteryStatus := if among TBattery l then batteryStatus o else None;
     diskLayout := if among TDiskLayout l then diskLayout o else None |}.

(** The events of the adapters in [l], resuming in that order. *)
Definition eventsOf (env : Env) (l : list Task) : list Event :=
  flat_map (fun t => effectsOf env t ++ [Settled t]) l.

(** The three parts of what [getStats] returns. *)
Definition snapshotOf (r : option (Outcome Snapshot) * State * list Event)
    : option Snapshot :=
  match fst (fst r) with
  | Some (Resolved s) => Some s
  | _ => None
  end.

Definition stateOf (r : option (Outcome Snapshot) * State * list Event) : State :=
  snd (fst r).

Definition logOf (r : option (Outcome Snapshot) * State * list Event) : list Event :=
  snd r.

(** The CPU sample a pass that resolves appends. *)
Definition cpuSampleOf (env : Env) : CpuSample.t :=
  {| CpuSample.timestamp := joinedAt env;
     CpuSample.usage :=
       match osutils_cpu_usage env with
       | Resolved (Success d) => d
       | _ => 0%Q
       end |}.

(** The bounds the module keeps on its arrays. *)
Definition bounded (st : State) : Prop :=
  (length (cpuHistory st) <= History.historyLimit)%nat
  /\ (length (memoryHistory st) <= History.historyLimit)%nat
  /\ (length (networkHistory st) <= History.historyLimit)%nat
  /\ (length (networkSpeedHistory st) <= 5)%nat.

(** Each entry of the cache table sits under the key of the call site
    that produced it. *)
Definition cacheTyped (c : gmap string (Cache.Entry CacheData)) : Prop :=
  forall key e,
    c !! key = Some e ->
    match Cache.data e with
    | FsSizeData _ => key = "fsSize"
    | DiskLayoutData _ => key = "diskLayout"
    | BatteryData _ => key = "battery"
    end.

(** The [osutils] promises that the module awaits outside any [try]
    resolve (with a result object that may well report failure). *)
Definition osutilsResolve (env : Env) : Prop :=
  isResolved (osutils_memory_info env) = true
  /\ isResolved (osutils_cpu_usage env) = true
  /\ isResolved (osutils_cpu_info env) = true
  /\ isResolved (osutils_network_statsAsync env) = true
  /\ isResolved (osutils_process_stats env) = true.

(** The source behind the snapshot field of adapter [t] was asked in this
    pass and failed: an [osutils] call reported [success: false] (or, where
    the adapter has a [try], rejected), a [systeminformation] call rejected
    or resolved with nothing usable.  A cached adapter asks its source only
    when the cache has no fresh entry. *)
Definition sourceFailed (env : Env) (st : State) (t : Task) : Prop :=
  match t with
  | TMemory => osutils_memory_info env = Resolved Failure
  | TCpuUsage => osutils_cpu_usage env = Resolved Failure
  | TCpuInfo => osutils_cpu_info env = Resolved Failure
  | TDiskStats =>
      osutils_disk_usageByMountPoint env = Resolved Failure
      \/ exists r, osutils_disk_usageByMountPoint env = Rejected r
  | TNetworkStats => osutils_network_statsAsync env = Resolved Failure
  | TTemperature =>
      si_cpuTemperature env = Resolved None
      \/ exists r, si_cpuTemperature env = Rejected r
  | THeapStats => False
  | TProcessCount => osutils_process_stats env = Resolved Failure
  | TFileSystemInfo =>
      hitFor env (_cache st) t = None
      /\ (si_fsSize env = Resolved None \/ exists r, si_fsSize env = Rejected r)
  | TNetworkSpeed =>
      osutils_network_statsAsync_speed env = Resolved Failure
      \/ exists r, osutils_network_statsAsync_speed env = Rejected r
  | TBattery =>
      hitFor env (_cache st) t = None
      /\ (si_battery env = Resolved None \/ exists r, si_battery env = Rejected r)
  | TDiskLayout =>
      hitFor env (_cache st) t = None
      /\ (si_diskLayout env = Resolved None
          \/ exists r, si_diskLayout env = Rejected r)
  end.

(** The snapshot field fed by adapter [t] holds the value the code gives
    it when that source fails. *)
Definition holdsDefault (env : Env) (t : Task) (s : Snapshot) : Prop :=
  match t with
  | TMemory =>
      ram s = "0.00%"
      /\ ram_text s
         = fmt formatBytes 0 +:+ " / " +:+ fmt formatBytes 0 +:+ " (0.00%)"
  | TCpuUsage => cpu s = "0.00%"
  | TCpuInfo =>
      cpu_name s = strOr (head (os_cpus env)) "Unknown"
      /\ cpu_cores s = Z.of_nat (length (os_cpus env))
  | TDiskStats => disk s = None
  | TNetworkStats => network s = []
  | TTemperature => temperature s = None
  | THeapStats => True
  | TProcessCount =>
      process_count s
      = {| ProcessCount.all := 0; ProcessCount.running := 0;
           ProcessCount.blocked := 0; ProcessCount.sleeping := 0 |}
  | TFileSystemInfo => file_system_info s = []
  | TNetworkSpeed =>
      network_speed s
      = {| Speed.download := "0 KB/s"; Speed.upload := "0 KB/s";
           Speed.downloadRaw := 0; Speed.uploadRaw := 0 |}
  | TBattery => battery_status s = None
  | TDiskLayout => disk_layout s = []
  end.

End WithFormatBytes.

End Spec.
Import Spec.

(** ** Inputs used in the worked examples *)

Module Samples.

(** A stand-in for [formatBytes] where an example needs one to run: the
    number with two decimals and the unit. *)
Definition sampleFormatBytes (q : Q) : string := toFixed q 2 +:+ " B".

Definition eth0 (rx tx : Z) : Iface.t :=
  {| Iface.interface := "eth0"; Iface.rxBytes := Some rx; Iface.txBytes := Some tx |}.

(** A cache table over numbers, with the clock as the whole world. *)
Definition numberCache : gmap string (Cache.Entry nat) := ∅.

(** A producer that takes [elapsed] milliseconds and resolves with [v]. *)
Definition slowProducer (elapsed : Z) (v : nat) (w : Z) : Outcome nat * Z :=
  (Resolved v, (w + elapsed)%Z).

(** A producer that takes [elapsed] milliseconds and rejects. *)
Definition failingProducer (elapsed : Z) (w : Z) : Outcome nat * Z :=
  (Rejected "EIO", (w + elapsed)%Z).

(** The instants at which the adapters resume in the examples: the
    network counters come back first, the temperature sensor last. *)
Definition sampleSettledAt (t : Task) : Z :=
  match t with
  | TNetworkStats => 10
  | TNetworkSpeed => 12
  | TMemory | TCpuUsage | TCpuInfo => 20
  | TDiskStats | TProcessCount => 25
  | TFileSystemInfo | TBattery | TDiskLayout => 30
  | TTemperature => 50
  | THeapStats => 0
  end.

Definition sampleMemoryUsage : MemoryUsage.t :=
  {| MemoryUsage.rss := 4096; MemoryUsage.heapTotal := 2048;
     MemoryUsage.heapUsed := 1024; MemoryUsage.external := 16;
     MemoryUsage.arrayBuffers := None |}.

(** A host on which every library call succeeds.  The memory reading has
    50 bytes used of 100 and a usage percentage of 75. *)
Definition busyEnv : Env :=
  {| osutils_memory_info :=
       Resolved (Success {| MemInfo.total := 100; MemInfo.used := 50;
                            MemInfo.usagePercentage := 75 # 1 |});
     osutils_cpu_usage := Resolved (Success (25 # 2));
     osutils_cpu_info := Resolved (Success {| CpuInfo.model := "cpu0"; CpuInfo.cores := 4 |});
     osutils_disk_usageByMountPoint :=
       Resolved (Success (Some {| DiskUsage.total := 1000; DiskUsage.used := 400;
                                  DiskUsage.available := 600;
                                  DiskUsage.usagePercentage := 40 # 1 |}));
     osutils_network_statsAsync := Resolved (Success [eth0 1000 500]);
     osutils_network_statsAsync_speed := Resolved (Success [eth0 1000 500]);
     osutils_process_stats :=
       Resolved (Success {| ProcStats.total := 90; ProcStats.running := 2;
                            ProcStats.stopped := None; ProcStats.sleeping := Some 88%Z |});
     si_cpuTemperature := Resolved (Some (913 # 20));
     si_fsSize := Resolved (Some []);
     si_diskLayout := Resolved (Some []);
     si_battery := Resolved None;
     process_memoryUsage := sampleMemoryUsage;
     os_cpus := ["cpu0"; "cpu0"; "cpu0"; "cpu0"];
     os_uptime := 3600;
     os_platform := "linux";
     os_arch := "x64";
     os_hostname := "host";
     os_loadavg := [];
     timeZone := "UTC";
     toLocaleTimeString := fun _ => "00:00:00";
     toLocaleDateString := fun _ => "1/1/1970";
     calledAt := fun _ => 1%Z;
     settledAt := sampleSettledAt;
     systemTimeAt := 60;
     joinedAt := 60 |}.

(** The same host with another memory reading. *)
Definition withMemory (m : Outcome (MonitorResult MemInfo.t)) (env : Env) : Env :=
  {| osutils_memory_info := m;
     osutils_cpu_usage := osutils_cpu_usage env;
     osutils_cpu_info := osutils_cpu_info env;
     osutils_disk_usageByMountPoint := osutils_disk_usageByMountPoint env;
     osutils_network_statsAsync := osutils_network_statsAsync env;
     osutils_network_statsAsync_speed := osutils_network_statsAsync_speed env;
     osutils_process_stats := osutils_process_stats env;
     si_cpuTemperature := si_cpuTemperature env;
     si_fsSize := si_fsSize env;
     si_diskLayout := si_diskLayout env;
     si_battery := si_battery env;
     process_memoryUsage := process_memoryUsage env;
     os_cpus := os_cpus env;
     os_uptime := os_uptime env;
     os_platform := os_platform env;
     os_arch := os_arch env;
     os_hostname := os_hostname env;
     os_loadavg := os_loadavg env;
     timeZone := timeZone env;
     toLocaleTimeString := toLocaleTimeString env;
     toLocaleDateString := toLocaleDateString env;
     calledAt := calledAt env;
     settledAt := settledAt env;
     systemTimeAt := systemTimeAt env;
     joinedAt := joinedAt env |}.

(** A memory reading that succeeds with a total of zero bytes and a usage
    percentage of 75. *)
Definition zeroTotalEnv : Env :=
  withMemory
    (Resolved (Success {| MemInfo.total := 0; MemInfo.used := 0;
                          MemInfo.usagePercentage := 75 # 1 |}))
    busyEnv.

(** The same host when every source fails: the [osutils] calls report
    [success: false] and the [systeminformation] calls reject. *)
Definition deadEnv : Env :=
  {| osutils_memory_info := Resolved Failure;
     osutils_cpu_usage := Resolved Failure;
     osutils_cpu_info := Resolved Failure;
     osutils_disk_usageByMountPoint := Resolved Failure;
     osutils_network_statsAsync := Resolved Failure;
     osutils_network_statsAsync_speed := Resolved Failure;
     osutils_process_stats := Resolved Failure;
     si_cpuTemperature := Rejected "unsupported";
     si_fsSize := Rejected "unsupported";
     si_diskLayout := Rejected "unsupported";
     si_battery := Rejected "unsupported";
     process_memoryUsage := sampleMemoryUsage;
     os_cpus := [];
     os_uptime := 3600;
     os_platform := "linux";
     os_arch := "x64";
     os_hostname := "host";
     os_loadavg := [];
     timeZone := "UTC";
     toLocaleTimeString := fun _ => "00:00:00";
     toLocaleDateString := fun _ => "1/1/1970";
     calledAt := fun _ => 1%Z;
     settledAt := sampleSettledAt;
     systemTimeAt := 60;
     joinedAt := 60 |}.

End Samples.
Import Samples.

(** ** A pass in closed form *)

Module Closed.

(** The cache table after the [.then] callback of one cached adapter. *)
Definition storedBy (env : Env) (cache0 : gmap string (Cache.Entry CacheData))
    (t : Task) (key : string) (producer : Outcome CacheData)
    (c : gmap string (Cache.Entry CacheData))
    : gmap string (Cache.Entry CacheData) :=
  snd (cachedOutcome env cache0 t key producer c).

(** The cache table after the three cached adapters of a pass that began
    with the table [cache0]. *)
Definition cacheAfter (env : Env) (cache0 : gmap string (Cache.Entry CacheData))
    : gmap string (Cache.Entry CacheData) :=
  storedBy env cache0 TFileSystemInfo "fsSize" (fsSizeProducer env)
    (storedBy env cache0 TBattery "battery" (batteryProducer env)
       (storedBy env cache0 TDiskLayout "diskLayout" (diskLayoutProducer env)
          cache0)).

(** The same environment with the adapters resuming at other instants. *)
Definition withSettledAt (f : Task -> Z) (env : Env) : Env :=
  {| osutils_memory_info := osutils_memory_info env;
     osutils_cpu_usage := osutils_cpu_usage env;
     osutils_cpu_info := osutils_cpu_info env;
     osutils_disk_usageByMountPoint := osutils_disk_usageByMountPoint env;
     osutils_network_statsAsync := osutils_network_statsAsync env;
     osutils_network_statsAsync_speed := osutils_network_statsAsync_speed env;
     osutils_process_stats := osutils_process_stats env;
     si_cpuTemperature := si_cpuTemperature env;
     si_fsSize := si_fsSize env;
     si_diskLayout := si_diskLayout env;
     si_battery := si_battery env;
     process_memoryUsage := process_memoryUsage env;
     os_cpus := os_cpus env;
     os_uptime := os_uptime env;
     os_platform := os_platform env;
     os_arch := os_arch env;
     os_hostname := os_hostname env;
     os_loadavg := os_loadavg env;
     timeZone := timeZone env;
     toLocaleTimeString := toLocaleTimeString env;
     toLocaleDateString := toLocaleDateString env;
     calledAt := calledAt env;
     settledAt := f;
     systemTimeAt := systemTimeAt env;
     joinedAt := joinedAt env |}.

(** The network sample a pass appends, if it appends one. *)
Definition netSampleOf (env : Env) : option NetSample.t :=
  match osutils_network_statsAsync env with
  | Resolved (Success data) =>
      Some {| NetSample.timestamp := settledAt env TNetworkStats;
              NetSample.input := totalRxOf data;
              NetSample.output := totalTxOf data |}
  | _ => None
  end.

(** The memory sample a call that resolves appends. *)
Definition memSampleOf (env : Env) : MemSample.t :=
  match osutils_memory_info env with
  | Resolved (Success d) =>
      {| MemSample.timestamp := joinedAt env;
         MemSample.usage := parseFloat (toFixed (MemInfo.usagePercentage d) 2);
         MemSample.used := MemInfo.used d;
         MemSample.total := MemInfo.total d |}
  | _ =>
      {| MemSample.timestamp := joinedAt env;
         MemSample.usage := parseFloat "0.00";
         MemSample.used := 0; MemSample.total := 0 |}
  end.

(** No [osutils] promise awaited outside a [try] rejects. *)
Definition resolves (env : Env) : bool :=
  isResolved (osutils_memory_info env)
  && isResolved (osutils_cpu_usage env)
  && isResolved (osutils_cpu_info env)
  && isResolved (osutils_network_statsAsync env)
  && isResolved (osutils_process_stats env).

(** No sample of the rate estimator is negative. *)
Definition ratesNonneg (st : State) : Prop :=
  Forall
    (fun s => (0 <= RateSample.download s)%Z /\ (0 <= RateSample.upload s)%Z)
    (networkSpeedHistory st).

Definition totalsOf (data : list Iface.t) : Counters.t :=
  {| Counters.rx := totalRxOf data; Counters.tx := totalTxOf data |}.

(** The samples the estimator builds from a sequence of successful
    readings, starting from the counters [last]. *)
Fixpoint rateSamples (last : Counters.t) (readings : list (list Iface.t * Z))
    : list RateSample.t :=
  match readings with
  | [] => []
  | (data, now) :: rest =>
      {| RateSample.download := Z.max 0 (totalRxOf data - Counters.rx last);
         RateSample.upload := Z.max 0 (totalTxOf data - Counters.tx last);
         RateSample.timestamp := now |}
      :: rateSamples (totalsOf data) rest
  end.

(** The increases along a sequence of counter values that starts at [r0],
    a decrease counting for 0. *)
Fixpoint gains (r0 : Z) (rs : list Z) : list Z :=
  match rs with
  | [] => []
  | r :: rs' => Z.max 0 (r - r0) :: gains r rs'
  end.

(** The received-byte totals of a sequence of readings. *)
Definition rxTotals (readings : list (list Iface.t * Z)) : list Z :=
  map (fun r => totalRxOf (fst r)) readings.

Definition txTotals (readings : list (list Iface.t * Z)) : list Z :=
  map (fun r => totalTxOf (fst r)) readings.

Section WithFormatBytes.
Variable formatBytes : Q -> string.

(** The module state when every adapter of a pass that began in [st] has
    run to its end. *)
Definition stateAfterAdapters (env : Env) (st : State) : State :=
  {| cpuHistory := cpuHistory st;
     memoryHistory := memoryHistory st;
     networkHistory :=
       networkHistory
         (snd (getNetworkStats formatBytes (osutils_network_statsAsync env)
                 (settledAt env TNetworkStats) st));
     _cache := cacheAfter env (_cache st);
     lastNetworkStats :=
       lastNetworkStats
         (snd (getNetworkSpeed formatBytes (osutils_network_statsAsync_speed env)
                 (settledAt env TNetworkSpeed) st));
     networkSpeedHistory :=
       networkSpeedHistory
         (snd (getNetworkSpeed formatBytes (osutils_network_statsAsync_speed env)
                 (settledAt env TNetworkSpeed) st)) |}.

(** The module state when a call of [getStats] that began in [st]
    resolves: every adapter has run to its end and the continuation of
    [Promise.all] has pushed its two samples. *)
Definition stateAfterResolved (env : Env) (st : State) : State :=
  set_memoryHistory (History.append (memoryHistory st) (memSampleOf env))
    (set_cpuHistory (History.append (cpuHistory st) (cpuSampleOf env))
       (stateAfterAdapters env st)).

(** The module state once a call of [getStats] is over, that is when the
    last of the adapters it started has settled.  For a call that resolves
    this is the state when it resolves.  For a call that rejects it is
    later than the rejection: the adapters still pending then run on. *)
Definition stateAfterCall (env : Env) (st : State) : State :=
  if resolves env then stateAfterResolved env st
  else stateAfterAdapters env st.

(** The adapters that have settled at the instant the promise of
    [getStats] rejects: [Promise.all] rejects with the first rejection, so
    these are the adapters of [l], in the order they resume, up to and
    including the first whose promise rejects. *)
Fixpoint upToRejection (env : Env) (l : list Task) : list Task :=
  match l with
  | [] => []
  | t :: l' =>
      match rejectionOf env t with
      | Some _ => [t]
      | None => t :: upToRejection env l'
      end
  end.

Definition settledFirst (env : Env) : list Task :=
  upToRejection env (schedule env).

(** The module state at the instant the promise of [getStats] rejects:
    the adapters of [settledFirst] have run, the others are pending and
    have written nothing yet. *)
Definition stateAtRejection (env : Env) (st : State) : State :=
  state (fold_left (resume formatBytes env (_cache st)) (settledFirst env)
           (fanOut st)).

(** The rate estimator fed a sequence of successful readings, each a list
    of interfaces and the clock at which it is processed. *)
Definition feedSpeed (readings : list (list Iface.t * Z)) (st : State) : State :=
  fold_left
    (fun s r => snd (getNetworkSpeed formatBytes (Resolved (Success (fst r))) (snd r) s))
    readings st.

End WithFormatBytes.

End Closed.
Import Closed.

(** ** The sequential version of the module ([lib/stats.js])

    The same adapters awaited one after the other, without the cache and
    without the disk layout; [getFileSystemInfo] describes the root file
    system only, [getBatteryStatus] takes [isCharging] as it is reported,
    [getTemperatureInfo] ends its string with other bytes, and the uptime
    comes from [osutils.system.uptime()].  [getDiskStats],
    [getNetworkStats], [getHeapStats], [getProcessCount],
    [getNetworkSpeed] and [getSystemTime] are the same text in both
    versions. *)

Module Legacy.

Module Inodes.
Record t := { used : N; total : N }.
End Inodes.

(** An element of what [si.fsSize()] resolves with, as this version reads
    it. *)
Module FsEntry.
Record t := { fsType : option string; inodes : option Inodes.t;
              blocksize : option Z; mount : option string }.
End FsEntry.

Module FsRoot.
Record t := { type : string; inodes : string; blocksize : string;
              mount : string }.
End FsRoot.

(** What this version takes from outside besides what the other takes. *)
Record Env := {
  base : Aggregator.Env;
  (** [osutils.system.uptime()], whose [data.uptime] is in milliseconds *)
  osutils_system_uptime : Outcome (MonitorResult Z);
  (** the clock when that promise settles *)
  uptimeSettledAt : Z;
  si_fsSize : Outcome (option (list FsEntry.t))
}.

Record Snapshot := {
  cpu : string;
  cpu_name : string;
  ram : string;
  uptime : Z;
  ram_text : string;
  platform : string;
  architecture : string;
  cpu_cores : Z;
  hostname : string;
  load_average : list Q;
  temperature : option string;
  disk : option DiskStats.t;
  network : list NetIface.t;
  cpu_history : list CpuSample.t;
  memory_history : list MemSample.t;
  network_history : list NetSample.t;
  heap : Heap.t;
  process_count : ProcessCount.t;
  file_system_info : FsRoot.t;
  network_speed : Speed.t;
  battery_status : option BatteryStatus.t;
  system_time : SystemTime.t
}.

(** [fs.mount === '/' || fs.mount === 'C:'] *)
Definition isRoot (fs : FsEntry.t) : bool :=
  match FsEntry.mount fs with
  | Some m => String.eqb m "/" || String.eqb m "C:"
  | None => false
  end.

(** [fsSize.find(...) || fsSize[0]] *)
Definition rootFsOf (fsSize : list FsEntry.t) : option FsEntry.t :=
  match List.find isRoot fsSize with
  | Some fs => Some fs
  | None => head fsSize
  end.

Definition unknownFs : FsRoot.t :=
  {| FsRoot.type := "Unknown"; FsRoot.inodes := "N/A";
     FsRoot.blocksize := "N/A"; FsRoot.mount := "Unknown" |}.

(** [Promise.all] rejects with the reason of the promise that rejects
    first: the earliest in time, the first of the array among equals. *)
Fixpoint firstRejected (best : option (Z * string)) (l : list (Z * option string))
    : option string :=
  match l with
  | [] => option_map snd best
  | (t, Some r) :: l' =>
      match best with
      | Some (tb, _) =>
          if (t <? tb)%Z then firstRejected (Some (t, r)) l' else firstRejected best l'
      | None => firstRejected (Some (t, r)) l'
      end
  | (_, None) :: l' => firstRejected best l'
  end.

(** [await f()] inside [getStats]: a rejection ends the call in the module
    state reached so far. *)
Definition awaitOr {A B : Type} (o : Outcome A) (st : State)
    (k : A -> Outcome B * State) : Outcome B * State :=
  match o with
  | Resolved a => k a
  | Rejected r => (Rejected r, st)
  end.

(** The suffix of the temperature string in this version of the file:
    the five bytes C3 82 C2 B0 43, where the other version has C2 B0 43. *)
Definition degrees : string := "Â°C".

(** [main] is [Some] when [tempData.main] is a number other than NaN. *)
Definition getTemperatureInfo (o : Outcome (option Q)) : Outcome (option string) :=
  match o with
  | Resolved (Some main) => Resolved (Some (toFixed main 1 +:+ degrees))
  | Resolved None => Resolved None
  | Rejected _ => Resolved None
  end.

Section WithFormatBytes.
Variable formatBytes : Q -> string.

Definition rootInfoOf (rootFs : FsEntry.t) : FsRoot.t :=
  {| FsRoot.type := strOr (FsEntry.fsType rootFs) "Unknown";
     FsRoot.inodes :=
       match FsEntry.inodes rootFs with
       | Some i =>
           digits (Z.of_N (Inodes.used i)) +:+ "/" +:+ digits (Z.of_N (Inodes.total i))
       | None => "N/A"
       end;
     FsRoot.blocksize :=
       match FsEntry.blocksize rootFs with
       | Some b => if (b =? 0)%Z then "N/A" else fmt formatBytes b
       | None => "N/A"
       end;
     FsRoot.mount := strOr (FsEntry.mount rootFs) "Unknown" |}.

Definition getFileSystemInfo (o : Outcome (option (list FsEntry.t)))
    : Outcome FsRoot.t :=
  match o with
  | Resolved (Some fsSize) =>
      if (0 <? length fsSize)%nat then
        match rootFsOf fsSize with
        | Some rootFs => Resolved (rootInfoOf rootFs)
        | None => Resolved unknownFs
        end
      else Resolved unknownFs
  | Resolved None => Resolved unknownFs
  | Rejected _ => Resolved unknownFs
  end.

Definition getBatteryStatus (o : Outcome (option Battery.t))
    : Outcome (option BatteryStatus.t) :=
  match o with
  | Resolved (Some battery) =>
      if Battery.hasBattery battery then
        Resolved (Some
          {| BatteryStatus.level := numOr0 (Battery.percent battery);
             BatteryStatus.isCharging := Battery.isCharging battery;
             BatteryStatus.timeLeft := numOr0 (Battery.timeRemaining battery);
             BatteryStatus.voltage := qOr0 (Battery.voltage battery);
             BatteryStatus.cycleCount := numOr0 (Battery.cycleCount battery) |})
      else Resolved None
  | Resolved None => Resolved None
  | Rejected _ => Resolved None
  end.

(** [uptimeRes.success ? Math.floor(uptimeRes.data.uptime / 1000) : os.uptime()] *)
Definition uptimeOf (env : Env) (uptimeRes : MonitorResult Z) : Z :=
  match uptimeRes with
  | Success ms => (ms / 1000)%Z
  | Failure => os_uptime (base env)
  end.

(** The body of [getStats] after the last [await]. *)
Definition assemble (env : Env) (st : State)
    (memRes : MonitorResult MemInfo.t) (cpuUsageRes : MonitorResult Q)
    (cpuInfoRes : MonitorResult CpuInfo.t) (uptimeRes : MonitorResult Z)
    (diskStats : option DiskStats.t) (networkStats : list NetIface.t)
    (tempInfo : option string) (heapStats : Heap.t)
    (processCount : ProcessCount.t) (fileSystemInfo : FsRoot.t)
    (networkSpeed : Speed.t) (batteryStatus : option BatteryStatus.t)
    : Snapshot * State :=
  let b := base env in
  let totalMem := match memRes with Success d => MemInfo.total d | Failure => 0%Z end in
  let usedMem := match memRes with Success d => MemInfo.used d | Failure => 0%Z end in
  let usedMemPercent :=
    match memRes with
    | Success d => toFixed (MemInfo.usagePercentage d) 2
    | Failure => "0.00"
    end in
  let cpuUsage := match cpuUsageRes with Success d => d | Failure => 0%Q end in
  let cpuName :=
    match cpuInfoRes with
    | Success d => CpuInfo.model d
    | Failure => strOr (head (os_cpus b)) "Unknown"
    end in
  let cpuCores :=
    match cpuInfoRes with
    | Success d => CpuInfo.cores d
    | Failure => Z.of_nat (length (os_cpus b))
    end in
  let uptime := uptimeOf env uptimeRes in
  let systemTime := getSystemTime b (systemTimeAt b) in
  let timestamp := joinedAt b in
  let cpuHistory' :=
    History.pushShift History.historyLimit (cpuHistory st)
      {| CpuSample.timestamp := timestamp; CpuSample.usage := cpuUsage |} in
  let memoryHistory' :=
    History.pushShift History.historyLimit (memoryHistory st)
      {| MemSample.timestamp := timestamp;
         MemSample.usage := parseFloat usedMemPercent;
         MemSample.used := usedMem; MemSample.total := totalMem |} in
  let st' := set_memoryHistory memoryHistory' (set_cpuHistory cpuHistory' st) in
  ({| cpu := toFixed cpuUsage 2 +:+ "%";
      cpu_name := cpuName;
      ram := usedMemPercent +:+ "%";
      uptime := uptime;
      ram_text :=
        fmt formatBytes usedMem +:+ " / " +:+ fmt formatBytes totalMem
        +:+ " (" +:+ usedMemPercent +:+ "%)";
      platform := os_platform b;
      architecture := os_arch b;
      cpu_cores := cpuCores;
      hostname := os_hostname b;
      load_average := os_loadavg b;
      temperature := tempInfo;
      disk := diskStats;
      network := networkStats;
      cpu_history := cpuHistory st';
      memory_history := memoryHistory st';
      network_history := networkHistory st';
      heap := heapStats;
      process_count := processCount;
      file_system_info := fileSystemInfo;
      network_speed := networkSpeed;
      battery_status := batteryStatus;
      system_time := systemTime |}, st').

(** One call of [getStats]: the promise it returns and the module state it
    leaves.  The four [osutils] promises are awaited together; if one
    rejects no adapter is ever called.  Then each adapter is awaited in
    turn. *)
Definition getStats (env : Env) (st : State) : Outcome Snapshot * State :=
  let b := base env in
  match
    firstRejected None
      [(settledAt b TMemory, reasonOf (osutils_memory_info b));
       (settledAt b TCpuUsage, reasonOf (osutils_cpu_usage b));
       (settledAt b TCpuInfo, reasonOf (osutils_cpu_info b));
       (uptimeSettledAt env, reasonOf (osutils_system_uptime env))]
  with
  | Some r => (Rejected r, st)
  | None =>
      awaitOr (osutils_memory_info b) st (fun memRes =>
      awaitOr (osutils_cpu_usage b) st (fun cpuUsageRes =>
      awaitOr (osutils_cpu_info b) st (fun cpuInfoRes =>
      awaitOr (osutils_system_uptime env) st (fun uptimeRes =>
      awaitOr (getDiskStats formatBytes "/" (osutils_disk_usageByMountPoint b)) st
        (fun diskStats =>
      let '(networkStats, st1) :=
        getNetworkStats formatBytes (osutils_network_statsAsync b)
          (settledAt b TNetworkStats) st in
      awaitOr networkStats st1 (fun networkStats =>
      awaitOr (getTemperatureInfo (si_cpuTemperature b)) st1 (fun tempInfo =>
      awaitOr (getHeapStats formatBytes (process_memoryUsage b)) st1 (fun heapStats =>
      awaitOr (getProcessCount (osutils_process_stats b)) st1 (fun processCount =>
      awaitOr (getFileSystemInfo (si_fsSize env)) st1 (fun fileSystemInfo =>
      let '(networkSpeed, st2) :=
        getNetworkSpeed formatBytes (osutils_network_statsAsync_speed b)
          (settledAt b TNetworkSpeed) st1 in
      awaitOr networkSpeed st2 (fun networkSpeed =>
      awaitOr (getBatteryStatus (si_battery b)) st2 (fun batteryStatus =>
      let '(snapshot, st3) :=
        assemble env st2 memRes cpuUsageRes cpuInfoRes uptimeRes diskStats
          networkStats tempInfo heapStats processCount fileSystemInfo
          networkSpeed batteryStatus in
      (Resolved snapshot, st3)))))))))))))
  end.

End WithFormatBytes.

(** The arrays and the estimator of two module states are the same. *)
Definition sameArrays (a b : State) : Prop :=
  cpuHistory a = cpuHistory b
  /\ memoryHistory a = memoryHistory b
  /\ networkHistory a = networkHistory b
  /\ lastNetworkStats a = lastNetworkStats b
  /\ networkSpeedHistory a = networkSpeedHistory b.

(** The two versions print the same temperature, each with its own
    suffix. *)
Definition sameTemperature (old new : option string) : Prop :=
  match old, new with
  | None, None => True
  | Some a, Some b => exists v, a = v +:+ degrees /\ b = v +:+ "°C"
  | _, _ => False
  end.

(** The snapshot fields that both versions compute from the same sources,
    in the same way. *)
Definition sameFields (old : Snapshot) (new : Aggregator.Snapshot) : Prop :=
  cpu old = Aggregator.cpu new
  /\ cpu_name old = Aggregator.cpu_name new
  /\ ram old = Aggregator.ram new
  /\ ram_text old = Aggregator.ram_text new
  /\ platform old = Aggregator.platform new
  /\ architecture old = Aggregator.architecture new
  /\ cpu_cores old = Aggregator.cpu_cores new
  /\ hostname old = Aggregator.hostname new
  /\ load_average old = Aggregator.load_average new
  /\ disk old = Aggregator.disk new
  /\ network old = Aggregator.network new
  /\ cpu_history old = Aggregator.cpu_history new
  /\ memory_history old = Aggregator.memory_history new
  /\ network_history old = Aggregator.network_history new
  /\ heap old = Aggregator.heap new
  /\ process_count old = Aggregator.process_count new
  /\ network_speed old = Aggregator.network_speed new
  /\ system_time old = Aggregator.system_time new.

End Legacy.

(** ** Strings of digits *)

Module Numerals.

(** The number [readDigits] has accumulated at the end of a string of
    digits that it began to read with [acc]. *)
Fixpoint valS (s : string) (acc : Z) : Z :=
  match s with
  | EmptyString => acc
  | String c s' =>
      match digitVal c with
      | Some d => valS s' (acc * 10 + d)%Z
      | None => acc
      end
  end.

Fixpoint allDigits (s : string) : bool :=
  match s with
  | EmptyString => true
  | String c s' =>
      match digitVal c with Some _ => allDigits s' | None => false end
  end.

(** The same for a decimal numeral of the Standard Library. *)
Fixpoint valU (d : Decimal.uint) (acc : Z) : Z :=
  match d with
  | Decimal.Nil => acc
  | Decimal.D0 d' => valU d' (acc * 10 + 0)%Z
  | Decimal.D1 d' => valU d' (acc * 10 + 1)%Z
  | Decimal.D2 d' => valU d' (acc * 10 + 2)%Z
  | Decimal.D3 d' => valU d' (acc * 10 + 3)%Z
  | Decimal.D4 d' => valU d' (acc * 10 + 4)%Z
  | Decimal.D5 d' => valU d' (acc * 10 + 5)%Z
  | Decimal.D6 d' => valU d' (acc * 10 + 6)%Z
  | Decimal.D7 d' => valU d' (acc * 10 + 7)%Z
  | Decimal.D8 d' => valU d' (acc * 10 + 8)%Z
  | Decimal.D9 d' => valU d' (acc * 10 + 9)%Z
  end.

(** What [toFixed] prints, read as a number: the rounded units over the
    power of ten, with the sign of the argument. *)
Definition rounded (x : Q) (f : nat) : Q :=
  let r := Qmake (toFixedUnits x f) (Z.to_pos (10 ^ Z.of_nat f)) in
  if (Qnum x <? 0)%Z then Qopp r else r.

End Numerals.
Import Numerals.

(** ** More hosts for the examples *)

Module Scenarios.

(** The same host with other answers from [systeminformation], other
    process statistics, and the adapters called at [now]. *)
Definition variant (fs : Outcome (option (list FsSize.t)))
    (dl : Outcome (option (list Disk.t))) (bat : Outcome (option Battery.t))
    (ps : Outcome (MonitorResult ProcStats.t))
    (counters : list Iface.t) (now : Z) (env : Env) : Env :=
  {| osutils_memory_info := osutils_memory_info env;
     osutils_cpu_usage := osutils_cpu_usage env;
     osutils_cpu_info := osutils_cpu_info env;
     osutils_disk_usageByMountPoint := osutils_disk_usageByMountPoint env;
     osutils_network_statsAsync := Resolved (Success counters);
     osutils_network_statsAsync_speed := Resolved (Success counters);
     osutils_process_stats := ps;
     si_cpuTemperature := si_cpuTemperature env;
     si_fsSize := fs;
     si_diskLayout := dl;
     si_battery := bat;
     process_memoryUsage := process_memoryUsage env;
     os_cpus := os_cpus env;
     os_uptime := os_uptime env;
     os_platform := os_platform env;
     os_arch := os_arch env;
     os_hostname := os_hostname env;
     os_loadavg := os_loadavg env;
     timeZone := timeZone env;
     toLocaleTimeString := toLocaleTimeString env;
     toLocaleDateString := toLocaleDateString env;
     calledAt := fun _ => now;
     settledAt := fun t => (now + settledAt env t)%Z;
     systemTimeAt := (now + systemTimeAt env)%Z;
     joinedAt := (now + joinedAt env)%Z |}.

Definition rootVolume : FsSize.t :=
  {| FsSize.type := Some "ext4"; FsSize.mount := Some "/";
     FsSize.size := Some 1000%Z; FsSize.used := Some 400%Z;
     FsSize.use := Some (40 # 1) |}.

Definition ssd : Disk.t :=
  {| Disk.name := Some "disk0"; Disk.vendor := None; Disk.type := Some "SSD";
     Disk.size := Some 1000%Z; Disk.interfaceType := Some "NVMe";
     Disk.serialNum := None; Disk.firmwareRevision := None |}.

Definition pack (percent : Z) : Battery.t :=
  {| Battery.hasBattery := true; Battery.percent := Some percent;
     Battery.isCharging := false; Battery.timeRemaining := Some 90%Z;
     Battery.voltage := Some (12 # 1); Battery.cycleCount := Some 7%Z |}.

Definition sampleProcStats : Outcome (MonitorResult ProcStats.t) :=
  osutils_process_stats busyEnv.

(** A host with one volume, one disk and a battery at 80 percent, asked at
    the instant 1000. *)
Definition storageEnv : Env :=
  variant (Resolved (Some [rootVolume])) (Resolved (Some [ssd]))
    (Resolved (Some (pack 80))) sampleProcStats [eth0 1000 500] 1000 busyEnv.

(** The same host asked again at [now], when the volume and the disk have
    gone and the battery is at 79 percent. *)
Definition storageEnvAt (now : Z) : Env :=
  variant (Resolved (Some [])) (Resolved (Some []))
    (Resolved (Some (pack 79))) sampleProcStats [eth0 4000 700] now busyEnv.

(** A host whose [systeminformation] calls all reject, asked at the
    instant 1000. *)
Definition brokenEnv : Env :=
  variant (Rejected "EIO") (Rejected "EIO") (Rejected "EIO") sampleProcStats
    [eth0 1000 500] 1000 busyEnv.

(** The broken host repaired, asked at the instant 6000. *)
Definition recoveredEnv : Env :=
  variant (Resolved (Some [rootVolume])) (Resolved (Some [ssd]))
    (Resolved (Some (pack 80))) sampleProcStats [eth0 4000 700] 6000 busyEnv.

(** And asked once more at the instant 9000. *)
Definition recoveredAgainEnv : Env :=
  variant (Resolved (Some [rootVolume])) (Resolved (Some [ssd]))
    (Resolved (Some (pack 81))) sampleProcStats [eth0 5000 800] 9000 busyEnv.

(** The host asked at the instant 11000, after its network counters have
    started again from zero. *)
Definition rebootedEnv : Env :=
  variant (Resolved (Some [rootVolume])) (Resolved (Some [ssd]))
    (Resolved (Some (pack 78))) sampleProcStats [eth0 100 50] 11000 busyEnv.

(** A memory reading of 12.345625 percent. *)
Definition fractionEnv : Env :=
  withMemory
    (Resolved (Success {| MemInfo.total := 8000; MemInfo.used := 988;
                          MemInfo.usagePercentage := 98765 # 8000 |}))
    busyEnv.

(** A table with one entry stored at the instant 100. *)
Definition staleCache : gmap string (Cache.Entry nat) :=
  <["k" := {| Cache.data := 7%nat; Cache.ts := 100%Z |}]> numberCache.

(** A host on which [osutils.process.stats()] rejects. *)
Definition noProcEnv : Env :=
  variant (Resolved (Some [rootVolume])) (Resolved (Some [ssd]))
    (Resolved (Some (pack 80))) (Rejected "EPERM") [eth0 1000 500] 1000 busyEnv.

(** The same host when [osutils.process.stats()] rejects at once, before
    the network counters are back. *)
Definition hastyNoProcEnv : Env :=
  withSettledAt
    (fun t => match t with TProcessCount => 1005%Z | _ => settledAt noProcEnv t end)
    noProcEnv.


Definition bootVolume : Legacy.FsEntry.t :=
  {| Legacy.FsEntry.fsType := Some "vfat";
     Legacy.FsEntry.inodes := None;
     Legacy.FsEntry.blocksize := Some 512%Z;
     Legacy.FsEntry.mount := Some "/boot" |}.

Definition rootEntry : Legacy.FsEntry.t :=
  {| Legacy.FsEntry.fsType := Some "ext4";
     Legacy.FsEntry.inodes := Some {| Legacy.Inodes.used := 10; Legacy.Inodes.total := 64 |};
     Legacy.FsEntry.blocksize := Some 4096%Z;
     Legacy.FsEntry.mount := Some "/" |}.

(** What the sequential version takes from outside on the host [env]: an
    uptime of 3600.5 seconds, and two volumes of which the second is the
    root. *)
Definition legacyOn (env : Env) : Legacy.Env :=
  {| Legacy.base := env;
     Legacy.osutils_system_uptime := Resolved (Success 3600500%Z);
     Legacy.uptimeSettledAt := 20;
     Legacy.si_fsSize := Resolved (Some [bootVolume; rootEntry]) |}.

End Scenarios.
Import Scenarios.

(** * Properties *)

(** ** Sanity checks of the JavaScript helpers *)

Example toFixed_75 : toFixed (75 # 1) 2 = "75.00"%string.
Proof. reflexivity. Qed.

Example toFixed_third : toFixed (100 # 3) 2 = "33.33"%string.
Proof. reflexivity. Qed.

Example toFixed_tie : toFixed (5 # 1000) 2 = "0.01"%string.
Proof. reflexivity. Qed.

Example toFixed_small_negative : toFixed (-1 # 1000) 2 = "-0.00"%string.
Proof. reflexivity. Qed.

Example toFixed_temperature : toFixed (913 # 20) 1 = "45.7"%string.
Proof. reflexivity. Qed.

Example parseFloat_default : parseFloat "0.00" = Some (0 # 100).
Proof. reflexivity. Qed.

Example parseFloat_toFixed : parseFloat (toFixed (100 # 3) 2) = Some (3333 # 100).
Proof. reflexivity. Qed.

(** ** History arrays *)

Section HistoryFacts.
Context {A : Type}.
Implicit Types (h xs : list A) (x : A).

Lemma pushShift_drop limit h x :
  (length h <= limit)%nat ->
  History.pushShift limit h x = drop (length h + 1 - limit) (h ++ [x]).
Proof.
  intros Hle. unfold History.pushShift. cbv zeta.
  rewrite length_app. simpl length.
  destruct (Nat.ltb_spec limit (length h + 1)) as [Hlt | Hge].
  - replace (length h + 1 - limit)%nat with 1%nat by lia. reflexivity.
  - replace (length h + 1 - limit)%nat with 0%nat by lia. reflexivity.
Qed.

Lemma pushShift_length limit h x :
  (length h <= limit)%nat ->
  length (History.pushShift limit h x) = Nat.min (length h + 1) limit.
Proof.
  intros Hle. rewrite pushShift_drop by done.
  rewrite length_drop, length_app. simpl. lia.
Qed.

Lemma pushShift_bounded limit h x :
  (length h <= limit)%nat -> (length (History.pushShift limit h x) <= limit)%nat.
Proof. intros Hle. rewrite pushShift_length by done. lia. Qed.

Lemma pushShift_room limit h x :
  (length h < limit)%nat -> History.pushShift limit h x = h ++ [x].
Proof.
  intros Hlt. rewrite pushShift_drop by lia.
  replace (length h + 1 - limit)%nat with 0%nat by lia. reflexivity.
Qed.

Lemma pushShift_full limit h x :
  (0 < limit)%nat -> length h = limit ->
  History.pushShift limit h x = tail h ++ [x].
Proof.
  intros Hpos Heq. rewrite pushShift_drop by lia.
  replace (length h + 1 - limit)%nat with 1%nat by lia.
  destruct h; [simpl in Heq; lia | reflexivity].
Qed.

Lemma appendAll_drop xs : forall h,
  (length h <= History.historyLimit)%nat ->
  History.appendAll h xs
  = drop (length (h ++ xs) - History.historyLimit) (h ++ xs).
Proof.
  induction xs as [| x xs IH]; intros h Hle.
  - simpl. rewrite app_nil_r.
    replace (length h - History.historyLimit)%nat with 0%nat by lia. reflexivity.
  - unfold History.appendAll in *. simpl fold_left. unfold History.append at 2.
    rewrite IH by (apply pushShift_bounded; exact Hle).
    rewrite pushShift_drop by exact Hle.
    set (k := (length h + 1 - History.historyLimit)%nat).
    assert (Hk : (k <= length (h ++ [x]))%nat) by (rewrite length_app; simpl; lia).
    rewrite <- drop_app_le by exact Hk.
    rewrite drop_drop. rewrite <- app_assoc. simpl app.
    f_equal. rewrite length_drop, !length_app. simpl length.
    subst k. lia.
Qed.

End HistoryFacts.

(** C3. After any sequence of N appends to an empty history array, the
    array holds the last min(N, 20) samples, oldest first; an append to an
    array of 20 drops its first element, so that the element at index 0 is
    the one that was at index 1. *)
Theorem history_bound (A : Type) (samples : list A) :
  let view := History.appendAll [] samples in
  length view = Nat.min (length samples) 20
  /\ view = drop (length samples - 20) samples
  /\ (forall (h : list A) (x : A),
        length h = 20%nat ->
        History.append h x = tail h ++ [x]
        /\ History.append h x !! 0%nat = h !! 1%nat).
Proof.
  cbv zeta. pose proof (appendAll_drop samples []) as H.
  simpl in H. specialize (H ltac:(lia)).
  change History.historyLimit with 20%nat in H.
  split; [| split].
  - rewrite H, length_drop. lia.
  - exact H.
  - intros h x Hlen. unfold History.append.
    rewrite (pushShift_full History.historyLimit h x)
      by (try exact Hlen; unfold History.historyLimit; lia).
    split; [reflexivity |].
    destruct h as [| a [| b h']]; simpl in *; try discriminate. reflexivity.
Qed.

Lemma history_bound_witness :
  History.appendAll [] (seq 1 21) = seq 2 20
  /\ History.append (seq 1 20) 21%nat !! 0%nat = Some 2%nat.
Proof.
  destruct (history_bound nat (seq 1 21)) as (_ & Hview & Hfull).
  split.
  - exact Hview.
  - destruct (Hfull (seq 1 20) 21%nat eq_refl) as [_ H0]. exact H0.
Defined.

(** ** The TTL cache *)

Section CacheFacts.
Context {V W : Type} (clock : W -> Z).
Implicit Types (cache : gmap string (Cache.Entry V)) (fn : W -> Outcome V * W).

Lemma fresh_store key ttlMs t0 t (v : V) cache :
  Cache.fresh (<[key := {| Cache.data := v; Cache.ts := t0 |}]> cache) key ttlMs t
  = if (t - t0 <? ttlMs)%Z then Some v else None.
Proof. unfold Cache.fresh. rewrite lookup_insert_eq. reflexivity. Qed.

Lemma cachedCall_hit key fn ttlMs cache w d :
  Cache.fresh cache key ttlMs (clock w) = Some d ->
  Cache.cachedCall clock key fn ttlMs cache w = (Resolved d, cache, w).
Proof. intros H. unfold Cache.cachedCall. cbv zeta. rewrite H. reflexivity. Qed.

Lemma cachedCall_miss key fn ttlMs cache w :
  Cache.fresh cache key ttlMs (clock w) = None ->
  Cache.cachedCall clock key fn ttlMs cache w
  = (let '(o, w') := fn w in
     let '(r, cache') := Cache.thenStore key (clock w) o cache in
     (r, cache', w')).
Proof. intros H. unfold Cache.cachedCall. cbv zeta. rewrite H. reflexivity. Qed.

(** The call in one piece and the call split where it suspends are the
    same call. *)
Lemma cachedCall_settle key fn ttlMs cache w :
  fst (Cache.cachedCall clock key fn ttlMs cache w)
  = Cache.settle key (clock w) (Cache.fresh cache key ttlMs (clock w))
      (fst (fn w)) cache.
Proof.
  unfold Cache.cachedCall, Cache.settle. cbv zeta.
  destruct (Cache.fresh cache key ttlMs (clock w)); [reflexivity |].
  destruct (fn w) as [o w']. cbn [fst].
  destruct o; reflexivity.
Qed.

(** C4. A call that misses at [t0] and whose producer resolves with [v]
    stores [v]; from then on a call at a time [t] with [t - t0 < ttl]
    resolves with that same [v], whatever the producer is, and leaves the
    table and the world as they are (the producer is not run); a call with
    [ttl <= t - t0] runs the producer, and when it resolves the entry holds
    the new value and the new time only.  The stored value is never the
    answer at or past [t0 + ttl]. *)
Theorem cache_freshness key ttlMs cache fn0 w0 v w1 :
  Cache.fresh cache key ttlMs (clock w0) = None ->
  fn0 w0 = (Resolved v, w1) ->
  exists cache1,
    Cache.cachedCall clock key fn0 ttlMs cache w0 = (Resolved v, cache1, w1)
    /\ (forall fn w,
          (clock w - clock w0 < ttlMs)%Z ->
          Cache.cachedCall clock key fn ttlMs cache1 w = (Resolved v, cache1, w))
    /\ (forall fn w,
          (ttlMs <= clock w - clock w0)%Z ->
          Cache.cachedCall clock key fn ttlMs cache1 w
          = (let '(o, w') := fn w in
             let '(r, cache2) := Cache.thenStore key (clock w) o cache1 in
             (r, cache2, w'))
          /\ (forall v' w', fn w = (Resolved v', w') ->
                snd (fst (Cache.cachedCall clock key fn ttlMs cache1 w)) !! key
                = Some {| Cache.data := v'; Cache.ts := clock w |}))
    /\ (forall t, (ttlMs <= t - clock w0)%Z -> Cache.fresh cache1 key ttlMs t = None).
Proof.
  intros Hmiss Hfn.
  exists (<[key := {| Cache.data := v; Cache.ts := clock w0 |}]> cache).
  split; [| split; [| split]].
  - rewrite cachedCall_miss by exact Hmiss. rewrite Hfn. reflexivity.
  - intros fn w Hlt. apply cachedCall_hit. rewrite fresh_store.
    destruct (Z.ltb_spec (clock w - clock w0) ttlMs); [reflexivity | lia].
  - intros fn w Hge.
    assert (Hstale : Cache.fresh
              (<[key := {| Cache.data := v; Cache.ts := clock w0 |}]> cache)
              key ttlMs (clock w) = None).
    { rewrite fresh_store.
      destruct (Z.ltb_spec (clock w - clock w0) ttlMs); [lia | reflexivity]. }
    split.
    + apply cachedCall_miss, Hstale.
    + intros v' w' Hres. rewrite cachedCall_miss by exact Hstale.
      rewrite Hres. simpl. apply lookup_insert_eq.
  - intros t Hge. rewrite fresh_store.
    destruct (Z.ltb_spec (t - clock w0) ttlMs); [lia | reflexivity].
Qed.

(** C8. When the producer is run and rejects, [cachedCall] rejects with the
    same reason and the table is the one it was called with; more
    generally no call whose producer would reject changes the table. *)
Theorem cache_producer_failure key ttlMs cache fn w r w' :
  fn w = (Rejected r, w') ->
  (Cache.fresh cache key ttlMs (clock w) = None ->
   Cache.cachedCall clock key fn ttlMs cache w = (Rejected r, cache, w'))
  /\ snd (fst (Cache.cachedCall clock key fn ttlMs cache w)) = cache.
Proof.
  intros Hfn. split.
  - intros Hmiss. rewrite cachedCall_miss by exact Hmiss. rewrite Hfn. reflexivity.
  - destruct (Cache.fresh cache key ttlMs (clock w)) as [d |] eqn:Hf.
    + rewrite (cachedCall_hit _ _ _ _ _ d) by exact Hf. reflexivity.
    + rewrite cachedCall_miss by exact Hf. rewrite Hfn. reflexivity.
Qed.

(** C10. On a miss the entry is stamped with the clock read when
    [cachedCall] was entered, not with the clock at which the producer
    resolved: the value is served exactly while [t - clock w < ttl], and if
    the producer took [ttl] or longer the entry is stale as soon as it is
    stored. *)
Theorem cache_timestamp_at_call key ttlMs cache fn w v w' :
  Cache.fresh cache key ttlMs (clock w) = None ->
  fn w = (Resolved v, w') ->
  exists cache',
    Cache.cachedCall clock key fn ttlMs cache w = (Resolved v, cache', w')
    /\ cache' !! key = Some {| Cache.data := v; Cache.ts := clock w |}
    /\ (forall t, (t - clock w < ttlMs)%Z <-> Cache.fresh cache' key ttlMs t = Some v)
    /\ ((ttlMs <= clock w' - clock w)%Z ->
        Cache.fresh cache' key ttlMs (clock w') = None).
Proof.
  intros Hmiss Hfn.
  exists (<[key := {| Cache.data := v; Cache.ts := clock w |}]> cache).
  split; [| split; [| split]].
  - rewrite cachedCall_miss by exact Hmiss. rewrite Hfn. reflexivity.
  - apply lookup_insert_eq.
  - intros t. rewrite fresh_store.
    destruct (Z.ltb_spec (t - clock w) ttlMs); split; intros; try done; lia.
  - intros Hslow. rewrite fresh_store.
    destruct (Z.ltb_spec (clock w' - clock w) ttlMs); [lia | reflexivity].
Qed.

End CacheFacts.

Lemma cache_freshness_witness :
  exists cache1,
    Cache.cachedCall id "fsSize" (slowProducer 5 7) 10000 numberCache 100%Z
    = (Resolved 7%nat, cache1, 105%Z)
    /\ Cache.cachedCall id "fsSize" (slowProducer 5 9) 10000 cache1 10099%Z
       = (Resolved 7%nat, cache1, 10099%Z)
    /\ fst (fst (Cache.cachedCall id "fsSize" (slowProducer 5 9) 10000 cache1 10101%Z))
       = Resolved 9%nat
    /\ snd (fst (Cache.cachedCall id "fsSize" (slowProducer 5 9) 10000 cache1 10101%Z))
       !! "fsSize" = Some {| Cache.data := 9%nat; Cache.ts := 10101%Z |}.
Proof.
  destruct (cache_freshness id "fsSize" 10000 numberCache (slowProducer 5 7)
              100%Z 7%nat 105%Z eq_refl eq_refl)
    as (cache1 & Hcall & Hhit & Hmiss & _).
  exists cache1. split; [exact Hcall |]. split.
  - apply Hhit. unfold id. lia.
  - destruct (Hmiss (slowProducer 5 9) 10101%Z ltac:(unfold id; lia)) as [Heq Hnew].
    split.
    + rewrite Heq. reflexivity.
    + apply (Hnew 9%nat 10106%Z). reflexivity.
Defined.

Lemma cache_producer_failure_witness :
  Cache.cachedCall id "diskLayout" (failingProducer 3) 30000 numberCache 100%Z
  = (Rejected "EIO", numberCache, 103%Z).
Proof.
  apply (cache_producer_failure id "diskLayout" 30000 numberCache
           (failingProducer 3) 100%Z "EIO" 103%Z eq_refl).
  reflexivity.
Defined.

Lemma cache_timestamp_at_call_witness :
  exists cache',
    Cache.cachedCall id "battery" (slowProducer 10000 7) 10000 numberCache 100%Z
    = (Resolved 7%nat, cache', 10100%Z)
    /\ cache' !! "battery" = Some {| Cache.data := 7%nat; Cache.ts := 100%Z |}
    /\ Cache.fresh cache' "battery" 10000 10100%Z = None.
Proof.
  destruct (cache_timestamp_at_call id "battery" 10000 numberCache
              (slowProducer 10000 7) 100%Z 7%nat 10100%Z eq_refl eq_refl)
    as (cache' & Hcall & Hentry & _ & Hstale).
  exists cache'. split; [exact Hcall |]. split; [exact Hentry |].
  apply Hstale. unfold id. lia.
Defined.

(** ** The rate estimator *)

Section RateFacts.
Variable formatBytes : Q -> string.

Lemma fold_left_add {B : Type} (f : B -> Z) (l : list B) : forall a,
  fold_left (fun acc x => (acc + f x)%Z) l a = (a + foldr Z.add 0%Z (map f l))%Z.
Proof.
  induction l as [| x l IH]; intros a; simpl.
  - lia.
  - rewrite IH. lia.
Qed.

Lemma sumDownload_spec h :
  sumDownload h = foldr Z.add 0%Z (map RateSample.download h).
Proof. unfold sumDownload. rewrite fold_left_add. lia. Qed.

Lemma sumUpload_spec h :
  sumUpload h = foldr Z.add 0%Z (map RateSample.upload h).
Proof. unfold sumUpload. rewrite fold_left_add. lia. Qed.

Lemma length_eqb_nonempty {B : Type} (l : list B) :
  l <> [] -> (length l =? 0)%nat = false.
Proof. destruct l; [congruence | reflexivity]. Qed.

(** The estimator never lets its ring buffer grow past five samples. *)
Lemma getNetworkSpeed_bounded o now st :
  (length (networkSpeedHistory st) <= 5)%nat ->
  (length (networkSpeedHistory (snd (getNetworkSpeed formatBytes o now st))) <= 5)%nat.
Proof.
  intros Hle. unfold getNetworkSpeed.
  destruct o as [[data |] | r]; simpl; try exact Hle.
  destruct (length data =? 0)%nat; simpl; [exact Hle |].
  destruct (lastNetworkStats st); simpl; [| exact Hle].
  apply pushShift_bounded, Hle.
Qed.

(** C5. With no previous counters, an update that sees at least one
    interface answers with zero rates whatever the counters are, and keeps
    the counters.  From the freshly loaded module, counters (1000, 500)
    give zero rates; counters (3000, 1500) at the next update put the one
    sample (2000, 1000) in the ring buffer and give the rates 2000 and
    1000. *)
Theorem rate_cold_start :
  (forall data now st,
      lastNetworkStats st = None -> data <> [] ->
      getNetworkSpeed formatBytes (Resolved (Success data)) now st
      = (Resolved zeroSpeed,
         set_lastNetworkStats
           (Some {| Counters.rx := totalRxOf data; Counters.tx := totalTxOf data |}) st))
  /\ Speed.downloadRaw zeroSpeed = 0%Q
  /\ Speed.uploadRaw zeroSpeed = 0%Q
  /\ (forall data1 data2 t1 t2,
        data1 <> [] -> data2 <> [] ->
        totalRxOf data1 = 1000%Z -> totalTxOf data1 = 500%Z ->
        totalRxOf data2 = 3000%Z -> totalTxOf data2 = 1500%Z ->
        let first := getNetworkSpeed formatBytes (Resolved (Success data1)) t1 Store.initial in
        let second := getNetworkSpeed formatBytes (Resolved (Success data2)) t2 (snd first) in
        fst first = Resolved zeroSpeed
        /\ lastNetworkStats (snd first)
           = Some {| Counters.rx := 1000; Counters.tx := 500 |}
        /\ networkSpeedHistory (snd second)
           = [{| RateSample.download := 2000; RateSample.upload := 1000;
                 RateSample.timestamp := t2 |}]
        /\ fst second
           = Resolved {| Speed.download := formatBytes (2000 # 1) +:+ "/s";
                         Speed.upload := formatBytes (1000 # 1) +:+ "/s";
                         Speed.downloadRaw := 2000 # 1;
                         Speed.uploadRaw := 1000 # 1 |}).
Proof.
  assert (Hcold : forall data now st,
             lastNetworkStats st = None -> data <> [] ->
             getNetworkSpeed formatBytes (Resolved (Success data)) now st
             = (Resolved zeroSpeed,
                set_lastNetworkStats
                  (Some {| Counters.rx := totalRxOf data;
                           Counters.tx := totalTxOf data |}) st)).
  { intros data now st Hnone Hne. unfold getNetworkSpeed.
    rewrite (length_eqb_nonempty data Hne), Hnone. reflexivity. }
  split; [exact Hcold |]. split; [reflexivity |]. split; [reflexivity |].
  intros data1 data2 t1 t2 Hne1 Hne2 Hrx1 Htx1 Hrx2 Htx2. cbv zeta.
  rewrite (Hcold data1 t1 Store.initial eq_refl Hne1). rewrite Hrx1, Htx1.
  split; [reflexivity |]. split; [reflexivity |].
  unfold getNetworkSpeed. rewrite (length_eqb_nonempty data2 Hne2).
  simpl lastNetworkStats. cbv iota beta. rewrite Hrx2, Htx2.
  split; reflexivity.
Qed.

(** C6. With previous counters [last], an update that sees at least one
    interface builds the sample (max(0, rx - last.rx), max(0, tx -
    last.tx)), neither part of which is negative, pushes it on the ring
    buffer, drops the oldest sample when that makes six, and answers with
    the sum of the download (upload) parts of the buffer divided by its
    length: k + 1 samples when k < 5 were there, 5 when 5 were. *)
Theorem rate_update_mean data now st last :
  lastNetworkStats st = Some last ->
  data <> [] ->
  (length (networkSpeedHistory st) <= 5)%nat ->
  let sample :=
    {| RateSample.download := Z.max 0 (totalRxOf data - Counters.rx last);
       RateSample.upload := Z.max 0 (totalTxOf data - Counters.tx last);
       RateSample.timestamp := now |} in
  let history :=
    drop (length (networkSpeedHistory st) + 1 - 5) (networkSpeedHistory st ++ [sample]) in
  let avgDownload :=
    (inject_Z (foldr Z.add 0%Z (map RateSample.download history))
     / inject_Z (Z.of_nat (length history)))%Q in
  let avgUpload :=
    (inject_Z (foldr Z.add 0%Z (map RateSample.upload history))
     / inject_Z (Z.of_nat (length history)))%Q in
  getNetworkSpeed formatBytes (Resolved (Success data)) now st
  = (Resolved {| Speed.download := formatBytes avgDownload +:+ "/s";
                 Speed.upload := formatBytes avgUpload +:+ "/s";
                 Speed.downloadRaw := avgDownload;
                 Speed.uploadRaw := avgUpload |},
     set_lastNetworkStats
       (Some {| Counters.rx := totalRxOf data; Counters.tx := totalTxOf data |})
       (set_networkSpeedHistory history st))
  /\ (0 <= RateSample.download sample)%Z
  /\ (0 <= RateSample.upload sample)%Z
  /\ length history = Nat.min (length (networkSpeedHistory st) + 1) 5
  /\ ((length (networkSpeedHistory st) < 5)%nat ->
      history = networkSpeedHistory st ++ [sample])
  /\ (length (networkSpeedHistory st) = 5%nat ->
      history = tail (networkSpeedHistory st) ++ [sample]).
Proof.
  intros Hlast Hne Hle. cbv zeta.
  split; [| split; [| split; [| split; [| split]]]].
  - unfold getNetworkSpeed. rewrite (length_eqb_nonempty data Hne), Hlast.
    cbv zeta. unfold timeDiff. rewrite !Z.div_1_r.
    rewrite pushShift_drop by exact Hle.
    unfold average. rewrite sumDownload_spec, sumUpload_spec. reflexivity.
  - simpl. lia.
  - simpl. lia.
  - rewrite length_drop, length_app. simpl. lia.
  - intros Hlt.
    replace (length (networkSpeedHistory st) + 1 - 5)%nat with 0%nat by lia.
    reflexivity.
  - intros Heq. rewrite Heq. simpl.
    destruct (networkSpeedHistory st); [discriminate | reflexivity].
Qed.

(** C7. When the counters source rejects, reports failure, or reports no
    interface, the answer is the zero result and the module state, so
    [lastNetworkStats] and [networkSpeedHistory] too, is untouched. *)
Theorem rate_no_counters now st :
  (forall r, getNetworkSpeed formatBytes (Rejected r) now st = (Resolved zeroSpeed, st))
  /\ getNetworkSpeed formatBytes (Resolved Failure) now st = (Resolved zeroSpeed, st)
  /\ getNetworkSpeed formatBytes (Resolved (Success [])) now st = (Resolved zeroSpeed, st)
  /\ zeroSpeed
     = {| Speed.download := "0 KB/s"; Speed.upload := "0 KB/s";
          Speed.downloadRaw := 0; Speed.uploadRaw := 0 |}.
Proof. repeat split. Qed.

End RateFacts.

Lemma rate_cold_start_witness :
  let first :=
    getNetworkSpeed sampleFormatBytes (Resolved (Success [eth0 1000 500])) 1000%Z
      Store.initial in
  let second :=
    getNetworkSpeed sampleFormatBytes (Resolved (Success [eth0 3000 1500])) 2000%Z
      (snd first) in
  fst first = Resolved zeroSpeed
  /\ networkSpeedHistory (snd second)
     = [{| RateSample.download := 2000; RateSample.upload := 1000;
           RateSample.timestamp := 2000 |}]
  /\ option_map Speed.downloadRaw
       (match fst second with Resolved s => Some s | Rejected _ => None end)
     = Some (2000 # 1).
Proof.
  destruct (rate_cold_start sampleFormatBytes) as (_ & _ & _ & Hscenario).
  destruct (Hscenario [eth0 1000 500] [eth0 3000 1500] 1000%Z 2000%Z
              ltac:(discriminate) ltac:(discriminate)
              eq_refl eq_refl eq_refl eq_refl)
    as (H1 & _ & H3 & H4).
  cbv zeta. split; [exact H1 |]. split; [exact H3 |].
  rewrite H4. reflexivity.
Defined.

Lemma rate_update_mean_witness :
  let st :=
    set_lastNetworkStats (Some {| Counters.rx := 5000; Counters.tx := 900 |})
      (set_networkSpeedHistory
         [{| RateSample.download := 300; RateSample.upload := 60;
             RateSample.timestamp := 1000 |}] Store.initial) in
  let result :=
    getNetworkSpeed sampleFormatBytes (Resolved (Success [eth0 4000 1000])) 2000%Z st in
  networkSpeedHistory (snd result)
  = [{| RateSample.download := 300; RateSample.upload := 60;
        RateSample.timestamp := 1000 |};
     {| RateSample.download := 0; RateSample.upload := 100;
        RateSample.timestamp := 2000 |}]
  /\ option_map Speed.downloadRaw
       (match fst result with Resolved s => Some s | Rejected _ => None end)
     = Some (300 # 2)
  /\ option_map Speed.uploadRaw
       (match fst result with Resolved s => Some s | Rejected _ => None end)
     = Some (160 # 2).
Proof.
  cbv zeta.
  destruct (rate_update_mean sampleFormatBytes [eth0 4000 1000] 2000%Z
              (set_lastNetworkStats (Some {| Counters.rx := 5000; Counters.tx := 900 |})
                 (set_networkSpeedHistory
                    [{| RateSample.download := 300; RateSample.upload := 60;
                        RateSample.timestamp := 1000 |}] Store.initial))
              {| Counters.rx := 5000; Counters.tx := 900 |}
              eq_refl ltac:(discriminate) ltac:(simpl; lia))
    as (Hcall & _).
  rewrite Hcall. split; [reflexivity |]. split; reflexivity.
Defined.

(** ** The aggregation pass *)

Section AggregatorFacts.
Variable formatBytes : Q -> string.

Lemma Task_eqb_eq a b : Task_eqb a b = true <-> a = b.
Proof. destruct a, b; simpl; split; intros H; solve [reflexivity | discriminate H]. Qed.

Lemma among_In t l : among t l = true <-> In t l.
Proof.
  unfold among. rewrite existsb_exists. split.
  - intros (u & Hin & Heq). apply Task_eqb_eq in Heq. subst u. exact Hin.
  - intros Hin. exists t. split; [exact Hin | apply Task_eqb_eq; reflexivity].
Qed.

Lemma among_not_In t l : ~ In t l -> among t l = false.
Proof.
  intros Hnot. destruct (among t l) eqn:E; [| reflexivity].
  apply among_In in E. contradiction.
Qed.

Lemma among_snoc t l u : among t (l ++ [u]) = among t l || Task_eqb t u.
Proof. unfold among. rewrite existsb_app. simpl. rewrite orb_false_r. reflexivity. Qed.

(** *** What each adapter reads and writes *)

Lemma getNetworkStats_writes o now st :
  snd (getNetworkStats formatBytes o now st)
  = set_networkHistory
      (networkHistory (snd (getNetworkStats formatBytes o now st))) st.
Proof. destruct o as [[data |] | r], st; reflexivity. Qed.

Lemma getNetworkStats_reads o now st1 st2 :
  networkHistory st1 = networkHistory st2 ->
  fst (getNetworkStats formatBytes o now st1)
  = fst (getNetworkStats formatBytes o now st2)
  /\ networkHistory (snd (getNetworkStats formatBytes o now st1))
     = networkHistory (snd (getNetworkStats formatBytes o now st2)).
Proof.
  intros H. destruct o as [[data |] | r]; simpl; rewrite ?H; split; reflexivity || exact H.
Qed.

Lemma getNetworkSpeed_writes o now st :
  snd (getNetworkSpeed formatBytes o now st)
  = set_lastNetworkStats
      (lastNetworkStats (snd (getNetworkSpeed formatBytes o now st)))
      (set_networkSpeedHistory
         (networkSpeedHistory (snd (getNetworkSpeed formatBytes o now st))) st).
Proof.
  unfold getNetworkSpeed.
  destruct o as [[data |] | r]; try (destruct st; reflexivity).
  destruct (length data =? 0)%nat; [destruct st; reflexivity |].
  destruct (lastNetworkStats st) eqn:E; destruct st; simpl in *; subst; reflexivity.
Qed.

Lemma getNetworkSpeed_reads o now st1 st2 :
  lastNetworkStats st1 = lastNetworkStats st2 ->
  networkSpeedHistory st1 = networkSpeedHistory st2 ->
  fst (getNetworkSpeed formatBytes o now st1)
  = fst (getNetworkSpeed formatBytes o now st2)
  /\ lastNetworkStats (snd (getNetworkSpeed formatBytes o now st1))
     = lastNetworkStats (snd (getNetworkSpeed formatBytes o now st2))
  /\ networkSpeedHistory (snd (getNetworkSpeed formatBytes o now st1))
     = networkSpeedHistory (snd (getNetworkSpeed formatBytes o now st2)).
Proof.
  intros Hl Hh. unfold getNetworkSpeed.
  destruct o as [[data |] | r]; simpl; auto.
  destruct (length data =? 0)%nat; simpl; auto.
  rewrite Hl. destruct (lastNetworkStats st2); simpl; rewrite ?Hh; auto.
Qed.

Lemma settle_outcome {V : Type} key now (hit : option V) o cache :
  fst (Cache.settle key now hit o cache)
  = match hit with Some d => Resolved d | None => o end.
Proof. destruct hit, o; reflexivity. Qed.

(** An adapter leaves alone what belongs to the others. *)
Lemma stateAfter_frame env cache0 t st :
  cpuHistory (stateAfter formatBytes env cache0 t st) = cpuHistory st
  /\ memoryHistory (stateAfter formatBytes env cache0 t st) = memoryHistory st
  /\ (t <> TNetworkStats ->
      networkHistory (stateAfter formatBytes env cache0 t st) = networkHistory st)
  /\ (t <> TNetworkSpeed ->
      lastNetworkStats (stateAfter formatBytes env cache0 t st) = lastNetworkStats st
      /\ networkSpeedHistory (stateAfter formatBytes env cache0 t st)
         = networkSpeedHistory st).
Proof.
  destruct t; unfold stateAfter;
    try rewrite getNetworkStats_writes; try rewrite getNetworkSpeed_writes;
    repeat split; intros; try reflexivity; congruence.
Qed.

(** *** The adapters in any order: a closed form *)

Lemma settlePromise_next env st t st' l :
  ~ In t l ->
  (t = TNetworkStats -> networkHistory st' = networkHistory st) ->
  (t = TNetworkSpeed ->
   lastNetworkStats st' = lastNetworkStats st
   /\ networkSpeedHistory st' = networkSpeedHistory st) ->
  settlePromise formatBytes env (_cache st) t st' (settledAmong formatBytes env st l)
  = settledAmong formatBytes env st (l ++ [t]).
Proof.
  intros Hnot Hn Hs.
  pose proof (among_not_In t l Hnot) as Hfalse.
  unfold settlePromise, settledAmong, outcomes, cachedOutcome.
  cbn [memRes cpuUsageRes cpuInfoRes diskStats networkStats tempInfo heapStats
       processCount fileSystemInfo networkSpeed batteryStatus diskLayout].
  rewrite !among_snoc, !settle_outcome.
  destruct t; cbn [Task_eqb]; rewrite ?orb_false_r, ?orb_true_r, ?Hfalse;
    try reflexivity.
  - destruct (getNetworkStats_reads (osutils_network_statsAsync env)
                (settledAt env TNetworkStats) st' st (Hn eq_refl)) as [-> _].
    reflexivity.
  - destruct (Hs eq_refl) as [Hl Hh].
    destruct (getNetworkSpeed_reads (osutils_network_statsAsync_speed env)
                (settledAt env TNetworkSpeed) st' st Hl Hh) as [-> _].
    reflexivity.
Qed.

Lemma head_omap_snoc {B C : Type} (f : B -> option C) (l : list B) (x : B) :
  head (omap f (l ++ [x]))
  = match head (omap f l) with
    | Some r => Some r
    | None => f x
    end.
Proof.
  rewrite omap_app. destruct (omap f l) as [| r rs]; simpl.
  - destruct (f x); reflexivity.
  - reflexivity.
Qed.

(** After the adapters of [l] have resumed, in that order and each once:
    the promises, the parts of the state and the log are what each adapter
    alone makes of the state in which the pass began. *)
Lemma settling env st l :
  NoDup l ->
  let p := fold_left (resume formatBytes env (_cache st)) l (fanOut st) in
  promises p = settledAmong formatBytes env st l
  /\ cpuHistory (state p) = cpuHistory st
  /\ memoryHistory (state p) = memoryHistory st
  /\ networkHistory (state p)
     = (if among TNetworkStats l
        then networkHistory
               (snd (getNetworkStats formatBytes (osutils_network_statsAsync env)
                       (settledAt env TNetworkStats) st))
        else networkHistory st)
  /\ lastNetworkStats (state p)
     = (if among TNetworkSpeed l
        then lastNetworkStats
               (snd (getNetworkSpeed formatBytes (osutils_network_statsAsync_speed env)
                       (settledAt env TNetworkSpeed) st))
        else lastNetworkStats st)
  /\ networkSpeedHistory (state p)
     = (if among TNetworkSpeed l
        then networkSpeedHistory
               (snd (getNetworkSpeed formatBytes (osutils_network_statsAsync_speed env)
                       (settledAt env TNetworkSpeed) st))
        else networkSpeedHistory st)
  /\ rejection p = head (omap (rejectionOf env) l)
  /\ log p = eventsOf env l.
Proof.
  induction l as [| t l IH] using rev_ind; intros Hnd; cbv zeta.
  - repeat split.
  - apply NoDup_app in Hnd as (Hnd & Hdisj & _).
    assert (Hnot : ~ In t l).
    { intros Hin. apply (Hdisj t); [apply list_elem_of_In, Hin | left]. }
    specialize (IH Hnd). cbv zeta in IH.
    rewrite fold_left_app. simpl fold_left.
    set (p := fold_left (resume formatBytes env (_cache st)) l (fanOut st)) in *.
    destruct IH as (Hps & Hc & Hm & Hn & Hl & Hh & Hr & Hlog).
    pose proof (among_not_In t l Hnot) as Hfalse.
    pose proof (stateAfter_frame env (_cache st) t (state p)) as (Fc & Fm & Fn & Fs).
    unfold resume; cbn [promises state rejection log].
    split; [| split; [| split; [| split; [| split; [| split; [| split]]]]]].
    + rewrite Hps. apply settlePromise_next; [exact Hnot | |].
      * intros ->. rewrite Hn, Hfalse. reflexivity.
      * intros ->. rewrite Hl, Hh, Hfalse. split; reflexivity.
    + rewrite Fc. exact Hc.
    + rewrite Fm. exact Hm.
    + rewrite among_snoc.
      destruct (Task_eqb TNetworkStats t) eqn:E.
      * apply Task_eqb_eq in E. subst t. rewrite orb_true_r.
        unfold stateAfter.
        apply getNetworkStats_reads. rewrite Hn, Hfalse. reflexivity.
      * rewrite orb_false_r, Fn; [exact Hn |].
        intros ->. simpl in E. discriminate.
    + rewrite among_snoc.
      destruct (Task_eqb TNetworkSpeed t) eqn:E.
      * apply Task_eqb_eq in E. subst t. rewrite orb_true_r.
        unfold stateAfter.
        apply getNetworkSpeed_reads; [rewrite Hl | rewrite Hh];
          rewrite Hfalse; reflexivity.
      * rewrite orb_false_r. destruct Fs as [-> _]; [| exact Hl].
        intros ->. simpl in E. discriminate.
    + rewrite among_snoc.
      destruct (Task_eqb TNetworkSpeed t) eqn:E.
      * apply Task_eqb_eq in E. subst t. rewrite orb_true_r.
        unfold stateAfter.
        apply getNetworkSpeed_reads; [rewrite Hl | rewrite Hh];
          rewrite Hfalse; reflexivity.
      * rewrite orb_false_r. destruct Fs as [_ ->]; [| exact Hh].
        intros ->. simpl in E. discriminate.
    + rewrite head_omap_snoc, Hr. reflexivity.
    + rewrite Hlog. unfold eventsOf. rewrite flat_map_app. simpl.
      rewrite app_nil_r, app_assoc. reflexivity.
Qed.

(** *** The schedule *)

Lemma insertBy_Permutation key t l : Permutation (insertBy key t l) (t :: l).
Proof.
  induction l as [| u l IH]; simpl.
  - reflexivity.
  - destruct (key t <=? key u)%Z.
    + reflexivity.
    + rewrite IH. apply perm_swap.
Qed.

Lemma sortBy_Permutation key l : Permutation (sortBy key l) l.
Proof.
  induction l as [| t l IH]; simpl.
  - reflexivity.
  - rewrite insertBy_Permutation, IH. reflexivity.
Qed.

(** Every adapter resumes, and resumes once. *)
Lemma schedule_Permutation env : Permutation (schedule env) tasks.
Proof.
  unfold schedule. rewrite sortBy_Permutation.
  cbn [List.filter tasks Task_eqb negb].
  apply (Permutation_middle
           [TMemory; TCpuUsage; TCpuInfo; TDiskStats; TNetworkStats; TTemperature]
           [TProcessCount; TFileSystemInfo; TNetworkSpeed; TBattery; TDiskLayout]
           THeapStats).
Qed.

Lemma tasks_complete t : In t tasks.
Proof. destruct t; simpl; tauto. Qed.

Lemma tasks_NoDup : NoDup tasks.
Proof.
  unfold tasks. repeat (apply NoDup_cons_2; [rewrite list_elem_of_In; simpl; intuition discriminate |]).
  apply NoDup_nil_2.
Qed.

Lemma schedule_NoDup env : NoDup (schedule env).
Proof.
  rewrite schedule_Permutation. apply tasks_NoDup.
Qed.

Lemma schedule_complete env t : among t (schedule env) = true.
Proof.
  apply among_In. eapply Permutation_in; [symmetry; apply schedule_Permutation |].
  apply tasks_complete.
Qed.

(** The pass when [Promise.all] has all its results. *)
Lemma runAdapters_closed env st :
  let p := runAdapters formatBytes env st in
  promises p = outcomes formatBytes env st
  /\ cpuHistory (state p) = cpuHistory st
  /\ memoryHistory (state p) = memoryHistory st
  /\ networkHistory (state p)
     = networkHistory
         (snd (getNetworkStats formatBytes (osutils_network_statsAsync env)
                 (settledAt env TNetworkStats) st))
  /\ lastNetworkStats (state p)
     = lastNetworkStats
         (snd (getNetworkSpeed formatBytes (osutils_network_statsAsync_speed env)
                 (settledAt env TNetworkSpeed) st))
  /\ networkSpeedHistory (state p)
     = networkSpeedHistory
         (snd (getNetworkSpeed formatBytes (osutils_network_statsAsync_speed env)
                 (settledAt env TNetworkSpeed) st))
  /\ rejection p = head (omap (rejectionOf env) (schedule env))
  /\ log p = eventsOf env (schedule env).
Proof.
  cbv zeta. unfold runAdapters.
  destruct (settling env st (schedule env) (schedule_NoDup env))
    as (Hps & Hc & Hm & Hn & Hl & Hh & Hr & Hlog).
  rewrite !schedule_complete in *.
  split; [| tauto].
  rewrite Hps. unfold settledAmong. rewrite !schedule_complete. reflexivity.
Qed.

(** *** Which adapters can reject *)

Lemma getDiskStats_resolves mountPath o :
  exists v, getDiskStats formatBytes mountPath o = Resolved v.
Proof. destruct o as [[[d |] |] | r]; eexists; reflexivity. Qed.

Lemma getTemperatureInfo_resolves o :
  exists v, getTemperatureInfo o = Resolved v.
Proof. destruct o as [[main |] | r]; eexists; reflexivity. Qed.

Lemma getFileSystemInfo_resolves c :
  exists v, getFileSystemInfo formatBytes c = Resolved v.
Proof.
  unfold getFileSystemInfo. destruct c as [d | r]; [| eexists; reflexivity].
  destruct (asFsSize d) as [l |]; [| eexists; reflexivity].
  destruct (0 <? length l)%nat; eexists; reflexivity.
Qed.

Lemma getDiskLayout_resolves c :
  exists v, getDiskLayout formatBytes c = Resolved v.
Proof.
  unfold getDiskLayout. destruct c as [d | r]; [| eexists; reflexivity].
  destruct (asDiskLayout d) as [l |]; [| eexists; reflexivity].
  destruct (0 <? length l)%nat; eexists; reflexivity.
Qed.

Lemma getBatteryStatus_resolves o :
  exists v, getBatteryStatus o = Resolved v.
Proof.
  unfold getBatteryStatus. destruct o as [[b |] | r]; try (eexists; reflexivity).
  destruct (Battery.hasBattery b); eexists; reflexivity.
Qed.

Lemma getNetworkSpeed_resolves o now st :
  exists v, fst (getNetworkSpeed formatBytes o now st) = Resolved v.
Proof.
  unfold getNetworkSpeed. destruct o as [[data |] | r]; try (eexists; reflexivity).
  destruct (length data =? 0)%nat; [eexists; reflexivity |].
  destruct (lastNetworkStats st); eexists; reflexivity.
Qed.

Lemma getNetworkStats_resolves o now st :
  isResolved o = true ->
  exists v, fst (getNetworkStats formatBytes o now st) = Resolved v.
Proof. destruct o as [[data |] | r]; intros H; try discriminate H; eexists; reflexivity. Qed.

Lemma getProcessCount_resolves o :
  isResolved o = true -> exists v, getProcessCount o = Resolved v.
Proof. destruct o as [[d |] | r]; intros H; try discriminate H; eexists; reflexivity. Qed.

Lemma cached_battery_resolves env st :
  exists v,
    match hitFor env (_cache st) TBattery with
    | Some d => Resolved d
    | None => batteryProducer env
    end = Resolved v.
Proof.
  destruct (hitFor env (_cache st) TBattery) as [d |]; [eexists; reflexivity |].
  unfold batteryProducer.
  destruct (getBatteryStatus_resolves (si_battery env)) as [v ->].
  eexists; reflexivity.
Qed.

Lemma isResolved_inv {B : Type} (o : Outcome B) :
  isResolved o = true -> exists v, o = Resolved v.
Proof. destruct o; [eexists; reflexivity | discriminate]. Qed.

Lemma no_rejection env l :
  osutilsResolve env -> head (omap (rejectionOf env) l) = None.
Proof.
  intros (Hm & Hc & Hi & Hn & Hp).
  induction l as [| t l IH]; [reflexivity |].
  simpl. replace (rejectionOf env t) with (@None string); [exact IH |].
  destruct t; simpl; try reflexivity;
    match goal with
    | |- None = reasonOf ?o => destruct o; [reflexivity | discriminate]
    end.
Qed.

Lemma await_Some {B C : Type} (o : Outcome B) (k : B -> option C) x :
  await (Some o) k = Some x -> exists a, o = Resolved a /\ k a = Some x.
Proof.
  destruct o as [a | r]; simpl; intros H; try discriminate H.
  exists a. split; [reflexivity | exact H].
Qed.

(** What a call that resolves has gone through. *)
Lemma getStats_resolved env st snapshot st' lg :
  getStats formatBytes env st = (Some (Resolved snapshot), st', lg) ->
  exists m c i d n tmp h pc fsi ns b dl,
    osutils_memory_info env = Resolved m
    /\ osutils_cpu_usage env = Resolved c
    /\ osutils_cpu_info env = Resolved i
    /\ getDiskStats formatBytes "/" (osutils_disk_usageByMountPoint env) = Resolved d
    /\ fst (getNetworkStats formatBytes (osutils_network_statsAsync env)
              (settledAt env TNetworkStats) st) = Resolved n
    /\ getTemperatureInfo (si_cpuTemperature env) = Resolved tmp
    /\ getHeapStats formatBytes (process_memoryUsage env) = Resolved h
    /\ getProcessCount (osutils_process_stats env) = Resolved pc
    /\ getFileSystemInfo formatBytes
         (match hitFor env (_cache st) TFileSystemInfo with
          | Some v => Resolved v
          | None => fsSizeProducer env
          end) = Resolved fsi
    /\ fst (getNetworkSpeed formatBytes (osutils_network_statsAsync_speed env)
              (settledAt env TNetworkSpeed) st) = Resolved ns
    /\ match hitFor env (_cache st) TBattery with
       | Some v => Resolved v
       | None => batteryProducer env
       end = Resolved b
    /\ getDiskLayout formatBytes
         (match hitFor env (_cache st) TDiskLayout with
          | Some v => Resolved v
          | None => diskLayoutProducer env
          end) = Resolved dl
    /\ (snapshot, st')
       = assemble formatBytes env (state (runAdapters formatBytes env st))
           m c i d n tmp h pc fsi ns b dl
    /\ lg = eventsOf env (schedule env)
            ++ [HistoryAppend CpuBuffer (joinedAt env);
                HistoryAppend MemoryBuffer (joinedAt env)].
Proof.
  unfold getStats. cbv zeta.
  destruct (runAdapters_closed env st) as (Hps & _ & _ & _ & _ & _ & _ & Hlog).
  cbv zeta in Hps, Hlog.
  destruct (rejection (runAdapters formatBytes env st)); [discriminate |].
  destruct (join formatBytes env (runAdapters formatBytes env st))
    as [[s1 s2] |] eqn:Hjoin; [| discriminate].
  intros H. injection H as <- <- <-.
  unfold join in Hjoin. cbv zeta in Hjoin. rewrite Hps in Hjoin.
  unfold outcomes in Hjoin.
  cbn [memRes cpuUsageRes cpuInfoRes diskStats networkStats tempInfo heapStats
       processCount fileSystemInfo networkSpeed batteryStatus diskLayout] in Hjoin.
  repeat match type of Hjoin with
         | await _ _ = Some _ =>
             apply await_Some in Hjoin;
             let a := fresh "a" in
             let E := fresh "E" in
             destruct Hjoin as (a & E & Hjoin)
         end.
  apply (inj Some) in Hjoin.
  do 12 eexists.
  repeat (split; [eassumption |]).
  split; [symmetry; exact Hjoin |].
  rewrite Hlog. reflexivity.
Qed.

(** A call resolves as soon as no awaited [osutils] promise rejects. *)
Lemma getStats_resolves env st :
  osutilsResolve env ->
  exists snapshot st',
    getStats formatBytes env st
    = (Some (Resolved snapshot), st',
       eventsOf env (schedule env)
       ++ [HistoryAppend CpuBuffer (joinedAt env);
           HistoryAppend MemoryBuffer (joinedAt env)]).
Proof.
  intros Hres. pose proof Hres as (Hm & Hc & Hi & Hn & Hp).
  unfold getStats. cbv zeta.
  destruct (runAdapters_closed env st) as (Hps & _ & _ & _ & _ & _ & Hrej & Hlog).
  cbv zeta in Hps, Hrej, Hlog.
  rewrite Hrej, (no_rejection env _ Hres), Hlog.
  unfold join. cbv zeta. rewrite Hps. unfold outcomes.
  cbn [memRes cpuUsageRes cpuInfoRes diskStats networkStats tempInfo heapStats
       processCount fileSystemInfo networkSpeed batteryStatus diskLayout].
  destruct (isResolved_inv _ Hm) as [m ->].
  destruct (isResolved_inv _ Hc) as [c ->].
  destruct (isResolved_inv _ Hi) as [i Ei].
  rewrite Ei.
  destruct (getDiskStats_resolves "/" (osutils_disk_usageByMountPoint env)) as [d ->].
  destruct (getNetworkStats_resolves (osutils_network_statsAsync env)
              (settledAt env TNetworkStats) st Hn) as [n ->].
  destruct (getTemperatureInfo_resolves (si_cpuTemperature env)) as [tmp ->].
  destruct (getProcessCount_resolves (osutils_process_stats env) Hp) as [pc ->].
  destruct (getFileSystemInfo_resolves
              (match hitFor env (_cache st) TFileSystemInfo with
               | Some v => Resolved v
               | None => fsSizeProducer env
               end)) as [fsi ->].
  destruct (getNetworkSpeed_resolves (osutils_network_statsAsync_speed env)
              (settledAt env TNetworkSpeed) st) as [ns ->].
  destruct (cached_battery_resolves env st) as [b ->].
  destruct (getDiskLayout_resolves
              (match hitFor env (_cache st) TDiskLayout with
               | Some v => Resolved v
               | None => diskLayoutProducer env
               end)) as [dl ->].
  cbn [await getHeapStats].
  match goal with
  | |- context [assemble ?f ?e ?s ?a1 ?a2 ?a3 ?a4 ?a5 ?a6 ?a7 ?a8 ?a9 ?a10 ?a11 ?a12] =>
      destruct (assemble f e s a1 a2 a3 a4 a5 a6 a7 a8 a9 a10 a11 a12) as [s1 s2]
  end.
  eexists. eexists. reflexivity.
Qed.

(** *** Graceful degradation *)

(** X21. Graceful degradation, where it holds.  Whatever the sources
    do, as long as none of the five [osutils] promises awaited outside a
    [try] rejects, [getStats] resolves with a snapshot, and for every
    adapter whose source failed in this pass the snapshot field holds the
    default: [[]] for the network interfaces, [null] for battery,
    temperature and disk, the all-zero record for the process counts,
    [[]] for the file-system list and the disk layout, the zero rates for
    the network speed. *)
Theorem snapshot_defaults env st :
  osutilsResolve env ->
  exists snapshot st' lg,
    getStats formatBytes env st = (Some (Resolved snapshot), st', lg)
    /\ forall t, sourceFailed env st t -> holdsDefault formatBytes env t snapshot.
Proof.
  intros Hres.
  destruct (getStats_resolves env st Hres) as (snapshot & st' & Hcall).
  exists snapshot, st'. eexists. split; [exact Hcall |].
  destruct (getStats_resolved _ _ _ _ _ Hcall)
    as (m & c & i & d & n & tmp & h & pc & fsi & ns & b & dl
        & Em & Ec & Ei & Ed & En & Etmp & Eh & Epc & Efsi & Ens & Eb & Edl
        & Hasm & _).
  unfold assemble in Hasm. cbv zeta in Hasm.
  injection Hasm as Hsnap _. subst snapshot.
  intros t Hfail.
  destruct t; unfold sourceFailed in Hfail; unfold holdsDefault;
    cbn [ram ram_text cpu cpu_name cpu_cores disk network temperature
         process_count file_system_info network_speed battery_status disk_layout].
  - rewrite Hfail in Em. injection Em as <-. split; reflexivity.
  - rewrite Hfail in Ec. injection Ec as <-. reflexivity.
  - rewrite Hfail in Ei. injection Ei as <-. split; reflexivity.
  - destruct Hfail as [Hfail | [r Hfail]]; rewrite Hfail in Ed;
      injection Ed as <-; reflexivity.
  - rewrite Hfail in En. injection En as <-. reflexivity.
  - destruct Hfail as [Hfail | [r Hfail]]; rewrite Hfail in Etmp;
      injection Etmp as <-; reflexivity.
  - exact I.
  - rewrite Hfail in Epc. injection Epc as <-. reflexivity.
  - destruct Hfail as [Hmiss Hfail]. rewrite Hmiss in Efsi.
    unfold fsSizeProducer in Efsi.
    destruct Hfail as [Hfail | [r Hfail]]; rewrite Hfail in Efsi;
      injection Efsi as <-; reflexivity.
  - destruct Hfail as [Hfail | [r Hfail]]; rewrite Hfail in Ens;
      injection Ens as <-; reflexivity.
  - destruct Hfail as [Hmiss Hfail]. rewrite Hmiss in Eb.
    unfold batteryProducer in Eb.
    destruct Hfail as [Hfail | [r Hfail]]; rewrite Hfail in Eb;
      injection Eb as <-; reflexivity.
  - destruct Hfail as [Hmiss Hfail]. rewrite Hmiss in Edl.
    unfold diskLayoutProducer in Edl.
    destruct Hfail as [Hfail | [r Hfail]]; rewrite Hfail in Edl;
      injection Edl as <-; reflexivity.
Qed.

(** Where graceful degradation ends: [getNetworkStats] awaits
    [osutils.network.statsAsync()] outside any [try], so a rejection of
    that promise is the rejection of [getStats]. *)
Remark getStats_rejects env st r :
  isResolved (osutils_memory_info env) = true ->
  isResolved (osutils_cpu_usage env) = true ->
  isResolved (osutils_cpu_info env) = true ->
  isResolved (osutils_process_stats env) = true ->
  osutils_network_statsAsync env = Rejected r ->
  fst (fst (getStats formatBytes env st)) = Some (Rejected r).
Proof.
  intros Hm Hc Hi Hp Hn. unfold getStats. cbv zeta.
  destruct (runAdapters_closed env st) as (_ & _ & _ & _ & _ & _ & Hrej & _).
  cbv zeta in Hrej. rewrite Hrej.
  assert (Hall : forall l,
             head (omap (rejectionOf env) l)
             = if among TNetworkStats l then Some r else None).
  { induction l as [| t l IH]; [reflexivity |].
    unfold among in *. simpl.
    destruct t; simpl; rewrite ?Hn; simpl; try exact IH; try reflexivity;
      match goal with
      | |- context [reasonOf ?o] => destruct o; [simpl; exact IH | discriminate]
      end. }
  rewrite Hall, schedule_complete. reflexivity.
Qed.

(** *** When the histories and the estimator are written *)

Lemma eventsOf_app env l1 l2 :
  eventsOf env (l1 ++ l2) = eventsOf env l1 ++ eventsOf env l2.
Proof. unfold eventsOf. apply flat_map_app. Qed.

Lemma eventsOf_split env l t :
  In t l ->
  exists before after,
    eventsOf env l = before ++ (effectsOf env t ++ [Settled t]) ++ after.
Proof.
  intros Hin. apply in_split in Hin as (l1 & l2 & ->).
  exists (eventsOf env l1), (eventsOf env l2).
  rewrite eventsOf_app. reflexivity.
Qed.

Lemma Settled_logged env l t : In t l -> In (Settled t) (eventsOf env l).
Proof.
  intros Hin. unfold eventsOf. apply in_flat_map. exists t.
  split; [exact Hin |]. apply in_or_app. right. left. reflexivity.
Qed.

(** The only history write an adapter makes is that of [getNetworkStats],
    when its source reports success. *)
Lemma HistoryAppend_origin env l b ts :
  In (HistoryAppend b ts) (eventsOf env l) ->
  b = NetworkBuffer /\ ts = settledAt env TNetworkStats
  /\ exists data, osutils_network_statsAsync env = Resolved (Success data).
Proof.
  unfold eventsOf. rewrite in_flat_map. intros (t & _ & Hin).
  apply in_app_or in Hin as [Hin | [Hin | []]]; [| discriminate Hin].
  destruct t; simpl in Hin; try contradiction.
  - destruct (osutils_network_statsAsync env) as [[data |] | r];
      simpl in Hin; try contradiction.
    destruct Hin as [Hin | []]. injection Hin as <- <-. eauto.
  - destruct (osutils_network_statsAsync_speed env) as [[data |] | r];
      simpl in Hin; try contradiction.
    destruct (length data =? 0)%nat; simpl in Hin; [contradiction |].
    destruct Hin as [Hin | []]. discriminate Hin.
Qed.

(** The estimator is written by [getNetworkSpeed] alone. *)
Lemma RateUpdate_origin env l :
  In RateUpdate (eventsOf env l) -> effectsOf env TNetworkSpeed = [RateUpdate].
Proof.
  unfold eventsOf. rewrite in_flat_map. intros (t & _ & Hin).
  apply in_app_or in Hin as [Hin | [Hin | []]]; [| discriminate Hin].
  destruct t; simpl in Hin; try contradiction.
  - destruct (osutils_network_statsAsync env) as [[data |] | r];
      simpl in Hin; try contradiction.
    destruct Hin as [Hin | []]. discriminate Hin.
  - simpl. destruct (osutils_network_statsAsync_speed env) as [[data |] | r];
      simpl in Hin; try contradiction.
    destruct (length data =? 0)%nat; simpl in Hin; [contradiction | reflexivity].
Qed.

(** C2, as the code has it.  In a pass that resolves: the CPU and the
    memory history receive one sample each, stamped with the same clock
    reading, after every adapter has settled.  The network history is
    written by [getNetworkStats] itself, when it resumes and before its
    own promise settles, with the clock read there, and only if its source
    reports success; otherwise it receives nothing.  The rate estimator is
    written by [getNetworkSpeed] itself, when it resumes and before its own
    promise settles, and is left as it was when that adapter logs no
    update. *)
Theorem pass_ordering env st snapshot st' lg :
  getStats formatBytes env st = (Some (Resolved snapshot), st', lg) ->
  let adapters := eventsOf env (schedule env) in
  lg = adapters ++ [HistoryAppend CpuBuffer (joinedAt env);
                    HistoryAppend MemoryBuffer (joinedAt env)]
  /\ (forall t, In (Settled t) adapters)
  /\ (forall b ts, In (HistoryAppend b ts) adapters ->
        b = NetworkBuffer /\ ts = settledAt env TNetworkStats)
  /\ (exists cpuSample memSample,
        cpuHistory st' = History.append (cpuHistory st) cpuSample
        /\ memoryHistory st' = History.append (memoryHistory st) memSample
        /\ CpuSample.timestamp cpuSample = joinedAt env
        /\ MemSample.timestamp memSample = joinedAt env)
  /\ match osutils_network_statsAsync env with
     | Resolved (Success data) =>
         networkHistory st'
         = History.append (networkHistory st)
             {| NetSample.timestamp := settledAt env TNetworkStats;
                NetSample.input := totalRxOf data;
                NetSample.output := totalTxOf data |}
         /\ exists before after,
              adapters
              = before
                ++ [HistoryAppend NetworkBuffer (settledAt env TNetworkStats);
                    Settled TNetworkStats]
                ++ after
     | _ =>
         networkHistory st' = networkHistory st
         /\ forall ts, ~ In (HistoryAppend NetworkBuffer ts) adapters
     end
  /\ lastNetworkStats st'
     = lastNetworkStats
         (snd (getNetworkSpeed formatBytes (osutils_network_statsAsync_speed env)
                 (settledAt env TNetworkSpeed) st))
  /\ networkSpeedHistory st'
     = networkSpeedHistory
         (snd (getNetworkSpeed formatBytes (osutils_network_statsAsync_speed env)
                 (settledAt env TNetworkSpeed) st))
  /\ (In RateUpdate adapters ->
      exists before after,
        adapters = before ++ [RateUpdate; Settled TNetworkSpeed] ++ after)
  /\ (~ In RateUpdate adapters ->
      lastNetworkStats st' = lastNetworkStats st
      /\ networkSpeedHistory st' = networkSpeedHistory st).
Proof.
  intros Hcall. cbv zeta.
  destruct (getStats_resolved _ _ _ _ _ Hcall)
    as (m & c & i & d & n & tmp & h & pc & fsi & ns & b & dl
        & _ & _ & _ & _ & _ & _ & _ & _ & _ & _ & _ & _ & Hasm & Hlog).
  destruct (runAdapters_closed env st) as (_ & Hc & Hm & Hn & Hl & Hh & _ & _).
  cbv zeta in Hc, Hm, Hn, Hl, Hh.
  unfold assemble in Hasm. cbv zeta in Hasm.
  injection Hasm as _ Hst. subst st'.
  assert (Hall : forall t, In t (schedule env))
    by (intros t; apply among_In, schedule_complete).
  split; [exact Hlog |].
  split; [| split; [| split; [| split; [| split; [| split; [| split]]]]]].
  - intros t. apply Settled_logged, Hall.
  - intros b0 ts Hin. destruct (HistoryAppend_origin _ _ _ _ Hin) as (-> & -> & _).
    split; reflexivity.
  - do 2 eexists. cbn [cpuHistory memoryHistory set_cpuHistory set_memoryHistory].
    rewrite Hc, Hm. unfold History.append. repeat split; reflexivity.
  - cbn [networkHistory set_cpuHistory set_memoryHistory]. rewrite Hn.
    destruct (osutils_network_statsAsync env) as [[data |] | r] eqn:Esrc.
    + split; [reflexivity |].
      destruct (eventsOf_split env (schedule env) TNetworkStats (Hall _))
        as (before & after & Heq).
      exists before, after. rewrite Heq. simpl effectsOf. rewrite Esrc.
      reflexivity.
    + split; [reflexivity |].
      intros ts Hin. destruct (HistoryAppend_origin _ _ _ _ Hin) as (_ & _ & data & E).
      rewrite Esrc in E. discriminate E.
    + split; [reflexivity |].
      intros ts Hin. destruct (HistoryAppend_origin _ _ _ _ Hin) as (_ & _ & data & E).
      rewrite Esrc in E. discriminate E.
  - cbn [lastNetworkStats set_cpuHistory set_memoryHistory]. exact Hl.
  - cbn [networkSpeedHistory set_cpuHistory set_memoryHistory]. exact Hh.
  - intros Hin. apply RateUpdate_origin in Hin.
    destruct (eventsOf_split env (schedule env) TNetworkSpeed (Hall _))
      as (before & after & Heq).
    exists before, after. rewrite Heq, Hin. reflexivity.
  - intros Hnot.
    cbn [lastNetworkStats networkSpeedHistory set_cpuHistory set_memoryHistory].
    rewrite Hl, Hh.
    assert (Hquiet : ~ In RateUpdate (effectsOf env TNetworkSpeed)).
    { intros Hin. apply Hnot.
      destruct (eventsOf_split env (schedule env) TNetworkSpeed (Hall _))
        as (before & after & Heq).
      rewrite Heq. apply in_or_app. right. apply in_or_app. left.
      apply in_or_app. left. exact Hin. }
    simpl in Hquiet. unfold getNetworkSpeed.
    destruct (osutils_network_statsAsync_speed env) as [[data |] | r];
      try (split; reflexivity).
    destruct (length data =? 0)%nat; [split; reflexivity |].
    exfalso. apply Hquiet. left. reflexivity.
Qed.

(** *** The memory percentage *)

(** C9, as the code has it.  In a pass that resolves, [ram] is the
    [usagePercentage] field of the memory reading with two decimals, and
    ["0.00"] when the reading reports failure (the used and total bytes are
    then 0); [ram_text] shows the used and total bytes of that reading next
    to the same percentage.  The percentage is not computed from the
    bytes. *)
Theorem memory_percent env st snapshot st' lg :
  getStats formatBytes env st = (Some (Resolved snapshot), st', lg) ->
  exists m,
    osutils_memory_info env = Resolved m
    /\ match m with
       | Success d =>
           ram snapshot = toFixed (MemInfo.usagePercentage d) 2 +:+ "%"
           /\ ram_text snapshot
              = fmt formatBytes (MemInfo.used d) +:+ " / "
                +:+ fmt formatBytes (MemInfo.total d)
                +:+ " (" +:+ toFixed (MemInfo.usagePercentage d) 2 +:+ "%)"
       | Failure =>
           ram snapshot = "0.00%"
           /\ ram_text snapshot
              = fmt formatBytes 0 +:+ " / " +:+ fmt formatBytes 0 +:+ " (0.00%)"
       end.
Proof.
  intros Hcall.
  destruct (getStats_resolved _ _ _ _ _ Hcall)
    as (m & c & i & d & n & tmp & h & pc & fsi & ns & b & dl
        & Em & _ & _ & _ & _ & _ & _ & _ & _ & _ & _ & _ & Hasm & _).
  unfold assemble in Hasm. cbv zeta in Hasm.
  injection Hasm as Hsnap _. subst snapshot.
  exists m. split; [exact Em |].
  destruct m as [d0 |]; cbn [ram ram_text]; split; reflexivity.
Qed.

(** *** The cache table over the life of the process *)

Lemma thenStore_cacheTyped key now (o : Outcome CacheData) c :
  cacheTyped c ->
  (forall d, o = Resolved d ->
     match d with
     | FsSizeData _ => key = "fsSize"
     | DiskLayoutData _ => key = "diskLayout"
     | BatteryData _ => key = "battery"
     end) ->
  cacheTyped (snd (Cache.thenStore key now o c)).
Proof.
  intros Hc Ho. destruct o as [d | r]; simpl; [| exact Hc].
  intros k e. rewrite lookup_insert. case_decide as Hk.
  - intros [= <-]. subst k. simpl. apply Ho. reflexivity.
  - apply Hc.
Qed.

Lemma stateAfter_cacheTyped env cache0 t st :
  cacheTyped (_cache st) ->
  cacheTyped (_cache (stateAfter formatBytes env cache0 t st)).
Proof.
  intros Hc.
  destruct t; unfold stateAfter; try exact Hc.
  - rewrite getNetworkStats_writes. exact Hc.
  - unfold cachedOutcome, Cache.settle. cbn [_cache set_cache].
    destruct (hitFor env cache0 TFileSystemInfo); [exact Hc |].
    apply thenStore_cacheTyped; [exact Hc |].
    unfold fsSizeProducer. intros d Hd.
    destruct (si_fsSize env); simpl in Hd; [| discriminate].
    injection Hd as <-. reflexivity.
  - rewrite getNetworkSpeed_writes. exact Hc.
  - unfold cachedOutcome, Cache.settle. cbn [_cache set_cache].
    destruct (hitFor env cache0 TBattery); [exact Hc |].
    apply thenStore_cacheTyped; [exact Hc |].
    unfold batteryProducer. intros d Hd.
    destruct (getBatteryStatus (si_battery env)); simpl in Hd; [| discriminate].
    injection Hd as <-. reflexivity.
  - unfold cachedOutcome, Cache.settle. cbn [_cache set_cache].
    destruct (hitFor env cache0 TDiskLayout); [exact Hc |].
    apply thenStore_cacheTyped; [exact Hc |].
    unfold diskLayoutProducer. intros d Hd.
    destruct (si_diskLayout env); simpl in Hd; [| discriminate].
    injection Hd as <-. reflexivity.
Qed.

(** Every call keeps the entries under their own keys, so the value that
    [cachedCall('battery', ...)] resolves with is always a battery
    status. *)
Lemma getStats_cacheTyped env st :
  cacheTyped (_cache st) ->
  cacheTyped (_cache (stateOf (getStats formatBytes env st))).
Proof.
  intros Hc.
  assert (Hrun : forall l p,
             cacheTyped (_cache (state p)) ->
             cacheTyped
               (_cache (state (fold_left (resume formatBytes env (_cache st)) l p)))).
  { induction l as [| t l IH]; intros p Hp; [exact Hp |].
    simpl fold_left. apply IH. unfold resume. cbn [state].
    apply stateAfter_cacheTyped, Hp. }
  specialize (Hrun (schedule env) (fanOut st) Hc).
  fold (runAdapters formatBytes env st) in Hrun.
  unfold stateOf, getStats. cbv zeta.
  destruct (rejection (runAdapters formatBytes env st)); [exact Hrun |].
  destruct (join formatBytes env (runAdapters formatBytes env st))
    as [[s1 s2] |] eqn:Hjoin; [| exact Hrun].
  cbn [fst snd].
  unfold join in Hjoin. cbv zeta in Hjoin.
  repeat match type of Hjoin with
         | await ?p _ = Some _ =>
             destruct p as [[? | ?] |]; cbn [await] in Hjoin;
             try discriminate Hjoin
         end.
  apply (inj Some) in Hjoin. unfold assemble in Hjoin. cbv zeta in Hjoin.
  injection Hjoin as _ <-.
  cbn [_cache set_cpuHistory set_memoryHistory]. exact Hrun.
Qed.

Lemma initial_cacheTyped : cacheTyped (_cache Store.initial).
Proof. intros key e H. simpl in H. rewrite lookup_empty in H. discriminate H. Qed.

Lemma battery_hit_typed env st d :
  cacheTyped (_cache st) ->
  hitFor env (_cache st) TBattery = Some d ->
  exists v, d = BatteryData v.
Proof.
  intros Hc. unfold hitFor, Cache.fresh.
  destruct (_cache st !! "battery") as [e |] eqn:He; [| discriminate].
  destruct (_ <? _)%Z; [| discriminate].
  intros [= <-]. specialize (Hc _ _ He).
  destruct (Cache.data e) as [v | v | v]; [discriminate Hc | discriminate Hc |].
  exists v. reflexivity.
Qed.

(** *** The arrays over the life of the process *)

Lemma getNetworkStats_bounded o now st :
  (length (networkHistory st) <= History.historyLimit)%nat ->
  (length (networkHistory (snd (getNetworkStats formatBytes o now st)))
   <= History.historyLimit)%nat.
Proof.
  intros Hle. destruct o as [[data |] | r]; simpl; try exact Hle.
  apply pushShift_bounded, Hle.
Qed.

(** Every call, resolved or not, keeps the arrays within their bounds. *)
Lemma getStats_bounded env st :
  bounded st -> bounded (stateOf (getStats formatBytes env st)).
Proof.
  intros (Bc & Bm & Bn & Bs).
  destruct (runAdapters_closed env st) as (_ & Hc & Hm & Hn & _ & Hh & _ & _).
  cbv zeta in Hc, Hm, Hn, Hh.
  assert (Bp : bounded (state (runAdapters formatBytes env st))).
  { unfold bounded. rewrite Hc, Hm, Hn, Hh.
    repeat split; try assumption.
    - apply getNetworkStats_bounded, Bn.
    - apply getNetworkSpeed_bounded, Bs. }
  unfold stateOf, getStats. cbv zeta.
  destruct (rejection (runAdapters formatBytes env st)); [exact Bp |].
  destruct (join formatBytes env (runAdapters formatBytes env st))
    as [[s1 s2] |] eqn:Hjoin; [| exact Bp].
  cbn [fst snd].
  unfold join in Hjoin. cbv zeta in Hjoin.
  repeat match type of Hjoin with
         | await ?p _ = Some _ =>
             destruct p as [[? | ?] |]; cbn [await] in Hjoin;
             try discriminate Hjoin
         end.
  apply (inj Some) in Hjoin. unfold assemble in Hjoin. cbv zeta in Hjoin.
  injection Hjoin as _ <-.
  destruct Bp as (Bc' & Bm' & Bn' & Bs').
  unfold bounded.
  cbn [cpuHistory memoryHistory networkHistory networkSpeedHistory
       set_cpuHistory set_memoryHistory].
  repeat split; try assumption; apply pushShift_bounded; assumption.
Qed.

Lemma initial_bounded : bounded Store.initial.
Proof. unfold bounded. simpl. unfold History.historyLimit. lia. Qed.

Lemma cpuHistory_after_call env st :
  osutilsResolve env ->
  cpuHistory (stateOf (getStats formatBytes env st))
  = History.append (cpuHistory st) (cpuSampleOf env).
Proof.
  intros Hres.
  destruct (getStats_resolves env st Hres) as (snapshot & st' & Hcall).
  rewrite Hcall. unfold stateOf. cbn [fst snd].
  destruct (getStats_resolved _ _ _ _ _ Hcall)
    as (m & c & i & d & n & tmp & h & pc & fsi & ns & b & dl
        & _ & Ec & _ & _ & _ & _ & _ & _ & _ & _ & _ & _ & Hasm & _).
  destruct (runAdapters_closed env st) as (_ & Hc & _).
  cbv zeta in Hc.
  unfold assemble in Hasm. cbv zeta in Hasm.
  injection Hasm as _ ->.
  cbn [cpuHistory set_cpuHistory set_memoryHistory].
  rewrite Hc. unfold History.append, cpuSampleOf. rewrite Ec.
  destruct c; reflexivity.
Qed.

(** The CPU history after N calls that resolve, from a freshly loaded
    module: the samples of the last min(N, 20) calls, oldest first. *)
Lemma cpuHistory_after_calls envs :
  Forall osutilsResolve envs ->
  cpuHistory (stateAfterCalls formatBytes envs Store.initial)
  = drop (length envs - History.historyLimit) (map cpuSampleOf envs).
Proof.
  intros Hall.
  assert (Hgen : forall st,
             cpuHistory (stateAfterCalls formatBytes envs st)
             = History.appendAll (cpuHistory st) (map cpuSampleOf envs)).
  { induction Hall as [| env envs Hres _ IH]; intros st; [reflexivity |].
    unfold stateAfterCalls in *. simpl fold_left.
    rewrite IH. fold (stateOf (getStats formatBytes env st)).
    rewrite cpuHistory_after_call by exact Hres. reflexivity. }
  rewrite Hgen. simpl cpuHistory.
  rewrite appendAll_drop by (simpl; lia).
  simpl. rewrite length_map. reflexivity.
Qed.

End AggregatorFacts.

(** *** Worked passes *)

Lemma snapshot_defaults_witness :
  exists snapshot st' lg,
    getStats sampleFormatBytes deadEnv Store.initial
    = (Some (Resolved snapshot), st', lg)
    /\ network snapshot = []
    /\ battery_status snapshot = None
    /\ temperature snapshot = None
    /\ process_count snapshot = zeroProcessCount
    /\ file_system_info snapshot = []
    /\ disk_layout snapshot = []
    /\ disk snapshot = None
    /\ network_speed snapshot = zeroSpeed.
Proof.
  destruct (snapshot_defaults sampleFormatBytes deadEnv Store.initial
              ltac:(repeat split))
    as (snapshot & st' & lg & Hcall & Hdefault).
  exists snapshot, st', lg. split; [exact Hcall |].
  split; [apply (Hdefault TNetworkStats); reflexivity |].
  split; [apply (Hdefault TBattery);
          split; [reflexivity | right; eexists; reflexivity] |].
  split; [apply (Hdefault TTemperature); right; eexists; reflexivity |].
  split; [apply (Hdefault TProcessCount); reflexivity |].
  split; [apply (Hdefault TFileSystemInfo);
          split; [reflexivity | right; eexists; reflexivity] |].
  split; [apply (Hdefault TDiskLayout);
          split; [reflexivity | right; eexists; reflexivity] |].
  split; [apply (Hdefault TDiskStats); left; reflexivity |].
  apply (Hdefault TNetworkSpeed); left; reflexivity.
Defined.

(** C2 as stated fails.  On a host where the network counters come back
    at clock 10 and the temperature sensor at clock 50, the network
    history is written (event 1) and the rate estimator updated (event 3)
    before the temperature adapter settles (event 13); the network sample
    is stamped 10 while the CPU and memory samples of the same pass are
    stamped 60.  On a host whose network counters report failure the pass
    resolves and the network history receives no sample. *)
Lemma pass_ordering_counterexample :
  logOf (getStats sampleFormatBytes busyEnv Store.initial)
  = [Settled THeapStats; HistoryAppend NetworkBuffer 10; Settled TNetworkStats;
     RateUpdate; Settled TNetworkSpeed; Settled TMemory; Settled TCpuUsage;
     Settled TCpuInfo; Settled TDiskStats; Settled TProcessCount;
     Settled TFileSystemInfo; Settled TBattery; Settled TDiskLayout;
     Settled TTemperature; HistoryAppend CpuBuffer 60;
     HistoryAppend MemoryBuffer 60]
  /\ map NetSample.timestamp
       (networkHistory (stateOf (getStats sampleFormatBytes busyEnv Store.initial)))
     = [10%Z]
  /\ map CpuSample.timestamp
       (cpuHistory (stateOf (getStats sampleFormatBytes busyEnv Store.initial)))
     = [60%Z]
  /\ map MemSample.timestamp
       (memoryHistory (stateOf (getStats sampleFormatBytes busyEnv Store.initial)))
     = [60%Z]
  /\ lastNetworkStats (stateOf (getStats sampleFormatBytes busyEnv Store.initial))
     = Some {| Counters.rx := 1000; Counters.tx := 500 |}
  /\ option_map network (snapshotOf (getStats sampleFormatBytes deadEnv Store.initial))
     = Some []
  /\ networkHistory (stateOf (getStats sampleFormatBytes deadEnv Store.initial)) = []
  /\ length (cpuHistory (stateOf (getStats sampleFormatBytes deadEnv Store.initial)))
     = 1%nat.
Proof. vm_compute. repeat split. Qed.

Lemma pass_ordering_witness :
  exists snapshot st' lg,
    getStats sampleFormatBytes busyEnv Store.initial
    = (Some (Resolved snapshot), st', lg)
    /\ (forall t, In (Settled t) (eventsOf busyEnv (schedule busyEnv)))
    /\ networkHistory st'
       = [{| NetSample.timestamp := 10; NetSample.input := 1000;
             NetSample.output := 500 |}].
Proof.
  eassert (Hcall : getStats sampleFormatBytes busyEnv Store.initial
                   = (Some (Resolved _), _, _))
    by (vm_compute; reflexivity).
  do 3 eexists. split; [exact Hcall |].
  destruct (pass_ordering sampleFormatBytes busyEnv Store.initial _ _ _ Hcall)
    as (_ & Hsettled & _ & _ & Hnet & _).
  split; [exact Hsettled |].
  simpl in Hnet. destruct Hnet as [Hnet _]. exact Hnet.
Defined.

(** C9 as stated fails.  A memory reading with 50 bytes used of 100 and a
    usage percentage of 75 gives [ram = "75.00%"], where used / total x 100
    with two decimals is ["50.00"]; a reading with a total of 0 bytes and
    the same usage percentage gives ["75.00%"] as well, not 0. *)
Lemma memory_percent_counterexample :
  osutils_memory_info busyEnv
  = Resolved (Success {| MemInfo.total := 100; MemInfo.used := 50;
                         MemInfo.usagePercentage := 75 # 1 |})
  /\ option_map ram (snapshotOf (getStats sampleFormatBytes busyEnv Store.initial))
     = Some "75.00%"
  /\ toFixed (inject_Z 50 / inject_Z 100 * 100) 2 +:+ "%" = "50.00%"
  /\ option_map ram_text (snapshotOf (getStats sampleFormatBytes busyEnv Store.initial))
     = Some "50.00 B / 100.00 B (75.00%)"
  /\ osutils_memory_info zeroTotalEnv
     = Resolved (Success {| MemInfo.total := 0; MemInfo.used := 0;
                            MemInfo.usagePercentage := 75 # 1 |})
  /\ option_map ram (snapshotOf (getStats sampleFormatBytes zeroTotalEnv Store.initial))
     = Some "75.00%".
Proof. vm_compute. repeat split. Qed.

Lemma memory_percent_witness :
  exists snapshot st' lg,
    getStats sampleFormatBytes busyEnv Store.initial
    = (Some (Resolved snapshot), st', lg)
    /\ ram snapshot = "75.00%".
Proof.
  eassert (Hcall : getStats sampleFormatBytes busyEnv Store.initial
                   = (Some (Resolved _), _, _))
    by (vm_compute; reflexivity).
  do 3 eexists. split; [exact Hcall |].
  destruct (memory_percent sampleFormatBytes busyEnv Store.initial _ _ _ Hcall)
    as (m & Em & Hm).
  simpl in Em. injection Em as <-. destruct Hm as [Hram _]. exact Hram.
Defined.

(** ** Further properties of the module *)

(** ** More on the TTL cache *)

Section CacheEdges.
Context {V W : Type} (clock : W -> Z).
Implicit Types (cache : gmap string (Cache.Entry V)) (fn : W -> Outcome V * W).

(** X1. A call of [cachedCall] touches its own key only.  The entries
    under every other key are what they were, no entry is ever removed,
    and the entry under the key itself is either the one that was there or
    one stamped with the clock read on entry. *)
Theorem cachedCall_frame key fn ttlMs cache w :
  let cache' := snd (fst (Cache.cachedCall clock key fn ttlMs cache w)) in
  (forall k, k <> key -> cache' !! k = cache !! k)
  /\ (forall k, is_Some (cache !! k) -> is_Some (cache' !! k))
  /\ (forall e, cache' !! key = Some e ->
        cache !! key = Some e \/ Cache.ts e = clock w).
Proof.
  cbv zeta. unfold Cache.cachedCall. cbv zeta.
  destruct (Cache.fresh cache key ttlMs (clock w)) as [d |].
  { cbn [fst snd]. repeat split; auto. }
  destruct (fn w) as [[d | r] w']; cbn [Cache.thenStore fst snd];
    [| repeat split; auto].
  split; [| split].
  - intros k Hk. apply lookup_insert_ne. congruence.
  - intros k Hsome. destruct (decide (k = key)) as [-> | Hk].
    + rewrite lookup_insert_eq. eauto.
    + rewrite lookup_insert_ne by congruence. exact Hsome.
  - intros e. rewrite lookup_insert_eq. intros [= <-]. right. reflexivity.
Qed.

(** X2. A time to live of 0 or less switches the cache off: as long as
    the entry of the key, if any, is not stamped in the future, the call
    runs the producer; and the value it has just stored is stale at the
    very clock at which it was stored. *)
Theorem cachedCall_nonpositive_ttl key fn ttlMs cache w :
  (ttlMs <= 0)%Z ->
  (forall e, cache !! key = Some e -> (Cache.ts e <= clock w)%Z) ->
  Cache.cachedCall clock key fn ttlMs cache w
  = (let '(o, w') := fn w in
     let '(r, cache') := Cache.thenStore key (clock w) o cache in
     (r, cache', w'))
  /\ Cache.fresh (snd (fst (Cache.cachedCall clock key fn ttlMs cache w)))
       key ttlMs (clock w) = None.
Proof.
  intros Httl Hpast.
  assert (Hmiss : Cache.fresh cache key ttlMs (clock w) = None).
  { unfold Cache.fresh. destruct (cache !! key) as [e |] eqn:He; [| reflexivity].
    specialize (Hpast e eq_refl).
    destruct (Z.ltb_spec (clock w - Cache.ts e) ttlMs); [lia | reflexivity]. }
  split; [apply cachedCall_miss, Hmiss |].
  rewrite cachedCall_miss by exact Hmiss.
  destruct (fn w) as [[d | r] w']; cbn [Cache.thenStore fst snd].
  - rewrite fresh_store.
    destruct (Z.ltb_spec (clock w - clock w) ttlMs); [lia | reflexivity].
  - exact Hmiss.
Qed.

End CacheEdges.

(** *** Numbers printed and read back *)

Section NumberFacts.

Lemma append_cons c a b : String c a +:+ b = String c (a +:+ b).
Proof. reflexivity. Qed.

Lemma append_nil b : EmptyString +:+ b = b.
Proof. reflexivity. Qed.

Lemma append_nil_r a : a +:+ EmptyString = a.
Proof. induction a as [| c a IH]; [reflexivity |]. rewrite append_cons, IH. reflexivity. Qed.

Lemma readDigits_app s : forall rest acc cnt,
  allDigits s = true ->
  readDigits (s +:+ rest) acc cnt = readDigits rest (valS s acc) (cnt + String.length s).
Proof.
  induction s as [| c s IH]; intros rest acc cnt H.
  - rewrite append_nil. cbn [valS String.length]. rewrite Nat.add_0_r. reflexivity.
  - rewrite append_cons. cbn [valS String.length readDigits allDigits] in *.
    destruct (digitVal c) as [d |]; [| discriminate H]. cbv beta iota in *.
    rewrite IH by exact H. f_equal. lia.
Qed.

Lemma valS_shift s : forall acc,
  allDigits s = true ->
  valS s acc = (acc * 10 ^ Z.of_nat (String.length s) + valS s 0)%Z.
Proof.
  induction s as [| c s IH]; intros acc H.
  - cbn [valS String.length]. change (10 ^ Z.of_nat 0)%Z with 1%Z. lia.
  - cbn [valS String.length allDigits] in *.
    destruct (digitVal c) as [d |]; [| discriminate H]. cbv beta iota in *.
    rewrite (IH (acc * 10 + d)%Z H), (IH (0 * 10 + d)%Z H).
    rewrite Nat2Z.inj_succ, Z.pow_succ_r by lia. lia.
Qed.

Lemma valS_app a : forall b acc,
  allDigits a = true -> valS (a +:+ b) acc = valS b (valS a acc).
Proof.
  induction a as [| c a IH]; intros b acc H; [reflexivity |].
  rewrite append_cons. cbn [valS allDigits] in *.
  destruct (digitVal c) as [d |]; [| discriminate H]. cbv beta iota in *.
  apply IH, H.
Qed.

Lemma allDigits_app a b :
  allDigits (a +:+ b) = allDigits a && allDigits b.
Proof.
  induction a as [| c a IH]; [reflexivity |].
  rewrite append_cons. cbn [allDigits]. destruct (digitVal c); [exact IH | reflexivity].
Qed.

Lemma length_append a b :
  String.length (a +:+ b) = (String.length a + String.length b)%nat.
Proof.
  induction a as [| c a IH]; [reflexivity |].
  rewrite append_cons. cbn [String.length]. rewrite IH. reflexivity.
Qed.

Lemma zeros_digits k : allDigits (zeros k) = true.
Proof. induction k; [reflexivity | exact IHk]. Qed.

Lemma zeros_length k : String.length (zeros k) = k.
Proof. induction k; [reflexivity |]. cbn. rewrite IHk. reflexivity. Qed.

Lemma zeros_val k : valS (zeros k) 0 = 0%Z.
Proof. induction k; [reflexivity | exact IHk]. Qed.

Lemma uint_digits d : allDigits (NilEmpty.string_of_uint d) = true.
Proof. induction d; [reflexivity | exact IHd ..]. Qed.

Lemma uint_val d : forall acc, valS (NilEmpty.string_of_uint d) acc = valU d acc.
Proof. induction d; intros acc; [reflexivity | apply IHd ..]. Qed.

Lemma valU_acc d : forall acc,
  Z.pos (Pos.of_uint_acc d acc) = valU d (Z.pos acc).
Proof.
  induction d; intros acc; cbn [Pos.of_uint_acc valU]; [reflexivity | ..];
    rewrite IHd; f_equal; lia.
Qed.

Lemma valU_of_uint d : valU d 0 = Z.of_N (Pos.of_uint d).
Proof.
  induction d; cbn [Pos.of_uint valU]; [reflexivity | exact IHd | ..];
    cbn [Z.of_N]; rewrite valU_acc; reflexivity.
Qed.

Lemma digits_digits n : allDigits (digits n) = true.
Proof.
  unfold digits, NilZero.string_of_uint.
  destruct (N.to_uint (Z.to_N n)); [reflexivity | apply (uint_digits (_ _)) ..].
Qed.

Lemma digits_val n : (0 <= n)%Z -> valS (digits n) 0 = n.
Proof.
  intros Hn. unfold digits, NilZero.string_of_uint.
  transitivity (valU (N.to_uint (Z.to_N n)) 0).
  - destruct (N.to_uint (Z.to_N n)); [reflexivity | apply (uint_val (_ _)) ..].
  - rewrite valU_of_uint.
    change (Pos.of_uint (N.to_uint (Z.to_N n))) with (N.of_uint (N.to_uint (Z.to_N n))).
    rewrite DecimalN.Unsigned.of_to. apply Z2N.id, Hn.
Qed.

Lemma digits_nonempty n : (0 < String.length (digits n))%nat.
Proof.
  unfold digits, NilZero.string_of_uint.
  destruct (N.to_uint (Z.to_N n)); cbn; lia.
Qed.

Lemma substring_all s : substring 0 (String.length s) s = s.
Proof. induction s as [| c s IH]; [reflexivity |]. cbn. rewrite IH. reflexivity. Qed.

Lemma substring_split s : forall k,
  (k <= String.length s)%nat ->
  substring 0 k s +:+ substring k (String.length s - k) s = s.
Proof.
  induction s as [| c s IH]; intros k Hk.
  - destruct k; [reflexivity | cbn in Hk; lia].
  - destruct k as [| k].
    + change (substring 0 0 (String c s)) with EmptyString.
      rewrite append_nil, Nat.sub_0_r. apply substring_all.
    + cbn [String.length] in *. cbn [substring Nat.sub].
      rewrite append_cons, IH by lia. reflexivity.
Qed.

Lemma substring_length s : forall k,
  (k <= String.length s)%nat -> String.length (substring 0 k s) = k.
Proof.
  induction s as [| c s IH]; intros k Hk.
  - destruct k; [reflexivity | cbn in Hk; lia].
  - destruct k as [| k]; [reflexivity |].
    cbn [String.length substring] in *. rewrite IH by lia. reflexivity.
Qed.

(** A string that begins with a digit has no sign for [parseFloat] to
    take off. *)
Lemma parseFloat_digit c s :
  is_Some (digitVal c) -> parseFloat (String c s) = parseUnsigned (String c s).
Proof.
  intros [d Hd]. destruct c as [[] [] [] [] [] [] [] []];
    try discriminate Hd; reflexivity.
Qed.

(** Reading an integer part, a point and [f] digits. *)
Lemma parseUnsigned_point a b :
  allDigits a = true -> allDigits b = true -> (0 < String.length a)%nat ->
  parseUnsigned (a +:+ String "."%char b)
  = Some (Qmake (valS (a +:+ b) 0) (Z.to_pos (10 ^ Z.of_nat (String.length b)))).
Proof.
  intros Ha Hb Hlen. unfold parseUnsigned.
  rewrite (readDigits_app a _ _ _ Ha).
  change (readDigits (String "."%char b) (valS a 0) (0 + String.length a))
    with (valS a 0, (0 + String.length a)%nat, String "."%char b).
  cbv iota beta.
  rewrite <- (append_nil_r b) at 1.
  rewrite (readDigits_app b _ _ _ Hb). cbn [readDigits]. cbv iota beta.
  destruct (0 + String.length a)%nat eqn:E; [lia |].
  rewrite (valS_app a b 0 Ha), (valS_shift b (valS a 0) Hb). reflexivity.
Qed.

Lemma parseUnsigned_integer a :
  allDigits a = true -> (0 < String.length a)%nat ->
  parseUnsigned a = Some (Qmake (valS a 0) 1).
Proof.
  intros Ha Hlen. unfold parseUnsigned.
  rewrite <- (append_nil_r a) at 1.
  rewrite (readDigits_app a _ _ _ Ha). cbn [readDigits]. cbv iota beta.
  destruct (0 + String.length a)%nat eqn:E; [lia |].
  f_equal. f_equal. change (10 ^ Z.of_nat 0)%Z with 1%Z. lia.
Qed.

Lemma toFixedUnits_nonneg x f : (0 <= toFixedUnits x f)%Z.
Proof.
  unfold toFixedUnits.
  change 0%Z with (Qfloor 0). apply Qfloor_resp_le.
  assert (0 <= Qabs x)%Q by apply Qabs_nonneg.
  assert (0 < inject_Z (10 ^ Z.of_nat f))%Q.
  { change 0%Q with (inject_Z 0). rewrite <- Zlt_Qlt. apply Z.pow_pos_nonneg; lia. }
  assert (0 <= Qabs x * inject_Z (10 ^ Z.of_nat f))%Q
    by (apply Qmult_le_0_compat; [assumption | apply Qlt_le_weak; assumption]).
  apply (Qle_trans _ (0 + (1 # 2))); [discriminate |].
  apply Qplus_le_l. assumption.
Qed.

Lemma parseFloat_signed (neg : bool) body :
  allDigits body = true -> (0 < String.length body)%nat ->
  parseFloat (if neg then String "-"%char body else body)
  = if neg then option_map Qopp (parseUnsigned body) else parseUnsigned body.
Proof.
  intros Hd Hlen. destruct neg; [reflexivity |].
  destruct body as [| c s]; [cbn in Hlen; lia |].
  apply parseFloat_digit. cbn [allDigits] in Hd.
  destruct (digitVal c); [eexists; reflexivity | discriminate Hd].
Qed.

(** Reading back what [toFixed] printed, for a finite [x]: [parseFloat]
    of [x.toFixed(f)] reads the decimal that was printed, the integer
    nearest to [|x| * 10^f] over [10^f], with the sign of [x]. *)
Lemma parseFloat_toFixed_rounded x f :
  parseFloat (toFixed x f) = Some (rounded x f).
Proof.
  unfold toFixed, rounded. cbv zeta.
  set (n := toFixedUnits x f).
  set (m := zeros (S f - String.length (digits n)) +:+ digits n).
  assert (Hn : (0 <= n)%Z) by apply toFixedUnits_nonneg.
  assert (Hm : allDigits m = true).
  { unfold m. rewrite allDigits_app, zeros_digits, digits_digits. reflexivity. }
  assert (Hlen : (S f <= String.length m)%nat).
  { unfold m. rewrite length_append, zeros_length. lia. }
  assert (Hval : valS m 0 = n).
  { unfold m. rewrite valS_app by apply zeros_digits.
    rewrite zeros_val. apply digits_val, Hn. }
  destruct f as [| f'].
  - rewrite parseFloat_signed by (assumption || lia).
    rewrite parseUnsigned_integer by (assumption || lia).
    rewrite Hval. change (Z.to_pos (10 ^ Z.of_nat 0)) with 1%positive.
    destruct (Qnum x <? 0)%Z; reflexivity.
  - set (f := S f') in *. set (k := (String.length m - f)%nat).
    set (a := substring 0 k m). set (b := substring k f m).
    assert (Hsplit : a +:+ b = m).
    { unfold a, b. replace f with (String.length m - k)%nat at 1 by (unfold k; lia).
      apply substring_split. unfold k. lia. }
    assert (Hla : String.length a = k) by (apply substring_length; unfold k; lia).
    assert (Hlb : String.length b = f).
    { pose proof (length_append a b) as H. rewrite Hsplit, Hla in H. unfold k in H. lia. }
    assert (Hab : allDigits a = true /\ allDigits b = true).
    { rewrite <- Hsplit, allDigits_app in Hm. apply andb_true_iff, Hm. }
    destruct Hab as [Ha Hb].
    assert (Hbody : allDigits (a +:+ b) = true) by (rewrite Hsplit; exact Hm).
    assert (Hk : (0 < k)%nat) by (unfold k; lia).
    transitivity
      (if (Qnum x <? 0)%Z
       then option_map Qopp (parseUnsigned (a +:+ String "."%char b))
       else parseUnsigned (a +:+ String "."%char b)).
    + destruct (Qnum x <? 0)%Z; [reflexivity |].
      destruct a as [| c a']; [cbn in Hla; lia |].
      rewrite append_cons. apply parseFloat_digit.
      cbn [allDigits] in Ha.
      destruct (digitVal c); [eexists; reflexivity | discriminate Ha].
    + rewrite parseUnsigned_point by (assumption || lia).
      rewrite Hsplit, Hval, Hlb.
      destruct (Qnum x <? 0)%Z; reflexivity.
Qed.

(** What is read back is within half a unit of the last printed place
    of the number that was printed. *)
Lemma rounded_close x f :
  (Qabs (rounded x f - x) <= 1 # (2 * Z.to_pos (10 ^ Z.of_nat f)))%Q.
Proof.
  unfold rounded, toFixedUnits. cbv zeta.
  set (d := (10 ^ Z.of_nat f)%Z).
  assert (Hd : (0 < d)%Z) by (apply Z.pow_pos_nonneg; lia).
  set (y := (Qabs x * inject_Z d + (1 # 2))%Q).
  pose proof (Qfloor_le y) as Hlo. pose proof (Qlt_floor y) as Hhi.
  set (n := Qfloor y) in *.
  assert (Er : (Qmake n (Z.to_pos d) == inject_Z n / inject_Z d)%Q).
  { unfold Qeq, Qdiv, Qmult, Qinv, inject_Z. simpl.
    destruct d as [| p | p]; try lia. simpl. lia. }
  assert (Hd' : (0 < inject_Z d)%Q).
  { change 0%Q with (inject_Z 0). rewrite <- Zlt_Qlt. exact Hd. }
  assert (Ebound : ((1 # (2 * Z.to_pos d)) == (1 # 2) / inject_Z d)%Q).
  { unfold Qeq, Qdiv, Qmult, Qinv, inject_Z. simpl.
    destruct d as [| p | p]; try lia. simpl. lia. }
  rewrite Ebound.
  rewrite inject_Z_plus in Hhi. change (inject_Z 1) with 1%Q in Hhi.
  assert (Hclose : (Qabs (inject_Z n / inject_Z d - Qabs x) <= (1 # 2) / inject_Z d)%Q).
  { apply Qabs_Qle_condition. unfold y in Hlo, Hhi.
    assert (E : (inject_Z n / inject_Z d - Qabs x
                 == (inject_Z n - Qabs x * inject_Z d) / inject_Z d)%Q)
      by (field; intros H0; rewrite H0 in Hd'; discriminate Hd').
    rewrite E. split.
    - assert (E' : (- ((1 # 2) / inject_Z d) == (- (1 # 2)) / inject_Z d)%Q)
        by (field; intros H0; rewrite H0 in Hd'; discriminate Hd').
      rewrite E'.
      apply Qmult_le_compat_r; [lra | apply Qlt_le_weak, Qinv_lt_0_compat, Hd'].
    - apply Qmult_le_compat_r; [lra | apply Qlt_le_weak, Qinv_lt_0_compat, Hd']. }
  destruct (Qnum x <? 0)%Z eqn:Hneg.
  - assert (Hx : (x < 0)%Q).
    { apply Z.ltb_lt in Hneg. unfold Qlt. simpl. lia. }
    rewrite Er.
    assert (E : (- (inject_Z n / inject_Z d) - x
                 == - (inject_Z n / inject_Z d - Qabs x))%Q)
      by (rewrite (Qabs_neg x) by (apply Qlt_le_weak, Hx); ring).
    rewrite E, Qabs_opp. exact Hclose.
  - assert (Hx : (0 <= x)%Q).
    { apply Z.ltb_ge in Hneg. unfold Qle. simpl. lia. }
    rewrite Er. rewrite (Qabs_pos x Hx) in Hclose. exact Hclose.
Qed.

(** Printing what was read back prints the same digits: [toFixed] is
    unchanged by rounding its argument first. *)
Lemma toFixed_rounded x f :
  (0 <= x)%Q -> toFixed (rounded x f) f = toFixed x f.
Proof.
  intros Hx.
  assert (Hpos : (Qnum x <? 0)%Z = false).
  { apply Z.ltb_ge. unfold Qle in Hx. simpl in Hx. lia. }
  unfold rounded. rewrite Hpos.
  set (n := toFixedUnits x f).
  assert (Hn : (0 <= n)%Z) by apply toFixedUnits_nonneg.
  set (d := (10 ^ Z.of_nat f)%Z).
  assert (Hd : (0 < d)%Z) by (apply Z.pow_pos_nonneg; lia).
  assert (Hunits : toFixedUnits (n # Z.to_pos d) f = n).
  { unfold toFixedUnits. fold d.
    assert (E : (Qabs (n # Z.to_pos d) * inject_Z d + (1 # 2)
                 == inject_Z n + (1 # 2))%Q).
    { apply Qplus_comp; [| reflexivity].
      rewrite Qabs_pos by (unfold Qle; simpl; lia).
      unfold Qeq, Qmult, inject_Z. simpl.
      destruct d as [| p | p]; try lia. simpl. lia. }
    rewrite (Qfloor_comp _ _ E).
    apply Z.le_antisymm.
    - assert (H : (inject_Z (Qfloor (inject_Z n + (1 # 2))) < inject_Z (n + 1))%Q).
      { apply (Qle_lt_trans _ (inject_Z n + (1 # 2))); [apply Qfloor_le |].
        rewrite inject_Z_plus. apply Qplus_lt_r. reflexivity. }
      rewrite <- Zlt_Qlt in H. lia.
    - rewrite <- (Qfloor_Z n) at 1. apply Qfloor_resp_le.
      rewrite <- (Qplus_0_r (inject_Z n)) at 1. apply Qplus_le_r. discriminate. }
  unfold toFixed. cbv zeta. rewrite Hunits. fold n.
  change (Qnum (n # Z.to_pos d)) with n.
  rewrite Hpos. destruct (Z.ltb_spec n 0); [lia | reflexivity].
Qed.

End NumberFacts.

(** ** The pass as a whole *)

Section PassFacts.
Variable formatBytes : Q -> string.

Lemma storedBy_commute env cache0 t1 k1 p1 t2 k2 p2 c :
  k1 <> k2 ->
  storedBy env cache0 t1 k1 p1 (storedBy env cache0 t2 k2 p2 c)
  = storedBy env cache0 t2 k2 p2 (storedBy env cache0 t1 k1 p1 c).
Proof.
  intros Hne. unfold storedBy, cachedOutcome, Cache.settle.
  destruct (hitFor env cache0 t1), (hitFor env cache0 t2); try reflexivity.
  destruct p1 as [d1 | r1], p2 as [d2 | r2]; simpl; try reflexivity.
  apply insert_insert_ne. exact Hne.
Qed.

Lemma stateAfter_cache env cache0 t st :
  _cache (stateAfter formatBytes env cache0 t st)
  = match t with
    | TFileSystemInfo =>
        storedBy env cache0 t "fsSize" (fsSizeProducer env) (_cache st)
    | TBattery => storedBy env cache0 t "battery" (batteryProducer env) (_cache st)
    | TDiskLayout =>
        storedBy env cache0 t "diskLayout" (diskLayoutProducer env) (_cache st)
    | _ => _cache st
    end.
Proof.
  destruct t; unfold stateAfter; try reflexivity.
  - rewrite getNetworkStats_writes. reflexivity.
  - rewrite getNetworkSpeed_writes. reflexivity.
Qed.

(** The three [.then] callbacks write under three different keys, so the
    table they leave does not depend on the order in which they run. *)
Lemma settling_cache env st l :
  NoDup l ->
  _cache (state (fold_left (resume formatBytes env (_cache st)) l (fanOut st)))
  = (if among TFileSystemInfo l
     then storedBy env (_cache st) TFileSystemInfo "fsSize" (fsSizeProducer env)
     else id)
      ((if among TBattery l
        then storedBy env (_cache st) TBattery "battery" (batteryProducer env)
        else id)
         ((if among TDiskLayout l
           then storedBy env (_cache st) TDiskLayout "diskLayout"
                  (diskLayoutProducer env)
           else id) (_cache st))).
Proof.
  induction l as [| t l IH] using rev_ind; intros Hnd.
  - reflexivity.
  - apply NoDup_app in Hnd as (Hnd & Hdisj & _).
    assert (Hnot : ~ In t l).
    { intros Hin. apply (Hdisj t); [apply list_elem_of_In, Hin | left]. }
    specialize (IH Hnd).
    rewrite fold_left_app. simpl fold_left.
    unfold resume at 1. cbn [state].
    rewrite stateAfter_cache, IH. rewrite !among_snoc.
    pose proof (among_not_In t l Hnot) as Hfalse.
    destruct t; cbn [Task_eqb]; rewrite ?orb_false_r, ?orb_true_r;
      try reflexivity; rewrite Hfalse; unfold id.
    + reflexivity.
    + destruct (among TFileSystemInfo l); [| reflexivity].
      apply storedBy_commute. discriminate.
    + destruct (among TFileSystemInfo l), (among TBattery l); try reflexivity.
      * rewrite (storedBy_commute env (_cache st) TDiskLayout "diskLayout" _
                   TFileSystemInfo "fsSize") by discriminate.
        f_equal. apply storedBy_commute. discriminate.
      * apply storedBy_commute. discriminate.
      * apply storedBy_commute. discriminate.
Qed.

Lemma State_eq (s1 s2 : State) :
  cpuHistory s1 = cpuHistory s2 ->
  memoryHistory s1 = memoryHistory s2 ->
  networkHistory s1 = networkHistory s2 ->
  _cache s1 = _cache s2 ->
  lastNetworkStats s1 = lastNetworkStats s2 ->
  networkSpeedHistory s1 = networkSpeedHistory s2 ->
  s1 = s2.
Proof. destruct s1, s2; simpl; intros; subst; reflexivity. Qed.

(** The state in which [Promise.all] settles. *)
Lemma runAdapters_state env st :
  state (runAdapters formatBytes env st) = stateAfterAdapters formatBytes env st.
Proof.
  destruct (runAdapters_closed formatBytes env st) as (_ & Hc & Hm & Hn & Hl & Hh & _).
  cbv zeta in Hc, Hm, Hn, Hl, Hh.
  apply State_eq; try assumption.
  unfold runAdapters. rewrite settling_cache by apply schedule_NoDup.
  rewrite !schedule_complete. reflexivity.
Qed.

Lemma join_ext env p1 p2 :
  promises p1 = promises p2 -> state p1 = state p2 ->
  join formatBytes env p1 = join formatBytes env p2.
Proof. intros Hp Hs. unfold join. rewrite Hp, Hs. reflexivity. Qed.

Lemma head_omap_None {B C : Type} (f : B -> option C) (l : list B) :
  head (omap f l) = None <-> forall x, In x l -> f x = None.
Proof.
  induction l as [| x l IH]; simpl.
  - split; [intros _ y [] | reflexivity].
  - destruct (f x) as [c |] eqn:E; simpl.
    + split; [discriminate |]. intros H. specialize (H x (or_introl eq_refl)).
      congruence.
    + rewrite IH. split.
      * intros H y [<- | Hin]; [exact E | apply H, Hin].
      * intros H y Hin. apply H. right. exact Hin.
Qed.

Lemma head_omap_Some {B C : Type} (f : B -> option C) (l : list B) r :
  head (omap f l) = Some r -> exists x, In x l /\ f x = Some r.
Proof.
  induction l as [| x l IH]; simpl; [discriminate |].
  destruct (f x) as [c |] eqn:E; simpl.
  - intros [= <-]. exists x. split; [left; reflexivity | exact E].
  - intros H. destruct (IH H) as (y & Hin & Hy). exists y. split; [right |]; assumption.
Qed.

Lemma rejectionOf_None env :
  osutilsResolve env <-> forall t, rejectionOf env t = None.
Proof.
  unfold osutilsResolve. split.
  - intros (Hm & Hc & Hi & Hn & Hp) t.
    destruct t; simpl; try reflexivity;
      match goal with
      | |- reasonOf ?o = None => destruct o; [reflexivity | discriminate]
      end.
  - intros H.
    pose proof (H TMemory) as Hm. pose proof (H TCpuUsage) as Hc.
    pose proof (H TCpuInfo) as Hi. pose proof (H TNetworkStats) as Hn.
    pose proof (H TProcessCount) as Hp. simpl in Hm, Hc, Hi, Hn, Hp.
    repeat split;
      match goal with
      | |- isResolved ?o = true => destruct o; [reflexivity | discriminate]
      end.
Qed.

Lemma schedule_In env t : In t (schedule env).
Proof. apply among_In, schedule_complete. Qed.

(** The first rejection of a pass is [None] exactly when the unguarded
    [osutils] promises all resolve. *)
Lemma first_rejection_None env :
  head (omap (rejectionOf env) (schedule env)) = None <-> osutilsResolve env.
Proof.
  rewrite head_omap_None, rejectionOf_None. split.
  - intros H t. apply H, schedule_In.
  - intros H t _. apply H.
Qed.

(** [getStats] without the schedule: what it returns and the state it
    leaves, from the outcomes of the adapters alone. *)
Lemma getStats_closed env st :
  getStats formatBytes env st
  = match head (omap (rejectionOf env) (schedule env)) with
    | Some r =>
        (Some (Rejected r), stateAfterAdapters formatBytes env st,
         eventsOf env (schedule env))
    | None =>
        match join formatBytes env
                {| promises := outcomes formatBytes env st;
                   state := stateAfterAdapters formatBytes env st;
                   rejection := None; log := [] |}
        with
        | Some (snapshot, st') =>
            (Some (Resolved snapshot), st',
             eventsOf env (schedule env)
             ++ [HistoryAppend CpuBuffer (joinedAt env);
                 HistoryAppend MemoryBuffer (joinedAt env)])
        | None =>
            (None, stateAfterAdapters formatBytes env st, eventsOf env (schedule env))
        end
    end.
Proof.
  unfold getStats. cbv zeta.
  destruct (runAdapters_closed formatBytes env st) as (Hps & _ & _ & _ & _ & _ & Hrej & Hlog).
  cbv zeta in Hps, Hrej, Hlog.
  rewrite Hrej, Hlog, runAdapters_state.
  rewrite (join_ext env (runAdapters formatBytes env st)
             {| promises := outcomes formatBytes env st;
                state := stateAfterAdapters formatBytes env st;
                rejection := None; log := [] |});
    [reflexivity | exact Hps | apply runAdapters_state].
Qed.

Lemma getStats_resolved_iff env st :
  osutilsResolve env
  <-> exists snapshot, fst (fst (getStats formatBytes env st)) = Some (Resolved snapshot).
Proof.
  split.
  - intros Hres. destruct (getStats_resolves formatBytes env st Hres) as (s & st' & ->).
    exists s. reflexivity.
  - intros [s Hs]. apply first_rejection_None.
    rewrite getStats_closed in Hs.
    destruct (head (omap (rejectionOf env) (schedule env))); [| reflexivity].
    discriminate Hs.
Qed.

(** *** The instant of a rejection *)

Lemma upToRejection_prefix env l :
  exists rest, l = upToRejection env l ++ rest.
Proof.
  induction l as [| t l [rest IH]]; [exists []; reflexivity |].
  cbn [upToRejection]. destruct (rejectionOf env t).
  - exists l. reflexivity.
  - exists rest. cbn [app]. rewrite <- IH. reflexivity.
Qed.

Lemma upToRejection_NoDup env l : NoDup l -> NoDup (upToRejection env l).
Proof.
  intros H. destruct (upToRejection_prefix env l) as [rest E].
  rewrite E in H. apply NoDup_app in H as (H & _). exact H.
Qed.

(** The promise that rejects first is the last of the adapters that have
    settled by then. *)
Lemma upToRejection_first env l r :
  head (omap (rejectionOf env) l) = Some r
  <-> exists before t after,
        l = before ++ t :: after
        /\ Forall (fun u => rejectionOf env u = None) before
        /\ rejectionOf env t = Some r
        /\ upToRejection env l = before ++ [t].
Proof.
  induction l as [| x l IH]; cbn [omap head upToRejection].
  - split; [discriminate |].
    intros (before & t & after & E & _). destruct before; discriminate E.
  - simpl. destruct (rejectionOf env x) as [rx |] eqn:Ex; simpl.
    + split.
      * intros [= <-]. exists [], x, l. repeat split; [constructor | exact Ex].
      * intros (before & t & after & E & Hb & Ht & _).
        destruct before as [| b before]; injection E as <- E.
        -- congruence.
        -- inversion Hb as [| ? ? Hx _]. congruence.
    + rewrite IH. split.
      * intros (before & t & after & -> & Hb & Ht & Hup).
        exists (x :: before), t, after.
        repeat split; [constructor; assumption | exact Ht |].
        cbn [app]. rewrite Hup. reflexivity.
      * intros (before & t & after & E & Hb & Ht & Hup).
        destruct before as [| b before]; injection E as <- E.
        -- congruence.
        -- exists before, t, after. inversion Hb; subst.
           repeat split; try assumption.
           cbn [app] in Hup. injection Hup as Hup. exact Hup.
Qed.

(** The adapters with an [await] resume in the order of [settledAt]. *)
Lemma insertBy_sorted key t l :
  StronglySorted (fun a b => (key a <= key b)%Z) l ->
  StronglySorted (fun a b => (key a <= key b)%Z) (insertBy key t l).
Proof.
  induction l as [| u l IH]; intros Hs; cbn [insertBy].
  - repeat constructor.
  - inversion Hs as [| ? ? Hl Hu]; subst.
    destruct (Z.leb_spec (key t) (key u)) as [Hle | Hlt].
    + constructor; [exact Hs |]. constructor; [exact Hle |].
      apply List.Forall_forall. intros x Hx.
      rewrite List.Forall_forall in Hu. specialize (Hu x Hx). lia.
    + constructor; [apply IH, Hl |].
      apply List.Forall_forall. intros x Hx.
      apply (Permutation_in _ (insertBy_Permutation key t l)) in Hx.
      destruct Hx as [<- | Hx]; [lia |].
      rewrite List.Forall_forall in Hu. apply Hu, Hx.
Qed.

Lemma sortBy_sorted key l :
  StronglySorted (fun a b => (key a <= key b)%Z) (sortBy key l).
Proof.
  induction l as [| t l IH]; cbn [sortBy fold_right]; [constructor |].
  apply insertBy_sorted, IH.
Qed.

Lemma sorted_around key before (t : Task) after :
  StronglySorted (fun a b => (key a <= key b)%Z) (before ++ t :: after) ->
  (forall x, In x before -> (key x <= key t)%Z)
  /\ (forall x, In x after -> (key t <= key x)%Z).
Proof.
  induction before as [| b before IH]; cbn [app]; intros Hs;
    inversion Hs as [| ? ? Hl Hb]; subst.
  - split; [intros x [] |]. rewrite List.Forall_forall in Hb. exact Hb.
  - destruct (IH Hl) as [Hbefore Hafter]. split; [| exact Hafter].
    intros x [<- | Hx]; [| apply Hbefore, Hx].
    rewrite List.Forall_forall in Hb. apply Hb. apply in_or_app. right. left. reflexivity.
Qed.

(** Which adapters have settled when the promise of [t] settles: those
    that resume before it, and none of those that resume after it. *)
Lemma schedule_order env before t after s :
  schedule env = before ++ t :: after ->
  t <> THeapStats -> s <> THeapStats ->
  ((settledAt env s < settledAt env t)%Z -> among s (before ++ [t]) = true)
  /\ ((settledAt env t < settledAt env s)%Z -> among s (before ++ [t]) = false).
Proof.
  intros Hsched Ht Hs.
  pose proof (schedule_In env s) as Hin. rewrite Hsched in Hin.
  unfold schedule in Hsched.
  pose proof (sortBy_sorted (settledAt env)
                (List.filter (fun t => negb (Task_eqb t THeapStats)) tasks)) as Hss.
  remember (sortBy (settledAt env)
              (List.filter (fun t => negb (Task_eqb t THeapStats)) tasks)) as L eqn:EL.
  clear EL.
  destruct before as [| b before]; cbn [app] in Hsched; injection Hsched as Hb Hsorted;
    [congruence |].
  subst b L. apply sorted_around in Hss as [Hbefore Hafter].
  split; intros Hlt.
  - apply among_In. cbn [app] in Hin. destruct Hin as [Hin | Hin]; [congruence |].
    apply in_app_or in Hin as [Hin | [<- | Hin]].
    + right. apply in_or_app. left. exact Hin.
    + right. apply in_or_app. right. left. reflexivity.
    + specialize (Hafter s Hin). lia.
  - apply among_not_In. intros Hin'. cbn [app] in Hin'.
    destruct Hin' as [Hin' | Hin']; [congruence |].
    apply in_app_or in Hin' as [Hin' | [<- | []]].
    + specialize (Hbefore s Hin'). lia.
    + lia.
Qed.

Lemma getStats_rejected_iff env st r :
  fst (fst (getStats formatBytes env st)) = Some (Rejected r)
  <-> head (omap (rejectionOf env) (schedule env)) = Some r.
Proof.
  rewrite getStats_closed.
  destruct (head (omap (rejectionOf env) (schedule env))) as [r' |].
  - simpl. split; congruence.
  - match goal with
    | |- context [join ?f ?e ?p] => destruct (join f e p) as [[s1 s2] |]
    end; simpl; split; discriminate.
Qed.

(** The module state at the instant of the rejection, part by part: each
    adapter that has settled by then has written what it writes, the
    adapters still pending have written nothing. *)
Lemma stateAtRejection_closed env st :
  let now := stateAtRejection formatBytes env st in
  let settled := settledFirst env in
  cpuHistory now = cpuHistory st
  /\ memoryHistory now = memoryHistory st
  /\ networkHistory now
     = (if among TNetworkStats settled
        then networkHistory (stateAfterAdapters formatBytes env st)
        else networkHistory st)
  /\ lastNetworkStats now
     = (if among TNetworkSpeed settled
        then lastNetworkStats (stateAfterAdapters formatBytes env st)
        else lastNetworkStats st)
  /\ networkSpeedHistory now
     = (if among TNetworkSpeed settled
        then networkSpeedHistory (stateAfterAdapters formatBytes env st)
        else networkSpeedHistory st).
Proof.
  cbv zeta. unfold stateAtRejection.
  destruct (settling formatBytes env st (settledFirst env)
              (upToRejection_NoDup env _ (schedule_NoDup env)))
    as (_ & Hc & Hm & Hn & Hl & Hh & _).
  cbv zeta in Hc, Hm, Hn, Hl, Hh.
  unfold stateAfterAdapters. cbn [networkHistory lastNetworkStats networkSpeedHistory].
  repeat split; assumption.
Qed.

(** X3. What becomes of a call of [getStats] whose library promises all
    settle.  It resolves exactly when the five [osutils] promises awaited
    outside a [try] resolve.  Otherwise it rejects, with the reason of the
    first of them to reject in the order in which the promises settle.  At
    the instant of the rejection the adapters that settled before it have
    written to the network history and to the rate estimator, the adapters
    still pending have not, and the CPU and memory histories are as they
    were; the pending adapters run on, and when the last of them has
    settled the state is the one every adapter leaves, still without a
    CPU or memory sample. *)
Theorem getStats_outcome env st :
  (osutilsResolve env
   <-> exists snapshot,
         fst (fst (getStats formatBytes env st)) = Some (Resolved snapshot))
  /\ (forall r,
        fst (fst (getStats formatBytes env st)) = Some (Rejected r)
        <-> exists before t after,
              schedule env = before ++ t :: after
              /\ Forall (fun u => rejectionOf env u = None) before
              /\ rejectionOf env t = Some r
              /\ settledFirst env = before ++ [t])
  /\ (forall r,
        fst (fst (getStats formatBytes env st)) = Some (Rejected r) ->
        let now := stateAtRejection formatBytes env st in
        let over := stateOf (getStats formatBytes env st) in
        let settled := settledFirst env in
        cpuHistory now = cpuHistory st
        /\ memoryHistory now = memoryHistory st
        /\ networkHistory now
           = (if among TNetworkStats settled then networkHistory over
              else networkHistory st)
        /\ lastNetworkStats now
           = (if among TNetworkSpeed settled then lastNetworkStats over
              else lastNetworkStats st)
        /\ networkSpeedHistory now
           = (if among TNetworkSpeed settled then networkSpeedHistory over
              else networkSpeedHistory st)
        /\ over = stateAfterAdapters formatBytes env st
        /\ cpuHistory over = cpuHistory st
        /\ memoryHistory over = memoryHistory st).
Proof.
  split; [apply getStats_resolved_iff |].
  split.
  - intros r. rewrite getStats_rejected_iff. apply upToRejection_first.
  - intros r Hr. cbv zeta.
    assert (Hover : stateOf (getStats formatBytes env st)
                    = stateAfterAdapters formatBytes env st).
    { apply getStats_rejected_iff in Hr. unfold stateOf.
      rewrite getStats_closed, Hr. reflexivity. }
    rewrite Hover.
    destruct (stateAtRejection_closed env st) as (Hc & Hm & Hn & Hl & Hh).
    cbv zeta in Hc, Hm, Hn, Hl, Hh.
    repeat split; assumption.
Qed.


(** *** The cache from one call to the next *)

Lemma storedBy_lookup_ne env cache0 t k p c key :
  k <> key -> storedBy env cache0 t k p c !! key = c !! key.
Proof.
  intros Hne. unfold storedBy, cachedOutcome, Cache.settle.
  destruct (hitFor env cache0 t); [reflexivity |].
  destruct p as [d | r]; simpl; [| reflexivity].
  apply lookup_insert_ne. exact Hne.
Qed.

Lemma storedBy_lookup_eq env cache0 t k p c :
  storedBy env cache0 t k p c !! k
  = match hitFor env cache0 t, p with
    | None, Resolved d => Some {| Cache.data := d; Cache.ts := calledAt env t |}
    | _, _ => c !! k
    end.
Proof.
  unfold storedBy, cachedOutcome, Cache.settle.
  destruct (hitFor env cache0 t); [destruct p; reflexivity |].
  destruct p as [d | r]; simpl; [| reflexivity].
  apply lookup_insert_eq.
Qed.

Lemma cacheAfter_fsSize env c :
  cacheAfter env c !! "fsSize"
  = match hitFor env c TFileSystemInfo, fsSizeProducer env with
    | None, Resolved d =>
        Some {| Cache.data := d; Cache.ts := calledAt env TFileSystemInfo |}
    | _, _ => c !! "fsSize"
    end.
Proof.
  unfold cacheAfter. rewrite storedBy_lookup_eq.
  rewrite !storedBy_lookup_ne by discriminate. reflexivity.
Qed.

Lemma cacheAfter_battery env c :
  cacheAfter env c !! "battery"
  = match hitFor env c TBattery, batteryProducer env with
    | None, Resolved d => Some {| Cache.data := d; Cache.ts := calledAt env TBattery |}
    | _, _ => c !! "battery"
    end.
Proof.
  unfold cacheAfter. rewrite storedBy_lookup_ne by discriminate.
  rewrite storedBy_lookup_eq.
  rewrite !storedBy_lookup_ne by discriminate. reflexivity.
Qed.

Lemma cacheAfter_diskLayout env c :
  cacheAfter env c !! "diskLayout"
  = match hitFor env c TDiskLayout, diskLayoutProducer env with
    | None, Resolved d =>
        Some {| Cache.data := d; Cache.ts := calledAt env TDiskLayout |}
    | _, _ => c !! "diskLayout"
    end.
Proof.
  unfold cacheAfter. rewrite !storedBy_lookup_ne by discriminate.
  apply storedBy_lookup_eq.
Qed.

Lemma cacheAfter_other env c key :
  key <> "fsSize" -> key <> "battery" -> key <> "diskLayout" ->
  cacheAfter env c !! key = c !! key.
Proof.
  intros H1 H2 H3. unfold cacheAfter.
  rewrite !storedBy_lookup_ne by congruence. reflexivity.
Qed.

(** What a call that resolves returns for the cached fields, and the table
    it leaves. *)
Lemma getStats_cached env st snapshot st' lg :
  getStats formatBytes env st = (Some (Resolved snapshot), st', lg) ->
  getFileSystemInfo formatBytes
    (match hitFor env (_cache st) TFileSystemInfo with
     | Some v => Resolved v
     | None => fsSizeProducer env
     end) = Resolved (file_system_info snapshot)
  /\ getDiskLayout formatBytes
       (match hitFor env (_cache st) TDiskLayout with
        | Some v => Resolved v
        | None => diskLayoutProducer env
        end) = Resolved (disk_layout snapshot)
  /\ (exists b,
        match hitFor env (_cache st) TBattery with
        | Some v => Resolved v
        | None => batteryProducer env
        end = Resolved b
        /\ battery_status snapshot = asBattery b)
  /\ _cache st' = cacheAfter env (_cache st).
Proof.
  intros Hcall.
  destruct (getStats_resolved formatBytes _ _ _ _ _ Hcall)
    as (m & c & i & d & n & tmp & h & pc & fsi & ns & b & dl
        & _ & _ & _ & _ & _ & _ & _ & _ & Efsi & _ & Eb & Edl & Hasm & _).
  rewrite runAdapters_state in Hasm.
  unfold assemble in Hasm. cbv zeta in Hasm.
  injection Hasm as -> ->.
  cbn [file_system_info disk_layout battery_status _cache set_cpuHistory
       set_memoryHistory stateAfterAdapters].
  split; [exact Efsi |]. split; [exact Edl |]. split; [| reflexivity].
  exists b. split; [exact Eb | reflexivity].
Qed.

Lemma fresh_later {V : Type} (c : gmap string (Cache.Entry V)) key ttlMs t1 t2 :
  (t1 <= t2)%Z ->
  Cache.fresh c key ttlMs t1 = None -> Cache.fresh c key ttlMs t2 = None.
Proof.
  unfold Cache.fresh. intros Hle.
  destruct (c !! key) as [e |]; [| reflexivity].
  destruct (Z.ltb_spec (t1 - Cache.ts e) ttlMs); [discriminate |].
  intros _. destruct (Z.ltb_spec (t2 - Cache.ts e) ttlMs); [lia | reflexivity].
Qed.

Lemma fresh_entry {V : Type} (c : gmap string (Cache.Entry V)) key ttlMs t e :
  c !! key = Some e -> (t - Cache.ts e < ttlMs)%Z ->
  Cache.fresh c key ttlMs t = Some (Cache.data e).
Proof.
  intros He Hlt. unfold Cache.fresh. rewrite He.
  destruct (Z.ltb_spec (t - Cache.ts e) ttlMs); [reflexivity | lia].
Qed.

(** X5. A cached field repeats within its time to live.  When a call
    asked [si.fsSize] (resp. [si.diskLayout], [getBatteryStatus]) and got an
    answer, a call made less than 10 s (30 s, 10 s) later returns the same
    [file_system_info] ([disk_layout], [battery_status]) whatever the
    source would answer by then, a failure included. *)
Theorem cached_fields_repeat env1 env2 st snapshot1 st1 lg1 snapshot2 st2 lg2 :
  getStats formatBytes env1 st = (Some (Resolved snapshot1), st1, lg1) ->
  getStats formatBytes env2 st1 = (Some (Resolved snapshot2), st2, lg2) ->
  (forall v,
      hitFor env1 (_cache st) TFileSystemInfo = None ->
      si_fsSize env1 = Resolved v ->
      (calledAt env2 TFileSystemInfo - calledAt env1 TFileSystemInfo < 10000)%Z ->
      file_system_info snapshot2 = file_system_info snapshot1)
  /\ (forall v,
        hitFor env1 (_cache st) TDiskLayout = None ->
        si_diskLayout env1 = Resolved v ->
        (calledAt env2 TDiskLayout - calledAt env1 TDiskLayout < 30000)%Z ->
        disk_layout snapshot2 = disk_layout snapshot1)
  /\ (hitFor env1 (_cache st) TBattery = None ->
      (calledAt env2 TBattery - calledAt env1 TBattery < 10000)%Z ->
      battery_status snapshot2 = battery_status snapshot1).
Proof.
  intros Hcall1 Hcall2.
  destruct (getStats_cached _ _ _ _ _ Hcall1) as (Hfs1 & Hdl1 & (b1 & Hb1 & Hbs1) & Hc1).
  destruct (getStats_cached _ _ _ _ _ Hcall2) as (Hfs2 & Hdl2 & (b2 & Hb2 & Hbs2) & _).
  split; [| split].
  - intros v Hmiss Hsrc Hlt.
    assert (Hhit : hitFor env2 (_cache st1) TFileSystemInfo = Some (FsSizeData v)).
    { cbn [hitFor].
      apply (fresh_entry _ _ _ _
               {| Cache.data := FsSizeData v;
                  Cache.ts := calledAt env1 TFileSystemInfo |}); [| exact Hlt].
      rewrite Hc1, cacheAfter_fsSize, Hmiss. unfold fsSizeProducer.
      rewrite Hsrc. reflexivity. }
    rewrite Hhit in Hfs2. rewrite Hmiss in Hfs1.
    unfold fsSizeProducer in Hfs1. rewrite Hsrc in Hfs1. simpl mapOutcome in Hfs1.
    congruence.
  - intros v Hmiss Hsrc Hlt.
    assert (Hhit : hitFor env2 (_cache st1) TDiskLayout = Some (DiskLayoutData v)).
    { cbn [hitFor].
      apply (fresh_entry _ _ _ _
               {| Cache.data := DiskLayoutData v;
                  Cache.ts := calledAt env1 TDiskLayout |}); [| exact Hlt].
      rewrite Hc1, cacheAfter_diskLayout, Hmiss. unfold diskLayoutProducer.
      rewrite Hsrc. reflexivity. }
    rewrite Hhit in Hdl2. rewrite Hmiss in Hdl1.
    unfold diskLayoutProducer in Hdl1. rewrite Hsrc in Hdl1.
    simpl mapOutcome in Hdl1. congruence.
  - intros Hmiss Hlt. rewrite Hmiss in Hb1.
    assert (Hhit : hitFor env2 (_cache st1) TBattery = Some b1).
    { cbn [hitFor].
      apply (fresh_entry _ _ _ _
               {| Cache.data := b1; Cache.ts := calledAt env1 TBattery |});
        [| exact Hlt].
      rewrite Hc1, cacheAfter_battery, Hmiss, Hb1. reflexivity. }
    rewrite Hhit in Hb2. injection Hb2 as <-. congruence.
Qed.

(** A call that finds a fresh entry under ["battery"] leaves it as it
    is. *)
Lemma battery_entry_kept env st e :
  resolves env = true ->
  _cache st !! "battery" = Some e ->
  (calledAt env TBattery - Cache.ts e < 10000)%Z ->
  _cache (stateOf (getStats formatBytes env st)) !! "battery" = Some e.
Proof.
  intros Hres He Hlt.
  destruct (getStats_resolves formatBytes env st) as (snapshot & st' & Hcall).
  { unfold resolves in Hres. rewrite !andb_true_iff in Hres.
    unfold osutilsResolve. tauto. }
  destruct (getStats_cached _ _ _ _ _ Hcall) as (_ & _ & _ & Hc).
  unfold stateOf. rewrite Hcall. cbn [fst snd].
  rewrite Hc, cacheAfter_battery.
  assert (Hhit : hitFor env (_cache st) TBattery = Some (Cache.data e))
    by (cbn [hitFor]; apply (fresh_entry _ _ _ _ _ He), Hlt).
  rewrite Hhit. exact He.
Qed.

Lemma battery_entry_kept_calls envs : forall st e,
  Forall (fun env => resolves env = true
                     /\ (calledAt env TBattery - Cache.ts e < 10000)%Z) envs ->
  _cache st !! "battery" = Some e ->
  _cache (stateAfterCalls formatBytes envs st) !! "battery" = Some e.
Proof.
  unfold stateAfterCalls.
  induction envs as [| env envs IH]; intros st e Hall He; [exact He |].
  inversion Hall as [| ? ? [Hres Hlt] Hrest]; subst.
  cbn [fold_left]. apply IH; [exact Hrest |].
  apply (battery_entry_kept env st e Hres He Hlt).
Qed.

(** X6. Failures are cached for the battery and not for the disks.  When
    [si.battery] rejects on a miss, [getBatteryStatus] has turned the
    rejection into [null] before [cachedCall] sees it: [null] is stored,
    and it is the [battery_status] of every call that starts in the next
    10 s, however many resolving calls are made in between and even when
    the battery can be read again.  When [si.fsSize] rejects on a miss
    nothing is stored, and the next call asks the source again and returns
    what it answers. *)
Theorem failure_cached_or_retried env1 st snapshot1 st1 lg1 :
  getStats formatBytes env1 st = (Some (Resolved snapshot1), st1, lg1) ->
  (forall r between env2 snapshot2 st2 lg2,
      hitFor env1 (_cache st) TBattery = None ->
      si_battery env1 = Rejected r ->
      Forall (fun env => resolves env = true
                         /\ (calledAt env TBattery - calledAt env1 TBattery < 10000)%Z)
        between ->
      (calledAt env2 TBattery - calledAt env1 TBattery < 10000)%Z ->
      getStats formatBytes env2 (stateAfterCalls formatBytes between st1)
      = (Some (Resolved snapshot2), st2, lg2) ->
      _cache st1 !! "battery"
      = Some {| Cache.data := BatteryData None; Cache.ts := calledAt env1 TBattery |}
      /\ battery_status snapshot2 = None)
  /\ (forall r env2 snapshot2 st2 lg2,
        hitFor env1 (_cache st) TFileSystemInfo = None ->
        si_fsSize env1 = Rejected r ->
        (calledAt env1 TFileSystemInfo <= calledAt env2 TFileSystemInfo)%Z ->
        getStats formatBytes env2 st1 = (Some (Resolved snapshot2), st2, lg2) ->
        _cache st1 !! "fsSize" = _cache st !! "fsSize"
        /\ file_system_info snapshot1 = []
        /\ getFileSystemInfo formatBytes (fsSizeProducer env2)
           = Resolved (file_system_info snapshot2)).
Proof.
  intros Hcall1.
  destruct (getStats_cached _ _ _ _ _ Hcall1) as (Hfs1 & _ & (b1 & Hb1 & Hbs1) & Hc1).
  split.
  - intros r between env2 snapshot2 st2 lg2 Hmiss Hsrc Hbetween Hlt Hcall2.
    destruct (getStats_cached _ _ _ _ _ Hcall2) as (_ & _ & (b2 & Hb2 & Hbs2) & _).
    assert (Hentry : _cache st1 !! "battery"
                     = Some {| Cache.data := BatteryData None;
                               Cache.ts := calledAt env1 TBattery |}).
    { rewrite Hc1, cacheAfter_battery, Hmiss. unfold batteryProducer.
      rewrite Hsrc. reflexivity. }
    split; [exact Hentry |].
    pose proof (battery_entry_kept_calls between st1
                  {| Cache.data := BatteryData None;
                     Cache.ts := calledAt env1 TBattery |} Hbetween Hentry)
      as Hkept.
    assert (Hhit : hitFor env2 (_cache (stateAfterCalls formatBytes between st1)) TBattery
                   = Some (BatteryData None)).
    { cbn [hitFor]. apply (fresh_entry _ _ _ _ _ Hkept). exact Hlt. }
    rewrite Hhit in Hb2. injection Hb2 as <-. exact Hbs2.
  - intros r env2 snapshot2 st2 lg2 Hmiss Hsrc Hle Hcall2.
    destruct (getStats_cached _ _ _ _ _ Hcall2) as (Hfs2 & _ & _ & _).
    assert (Hsame : _cache st1 !! "fsSize" = _cache st !! "fsSize").
    { rewrite Hc1, cacheAfter_fsSize, Hmiss. unfold fsSizeProducer.
      rewrite Hsrc. reflexivity. }
    split; [exact Hsame |]. split.
    + rewrite Hmiss in Hfs1. unfold fsSizeProducer in Hfs1. rewrite Hsrc in Hfs1.
      simpl in Hfs1. congruence.
    + assert (Hmiss2 : hitFor env2 (_cache st1) TFileSystemInfo = None).
      { cbn [hitFor] in *. unfold Cache.fresh in *. rewrite Hsame.
        destruct (_cache st !! "fsSize") as [e |]; [| reflexivity].
        destruct (Z.ltb_spec (calledAt env1 TFileSystemInfo - Cache.ts e) 10000);
          [discriminate |].
        destruct (Z.ltb_spec (calledAt env2 TFileSystemInfo - Cache.ts e) 10000);
          [lia | reflexivity]. }
      rewrite Hmiss2 in Hfs2. exact Hfs2.
Qed.

(** X7. A cached field is asked for again once its time to live is over.
    When a call stored the answer of [si.fsSize] ([si.diskLayout], the
    battery status), a call made 10 s (30 s, 10 s) later or more asks the
    source again and returns what it answers now. *)
Theorem cached_fields_expire env1 env2 st snapshot1 st1 lg1 snapshot2 st2 lg2 :
  getStats formatBytes env1 st = (Some (Resolved snapshot1), st1, lg1) ->
  getStats formatBytes env2 st1 = (Some (Resolved snapshot2), st2, lg2) ->
  (forall v,
      hitFor env1 (_cache st) TFileSystemInfo = None ->
      si_fsSize env1 = Resolved v ->
      (10000 <= calledAt env2 TFileSystemInfo - calledAt env1 TFileSystemInfo)%Z ->
      getFileSystemInfo formatBytes (fsSizeProducer env2)
      = Resolved (file_system_info snapshot2))
  /\ (forall v,
        hitFor env1 (_cache st) TDiskLayout = None ->
        si_diskLayout env1 = Resolved v ->
        (30000 <= calledAt env2 TDiskLayout - calledAt env1 TDiskLayout)%Z ->
        getDiskLayout formatBytes (diskLayoutProducer env2)
        = Resolved (disk_layout snapshot2))
  /\ (hitFor env1 (_cache st) TBattery = None ->
      (10000 <= calledAt env2 TBattery - calledAt env1 TBattery)%Z ->
      getBatteryStatus (si_battery env2) = Resolved (battery_status snapshot2)).
Proof.
  intros Hcall1 Hcall2.
  destruct (getStats_cached _ _ _ _ _ Hcall1) as (Hfs1 & Hdl1 & (b1 & Hb1 & Hbs1) & Hc1).
  destruct (getStats_cached _ _ _ _ _ Hcall2) as (Hfs2 & Hdl2 & (b2 & Hb2 & Hbs2) & _).
  split; [| split].
  - intros v Hmiss Hsrc Hge.
    assert (Hmiss2 : hitFor env2 (_cache st1) TFileSystemInfo = None).
    { cbn [hitFor]. unfold Cache.fresh.
      rewrite Hc1, cacheAfter_fsSize, Hmiss. unfold fsSizeProducer.
      rewrite Hsrc. cbn [mapOutcome Cache.ts].
      destruct (Z.ltb_spec (calledAt env2 TFileSystemInfo
                            - calledAt env1 TFileSystemInfo) 10000);
        [lia | reflexivity]. }
    rewrite Hmiss2 in Hfs2. exact Hfs2.
  - intros v Hmiss Hsrc Hge.
    assert (Hmiss2 : hitFor env2 (_cache st1) TDiskLayout = None).
    { cbn [hitFor]. unfold Cache.fresh.
      rewrite Hc1, cacheAfter_diskLayout, Hmiss. unfold diskLayoutProducer.
      rewrite Hsrc. cbn [mapOutcome Cache.ts].
      destruct (Z.ltb_spec (calledAt env2 TDiskLayout
                            - calledAt env1 TDiskLayout) 30000);
        [lia | reflexivity]. }
    rewrite Hmiss2 in Hdl2. exact Hdl2.
  - intros Hmiss Hge. rewrite Hmiss in Hb1.
    assert (Hmiss2 : hitFor env2 (_cache st1) TBattery = None).
    { cbn [hitFor]. unfold Cache.fresh.
      rewrite Hc1, cacheAfter_battery, Hmiss, Hb1. cbn [Cache.ts].
      destruct (Z.ltb_spec (calledAt env2 TBattery - calledAt env1 TBattery) 10000);
        [lia | reflexivity]. }
    rewrite Hmiss2 in Hb2. unfold batteryProducer in Hb2.
    destruct (getBatteryStatus (si_battery env2)) as [v | r]; simpl in Hb2;
      [| discriminate].
    injection Hb2 as <-. rewrite Hbs2. reflexivity.
Qed.

(** *** The module state from one call to the next *)

Lemma resolves_spec env : resolves env = true <-> osutilsResolve env.
Proof.
  unfold resolves, osutilsResolve. rewrite !andb_true_iff. tauto.
Qed.

(** The state component of [getStats] in closed form; for a call that
    rejects it is the state when the pass is over, later than the
    rejection. *)
Lemma getStats_stateAfterCall env st :
  stateOf (getStats formatBytes env st) = stateAfterCall formatBytes env st.
Proof.
  unfold stateAfterCall, stateAfterResolved.
  destruct (resolves env) eqn:Eres.
  - apply resolves_spec in Eres.
    destruct (getStats_resolves formatBytes env st Eres) as (snapshot & st' & Hcall).
    rewrite Hcall. unfold stateOf. cbn [fst snd].
    destruct (getStats_resolved formatBytes _ _ _ _ _ Hcall)
      as (m & c & i & d & n & tmp & h & pc & fsi & ns & b & dl
          & Em & Ec & _ & _ & _ & _ & _ & _ & _ & _ & _ & _ & Hasm & _).
    rewrite runAdapters_state in Hasm.
    unfold assemble in Hasm. cbv zeta in Hasm.
    injection Hasm as _ ->.
    unfold History.append, cpuSampleOf, memSampleOf. rewrite Em, Ec.
    cbn [cpuHistory memoryHistory set_cpuHistory stateAfterAdapters].
    destruct m, c; reflexivity.
  - assert (Hnot : ~ osutilsResolve env).
    { intros H. apply resolves_spec in H. congruence. }
    unfold stateOf. rewrite getStats_closed.
    destruct (head (omap (rejectionOf env) (schedule env))) as [r |] eqn:E.
    + reflexivity.
    + exfalso. apply Hnot, first_rejection_None, E.
Qed.

(** Calls that do not overlap, each made when the one before is over. *)
Lemma stateAfterCalls_transition envs : forall st,
  stateAfterCalls formatBytes envs st
  = fold_left (fun s env => stateAfterCall formatBytes env s) envs st.
Proof.
  unfold stateAfterCalls.
  induction envs as [| env envs IH]; intros st; [reflexivity |].
  simpl. rewrite IH. f_equal. apply getStats_stateAfterCall.
Qed.

(** X8. The module state across calls that resolve, in closed form.
    Whatever the order in which its adapters resume, a call that resolves
    leaves the state that [stateAfterResolved] computes from the state
    before it and the answers of the platform: the network history as
    [getNetworkStats] writes it, the rate estimator as [getNetworkSpeed]
    writes it, the cache after the three cached adapters, and one sample
    more in the CPU and in the memory history.  A sequence of calls, each
    made after the one before has resolved, is the fold of that
    function. *)
Theorem getStats_transition envs : forall st,
  Forall (fun env => resolves env = true) envs ->
  stateAfterCalls formatBytes envs st
  = fold_left (fun s env => stateAfterResolved formatBytes env s) envs st.
Proof.
  unfold stateAfterCalls.
  induction envs as [| env envs IH]; intros st Hall; [reflexivity |].
  inversion Hall as [| ? ? Hres Hrest]; subst.
  cbn [fold_left]. rewrite IH by exact Hrest. f_equal.
  change (snd (fst (getStats formatBytes env st)))
    with (stateOf (getStats formatBytes env st)).
  rewrite getStats_stateAfterCall. unfold stateAfterCall. rewrite Hres. reflexivity.
Qed.

Lemma stateAfterCalls_snoc envs env st :
  stateAfterCalls formatBytes (envs ++ [env]) st
  = stateOf (getStats formatBytes env (stateAfterCalls formatBytes envs st)).
Proof. unfold stateAfterCalls. rewrite fold_left_app. reflexivity. Qed.

(** The histories a snapshot shows are those of the state the call
    leaves. *)
Lemma snapshot_histories env st snapshot :
  snapshotOf (getStats formatBytes env st) = Some snapshot ->
  cpu_history snapshot = cpuHistory (stateOf (getStats formatBytes env st))
  /\ memory_history snapshot = memoryHistory (stateOf (getStats formatBytes env st))
  /\ network_history snapshot = networkHistory (stateOf (getStats formatBytes env st)).
Proof.
  unfold snapshotOf, stateOf.
  destruct (getStats formatBytes env st) as [[[[s | r] |] st'] lg] eqn:Hcall;
    cbn [fst snd]; try discriminate.
  intros [= ->].
  destruct (getStats_resolved formatBytes _ _ _ _ _ Hcall)
    as (m & c & i & d & n & tmp & h & pc & fsi & ns & b & dl
        & _ & _ & _ & _ & _ & _ & _ & _ & _ & _ & _ & _ & Hasm & _).
  unfold assemble in Hasm. cbv zeta in Hasm.
  injection Hasm as -> ->. repeat split.
Qed.

Lemma stateAfterCalls_bounded envs : forall st,
  bounded st -> bounded (stateAfterCalls formatBytes envs st).
Proof.
  unfold stateAfterCalls.
  induction envs as [| env envs IH]; intros st Hb; [exact Hb |].
  simpl. apply IH. apply (getStats_bounded formatBytes env st Hb).
Qed.

(** X9. The arrays never outgrow their limits.  After any sequence of
    calls on a freshly loaded module, resolved or rejected, the three
    histories hold at most 20 samples and the rate buffer at most 5, and
    so do the three histories of every snapshot. *)
Theorem arrays_stay_bounded envs :
  bounded (stateAfterCalls formatBytes envs Store.initial)
  /\ forall env snapshot,
       snapshotOf (getStats formatBytes env
                     (stateAfterCalls formatBytes envs Store.initial))
       = Some snapshot ->
       (length (cpu_history snapshot) <= 20)%nat
       /\ (length (memory_history snapshot) <= 20)%nat
       /\ (length (network_history snapshot) <= 20)%nat.
Proof.
  pose proof (stateAfterCalls_bounded envs _ (initial_bounded)) as Hb.
  split; [exact Hb |].
  intros env snapshot Hs.
  destruct (snapshot_histories _ _ _ Hs) as (-> & -> & ->).
  destruct (getStats_bounded formatBytes env _ Hb) as (Hc & Hm & Hn & _).
  unfold History.historyLimit in *. tauto.
Qed.

Lemma stateAfterCalls_cacheTyped envs : forall st,
  cacheTyped (_cache st) -> cacheTyped (_cache (stateAfterCalls formatBytes envs st)).
Proof.
  unfold stateAfterCalls.
  induction envs as [| env envs IH]; intros st Hc; [exact Hc |].
  simpl. apply IH. apply (getStats_cacheTyped formatBytes env st Hc).
Qed.

(** X10. The cache table never holds anything but the three entries of its
    three call sites: after any sequence of calls every entry sits under
    ["fsSize"], ["diskLayout"] or ["battery"] and carries the kind of value
    that call site stores, so the table has at most three entries and
    [battery_status] is never read from another site's value. *)
Theorem cache_keys envs :
  let c := _cache (stateAfterCalls formatBytes envs Store.initial) in
  cacheTyped c
  /\ dom c ⊆ {["fsSize"; "diskLayout"; "battery"]}
  /\ (size c <= 3)%nat.
Proof.
  cbv zeta.
  pose proof (stateAfterCalls_cacheTyped envs _ initial_cacheTyped) as Hc.
  assert (Hdom : dom (_cache (stateAfterCalls formatBytes envs Store.initial))
                 ⊆ ({["fsSize"; "diskLayout"; "battery"]} : gset string)).
  { intros key Hin. apply elem_of_dom in Hin as [e He].
    specialize (Hc _ _ He).
    destruct (Cache.data e); subst key; set_solver. }
  split; [exact Hc |]. split; [exact Hdom |].
  rewrite <- size_dom. apply subseteq_size in Hdom.
  etransitivity; [exact Hdom |]. reflexivity.
Qed.

(** *** The histories over the life of the process *)

Lemma stateAfterCall_cpuHistory env st :
  cpuHistory (stateAfterCall formatBytes env st)
  = if resolves env then History.append (cpuHistory st) (cpuSampleOf env)
    else cpuHistory st.
Proof. unfold stateAfterCall, stateAfterResolved. destruct (resolves env); reflexivity. Qed.

Lemma stateAfterCall_memoryHistory env st :
  memoryHistory (stateAfterCall formatBytes env st)
  = if resolves env then History.append (memoryHistory st) (memSampleOf env)
    else memoryHistory st.
Proof. unfold stateAfterCall, stateAfterResolved. destruct (resolves env); reflexivity. Qed.

Lemma stateAfterCall_networkHistory env st :
  networkHistory (stateAfterCall formatBytes env st)
  = match netSampleOf env with
    | Some s => History.append (networkHistory st) s
    | None => networkHistory st
    end.
Proof.
  unfold stateAfterCall, stateAfterResolved, netSampleOf.
  destruct (resolves env); cbn [networkHistory set_memoryHistory set_cpuHistory
                                  stateAfterAdapters];
    destruct (osutils_network_statsAsync env) as [[data |] | r]; reflexivity.
Qed.

Lemma histories_after_calls envs : forall st,
  let st' := fold_left (fun s env => stateAfterCall formatBytes env s) envs st in
  cpuHistory st'
  = History.appendAll (cpuHistory st) (map cpuSampleOf (List.filter resolves envs))
  /\ memoryHistory st'
     = History.appendAll (memoryHistory st)
         (map memSampleOf (List.filter resolves envs))
  /\ networkHistory st'
     = History.appendAll (networkHistory st) (omap netSampleOf envs).
Proof.
  induction envs as [| env envs IH]; intros st; cbv zeta; [repeat split |].
  simpl fold_left. destruct (IH (stateAfterCall formatBytes env st)) as (Hc & Hm & Hn).
  cbv zeta in Hc, Hm, Hn. rewrite Hc, Hm, Hn.
  rewrite stateAfterCall_cpuHistory, stateAfterCall_memoryHistory,
    stateAfterCall_networkHistory.
  simpl List.filter. simpl omap.
  destruct (resolves env), (netSampleOf env); repeat split.
Qed.

Lemma filter_all {B : Type} (f : B -> bool) (l : list B) :
  Forall (fun x => f x = true) l -> List.filter f l = l.
Proof.
  induction l as [| x l IH]; intros H; [reflexivity |].
  inversion H as [| ? ? Hx Hl]; subst. cbn [List.filter]. rewrite Hx, IH by exact Hl.
  reflexivity.
Qed.

(** X11. What the three histories hold after a sequence of calls that
    resolve, each made after the one before has resolved, on a freshly
    loaded module.  The CPU and memory histories hold the samples of the
    last 20 calls; the network history holds the samples of the last 20
    calls whose network source reported success, for a call that resolves
    while that source reports failure pushes no network sample.  The
    histories can therefore differ in length and in the calls they
    describe. *)
Theorem history_windows envs :
  Forall (fun env => resolves env = true) envs ->
  let st := stateAfterCalls formatBytes envs Store.initial in
  let measured := omap netSampleOf envs in
  cpuHistory st = drop (length envs - 20) (map cpuSampleOf envs)
  /\ memoryHistory st = drop (length envs - 20) (map memSampleOf envs)
  /\ networkHistory st = drop (length measured - 20) measured.
Proof.
  intros Hall. cbv zeta. rewrite stateAfterCalls_transition.
  destruct (histories_after_calls envs Store.initial) as (Hc & Hm & Hn).
  cbv zeta in Hc, Hm, Hn. rewrite Hc, Hm, Hn. simpl cpuHistory.
  simpl memoryHistory. simpl networkHistory.
  rewrite (filter_all _ _ Hall).
  rewrite !appendAll_drop by (simpl; lia).
  simpl. rewrite !length_map. repeat split.
Qed.

(** *** The network adapter *)

Lemma totalRxOf_raw data :
  totalRxOf data
  = foldr Z.add 0%Z (map NetIface.rawInputBytes (map (netIfaceOf formatBytes) data)).
Proof.
  unfold totalRxOf. rewrite fold_left_add, map_map. simpl. reflexivity.
Qed.

Lemma totalTxOf_raw data :
  totalTxOf data
  = foldr Z.add 0%Z (map NetIface.rawOutputBytes (map (netIfaceOf formatBytes) data)).
Proof.
  unfold totalTxOf. rewrite fold_left_add, map_map. simpl. reflexivity.
Qed.

(** X12. The network list of a snapshot and the newest network sample
    agree.  In a call that resolves with a successful network reading, the
    [network] field has one record per interface of the reading, in order
    and under the same names, and the last element of [network_history] is
    stamped with the clock of [getNetworkStats] and carries the sums of the
    [rawInputBytes] and of the [rawOutputBytes] of that list. *)
Theorem network_sample_sums env st snapshot st' lg data :
  getStats formatBytes env st = (Some (Resolved snapshot), st', lg) ->
  osutils_network_statsAsync env = Resolved (Success data) ->
  length (network snapshot) = length data
  /\ map NetIface.interface (network snapshot) = map Iface.interface data
  /\ last (network_history snapshot)
     = Some {| NetSample.timestamp := settledAt env TNetworkStats;
               NetSample.input :=
                 foldr Z.add 0%Z (map NetIface.rawInputBytes (network snapshot));
               NetSample.output :=
                 foldr Z.add 0%Z (map NetIface.rawOutputBytes (network snapshot)) |}.
Proof.
  intros Hcall Hsrc.
  destruct (getStats_resolved formatBytes _ _ _ _ _ Hcall)
    as (m & c & i & d & n & tmp & h & pc & fsi & ns & b & dl
        & _ & _ & _ & _ & En & _ & _ & _ & _ & _ & _ & _ & Hasm & _).
  rewrite runAdapters_state in Hasm.
  unfold assemble in Hasm. cbv zeta in Hasm.
  injection Hasm as -> _.
  cbn [network network_history networkHistory set_memoryHistory set_cpuHistory
       stateAfterAdapters].
  rewrite Hsrc in En |- *. simpl in En. injection En as <-.
  split; [apply length_map |]. split.
  - rewrite map_map. reflexivity.
  - cbn [getNetworkStats snd networkHistory set_networkHistory].
    rewrite <- totalRxOf_raw, <- totalTxOf_raw.
    unfold History.pushShift. cbv zeta.
    match goal with
    | |- context [(?a <? ?b)%nat] => destruct (Nat.ltb_spec a b) as [Hlt | Hge]
    end.
    + destruct (networkHistory st) as [| x h'].
      * simpl in Hlt. unfold History.historyLimit in Hlt. lia.
      * simpl tail. apply last_snoc.
    + apply last_snoc.
Qed.

(** *** The rate estimator over the life of the process *)

Lemma pushShift_Forall {B : Type} (P : B -> Prop) limit (h : list B) x :
  Forall P h -> P x -> Forall P (History.pushShift limit h x).
Proof.
  intros Hh Hx. unfold History.pushShift. cbv zeta.
  assert (Hall : Forall P (h ++ [x])) by (apply Forall_app; split; [| constructor]; auto).
  destruct (_ <? _)%nat; [| exact Hall].
  destruct (h ++ [x]); [constructor |]. simpl. inversion Hall; assumption.
Qed.

Lemma getNetworkSpeed_ratesNonneg o now st :
  ratesNonneg st -> ratesNonneg (snd (getNetworkSpeed formatBytes o now st)).
Proof.
  intros Hst. unfold getNetworkSpeed.
  destruct o as [[data |] | r]; try exact Hst.
  destruct (length data =? 0)%nat; [exact Hst |].
  destruct (lastNetworkStats st); [| exact Hst].
  unfold ratesNonneg in *. cbn [snd networkSpeedHistory set_lastNetworkStats
                                 set_networkSpeedHistory].
  apply pushShift_Forall; [exact Hst |]. simpl. lia.
Qed.

Lemma average_nonneg sum n : (0 <= sum)%Z -> (0 <= average sum n)%Q.
Proof.
  intros Hs. unfold average, Qdiv.
  apply Qmult_le_0_compat.
  - unfold Qle. simpl. lia.
  - apply Qinv_le_0_compat. unfold Qle. simpl. lia.
Qed.

Lemma foldr_add_nonneg {B : Type} (f : B -> Z) (l : list B) :
  Forall (fun x => (0 <= f x)%Z) l -> (0 <= foldr Z.add 0%Z (map f l))%Z.
Proof. induction 1; simpl; lia. Qed.

Lemma getNetworkSpeed_result_nonneg o now st s :
  ratesNonneg st ->
  fst (getNetworkSpeed formatBytes o now st) = Resolved s ->
  (0 <= Speed.downloadRaw s)%Q /\ (0 <= Speed.uploadRaw s)%Q.
Proof.
  intros Hst.
  pose proof (getNetworkSpeed_ratesNonneg o now st Hst) as Hafter.
  assert (Hzero : (0 <= Speed.downloadRaw zeroSpeed)%Q
                  /\ (0 <= Speed.uploadRaw zeroSpeed)%Q)
    by (split; apply Qle_refl).
  unfold getNetworkSpeed in *.
  destruct o as [[data |] | r]; try (intros [= <-]; exact Hzero).
  destruct (length data =? 0)%nat; [intros [= <-]; exact Hzero |].
  destruct (lastNetworkStats st); [| intros [= <-]; exact Hzero].
  cbn [fst]. intros [= <-]. cbn [Speed.downloadRaw Speed.uploadRaw].
  unfold ratesNonneg in Hafter.
  cbn [snd networkSpeedHistory set_lastNetworkStats set_networkSpeedHistory] in Hafter.
  split; apply average_nonneg.
  - rewrite sumDownload_spec. apply foldr_add_nonneg.
    eapply Forall_impl; [exact Hafter |]. intros x [H _]. exact H.
  - rewrite sumUpload_spec. apply foldr_add_nonneg.
    eapply Forall_impl; [exact Hafter |]. intros x [_ H]. exact H.
Qed.

Lemma stateAfterCall_speed env st :
  networkSpeedHistory (stateAfterCall formatBytes env st)
  = networkSpeedHistory
      (snd (getNetworkSpeed formatBytes (osutils_network_statsAsync_speed env)
              (settledAt env TNetworkSpeed) st))
  /\ lastNetworkStats (stateAfterCall formatBytes env st)
     = lastNetworkStats
         (snd (getNetworkSpeed formatBytes (osutils_network_statsAsync_speed env)
                 (settledAt env TNetworkSpeed) st)).
Proof. unfold stateAfterCall, stateAfterResolved. destruct (resolves env); split; reflexivity. Qed.

Lemma stateAfterCalls_ratesNonneg envs : forall st,
  ratesNonneg st -> ratesNonneg (stateAfterCalls formatBytes envs st).
Proof.
  intros st. rewrite stateAfterCalls_transition. revert st.
  induction envs as [| env envs IH]; intros st Hst; [exact Hst |].
  simpl. apply IH. unfold ratesNonneg.
  destruct (stateAfterCall_speed env st) as [-> _].
  apply getNetworkSpeed_ratesNonneg, Hst.
Qed.

(** X13. No snapshot ever reports a negative network rate: after any
    sequence of calls on a freshly loaded module, whatever the counters
    did in between (resets included), no sample of the rate buffer is
    negative and [downloadRaw] and [uploadRaw] of the snapshot are at
    least 0. *)
Theorem rates_never_negative envs env snapshot :
  snapshotOf (getStats formatBytes env
                (stateAfterCalls formatBytes envs Store.initial))
  = Some snapshot ->
  (0 <= Speed.downloadRaw (network_speed snapshot))%Q
  /\ (0 <= Speed.uploadRaw (network_speed snapshot))%Q
  /\ ratesNonneg (stateAfterCalls formatBytes (envs ++ [env]) Store.initial).
Proof.
  intros Hs.
  assert (H0 : ratesNonneg Store.initial) by constructor.
  pose proof (stateAfterCalls_ratesNonneg envs _ H0) as Hst.
  pose proof (stateAfterCalls_ratesNonneg (envs ++ [env]) _ H0) as Hst'.
  set (st := stateAfterCalls formatBytes envs Store.initial) in *.
  unfold snapshotOf in Hs.
  destruct (getStats formatBytes env st) as [[[[s | r] |] st'] lg] eqn:Hcall;
    cbn [fst snd] in Hs; try discriminate.
  injection Hs as ->.
  destruct (getStats_resolved formatBytes _ _ _ _ _ Hcall)
    as (m & c & i & d & n & tmp & h & pc & fsi & ns & b & dl
        & _ & _ & _ & _ & _ & _ & _ & _ & _ & Ens & _ & _ & Hasm & _).
  unfold assemble in Hasm. cbv zeta in Hasm.
  injection Hasm as -> _. cbn [network_speed].
  destruct (getNetworkSpeed_result_nonneg _ _ _ _ Hst Ens) as [Hd Hu].
  repeat split; assumption.
Qed.

(** *** The rate estimator over a sequence of readings *)

Lemma fold_pushShift_drop {B : Type} limit (xs : list B) : forall h,
  (length h <= limit)%nat ->
  fold_left (History.pushShift limit) xs h
  = drop (length (h ++ xs) - limit) (h ++ xs).
Proof.
  induction xs as [| x xs IH]; intros h Hle.
  - simpl. rewrite app_nil_r.
    replace (length h - limit)%nat with 0%nat by lia. reflexivity.
  - simpl fold_left.
    rewrite IH by (apply pushShift_bounded; exact Hle).
    rewrite pushShift_drop by exact Hle.
    set (k := (length h + 1 - limit)%nat).
    assert (Hk : (k <= length (h ++ [x]))%nat) by (rewrite length_app; simpl; lia).
    rewrite <- drop_app_le by exact Hk.
    rewrite drop_drop. rewrite <- app_assoc. simpl app.
    f_equal. rewrite length_drop, !length_app. simpl length.
    subst k. lia.
Qed.

Lemma last_cons_default {B : Type} (x d : B) (l : list B) :
  List.last (x :: l) d = List.last l x.
Proof.
  revert x d. induction l as [| y l IH]; intros x d; [reflexivity |].
  change (List.last (x :: y :: l) d) with (List.last (y :: l) d).
  rewrite !IH. reflexivity.
Qed.

Lemma feedSpeed_cons data now rest st :
  feedSpeed formatBytes ((data, now) :: rest) st
  = feedSpeed formatBytes rest
      (snd (getNetworkSpeed formatBytes (Resolved (Success data)) now st)).
Proof. reflexivity. Qed.

(** Fed successful readings, the estimator keeps the counters of the last
    one and pushes the samples of [rateSamples]. *)
Lemma feedSpeed_closed readings : forall st last,
  lastNetworkStats st = Some last ->
  Forall (fun r => fst r <> []) readings ->
  networkSpeedHistory (feedSpeed formatBytes readings st)
  = fold_left (History.pushShift 5) (rateSamples last readings)
      (networkSpeedHistory st)
  /\ lastNetworkStats (feedSpeed formatBytes readings st)
     = Some (List.last (map (fun r => totalsOf (fst r)) readings) last).
Proof.
  induction readings as [| [data now] rest IH]; intros st last Hlast Hall.
  - split; [reflexivity | exact Hlast].
  - inversion Hall as [| ? ? Hne Hrest]; subst. simpl in Hne.
    rewrite feedSpeed_cons.
    assert (Hstep : getNetworkSpeed formatBytes (Resolved (Success data)) now st
                    = (fst (getNetworkSpeed formatBytes (Resolved (Success data)) now st),
                       set_lastNetworkStats (Some (totalsOf data))
                         (set_networkSpeedHistory
                            (History.pushShift 5 (networkSpeedHistory st)
                               {| RateSample.download :=
                                    Z.max 0 (totalRxOf data - Counters.rx last);
                                  RateSample.upload :=
                                    Z.max 0 (totalTxOf data - Counters.tx last);
                                  RateSample.timestamp := now |}) st))).
    { unfold getNetworkSpeed. rewrite (length_eqb_nonempty data Hne), Hlast.
      cbv zeta. unfold timeDiff. rewrite !Z.div_1_r. reflexivity. }
    rewrite Hstep. cbn [snd].
    destruct (IH (set_lastNetworkStats (Some (totalsOf data))
                    (set_networkSpeedHistory
                       (History.pushShift 5 (networkSpeedHistory st)
                          {| RateSample.download :=
                               Z.max 0 (totalRxOf data - Counters.rx last);
                             RateSample.upload :=
                               Z.max 0 (totalTxOf data - Counters.tx last);
                             RateSample.timestamp := now |}) st))
                (totalsOf data) eq_refl Hrest) as [Hh Hl].
    split.
    + rewrite Hh. reflexivity.
    + rewrite Hl.
      change (map (fun r : list Iface.t * Z => totalsOf (fst r)) ((data, now) :: rest))
        with (totalsOf data
              :: map (fun r : list Iface.t * Z => totalsOf (fst r)) rest).
      rewrite last_cons_default. reflexivity.
Qed.

Lemma rateSamples_download last readings :
  map RateSample.download (rateSamples last readings)
  = gains (Counters.rx last) (rxTotals readings).
Proof.
  revert last. induction readings as [| [data now] rest IH]; intros last.
  - reflexivity.
  - simpl. rewrite IH. reflexivity.
Qed.

Lemma rateSamples_upload last readings :
  map RateSample.upload (rateSamples last readings)
  = gains (Counters.tx last) (txTotals readings).
Proof.
  revert last. induction readings as [| [data now] rest IH]; intros last.
  - reflexivity.
  - simpl. rewrite IH. reflexivity.
Qed.

Lemma rateSamples_snoc last readings data now :
  rateSamples last (readings ++ [(data, now)])
  = rateSamples last readings
    ++ [let prev := List.last (map (fun r => totalsOf (fst r)) readings) last in
        {| RateSample.download := Z.max 0 (totalRxOf data - Counters.rx prev);
           RateSample.upload := Z.max 0 (totalTxOf data - Counters.tx prev);
           RateSample.timestamp := now |}].
Proof.
  revert last. induction readings as [| [d t] rest IH]; intros last.
  - reflexivity.
  - cbn [rateSamples app map fst]. rewrite IH, last_cons_default. reflexivity.
Qed.

(** Along counters that never decrease, the gains from position [j] on add
    up to the last value minus the value at position [j]. *)
Lemma gains_telescope rs : forall r0 j,
  Sorted Z.le (r0 :: rs) ->
  (j <= length rs)%nat ->
  foldr Z.add 0%Z (drop j (gains r0 rs)) = (List.last rs r0 - nth j (r0 :: rs) 0%Z)%Z.
Proof.
  induction rs as [| r rs IH]; intros r0 j Hs Hj.
  - simpl in Hj. replace j with 0%nat by lia. simpl. lia.
  - apply Sorted_inv in Hs as [Hs Hhd]. apply HdRel_inv in Hhd.
    destruct j as [| j].
    + pose proof (IH r 0%nat Hs ltac:(lia)) as IH0.
      change (drop 0 (gains r rs)) with (gains r rs) in IH0.
      change (nth 0 (r :: rs) 0%Z) with r in IH0.
      change (foldr Z.add 0%Z (drop 0 (gains r0 (r :: rs))))
        with (Z.max 0 (r - r0) + foldr Z.add 0%Z (gains r rs))%Z.
      rewrite IH0, last_cons_default.
      change (nth 0 (r0 :: r :: rs) 0%Z) with r0. lia.
    + simpl in Hj.
      change (drop (S j) (gains r0 (r :: rs))) with (drop j (gains r rs)).
      rewrite (IH r j Hs ltac:(lia)), last_cons_default. reflexivity.
Qed.

Lemma foldr_add_drop_map {B : Type} (f : B -> Z) j (l : list B) :
  foldr Z.add 0%Z (map f (drop j l)) = foldr Z.add 0%Z (drop j (map f l)).
Proof. rewrite skipn_map. reflexivity. Qed.

(** X14. With counters that never decrease the estimator returns a
    windowed slope.  On a freshly loaded module fed a first reading and
    then n further successful readings, the n-th of them answers with
    (bytes now - bytes k readings ago) / k for k = min(n, 5), for the
    received and for the sent bytes. *)
Theorem rate_is_windowed_slope first t0 rest data now :
  first <> [] ->
  Forall (fun r => fst r <> []) rest ->
  data <> [] ->
  Sorted Z.le (rxTotals ((first, t0) :: rest ++ [(data, now)])) ->
  Sorted Z.le (txTotals ((first, t0) :: rest ++ [(data, now)])) ->
  let st := feedSpeed formatBytes ((first, t0) :: rest) Store.initial in
  let n := S (length rest) in
  let k := Nat.min n 5 in
  exists s,
    fst (getNetworkSpeed formatBytes (Resolved (Success data)) now st) = Resolved s
    /\ Speed.downloadRaw s
       = average (totalRxOf data - nth (n - k) (rxTotals ((first, t0) :: rest)) 0%Z) k
    /\ Speed.uploadRaw s
       = average (totalTxOf data - nth (n - k) (txTotals ((first, t0) :: rest)) 0%Z) k.
Proof.
  intros Hfirst Hrest Hdata Hrx Htx. cbv zeta.
  set (st0 := set_lastNetworkStats (Some (totalsOf first)) Store.initial).
  assert (Hcold : feedSpeed formatBytes ((first, t0) :: rest) Store.initial
                  = feedSpeed formatBytes rest st0).
  { rewrite feedSpeed_cons. unfold getNetworkSpeed.
    rewrite (length_eqb_nonempty first Hfirst). reflexivity. }
  rewrite Hcold.
  destruct (feedSpeed_closed rest st0 (totalsOf first) eq_refl Hrest) as [Hh Hl].
  set (st := feedSpeed formatBytes rest st0) in *.
  set (prev := List.last (map (fun r => totalsOf (fst r)) rest) (totalsOf first)) in *.
  set (H' := History.pushShift 5 (networkSpeedHistory st)
               {| RateSample.download := Z.max 0 (totalRxOf data - Counters.rx prev);
                  RateSample.upload := Z.max 0 (totalTxOf data - Counters.tx prev);
                  RateSample.timestamp := now |}).
  assert (Hres : fst (getNetworkSpeed formatBytes (Resolved (Success data)) now st)
                 = Resolved
                     {| Speed.download :=
                          formatBytes (average (sumDownload H') (length H')) +:+ "/s";
                        Speed.upload :=
                          formatBytes (average (sumUpload H') (length H')) +:+ "/s";
                        Speed.downloadRaw := average (sumDownload H') (length H');
                        Speed.uploadRaw := average (sumUpload H') (length H') |}).
  { unfold getNetworkSpeed. rewrite (length_eqb_nonempty data Hdata), Hl.
    cbv zeta. unfold timeDiff. rewrite !Z.div_1_r. reflexivity. }
  eexists. split; [exact Hres |]. cbn [Speed.downloadRaw Speed.uploadRaw].
  assert (Hn : forall l rd, length (rateSamples l rd) = length rd).
  { intros l rd. revert l. induction rd as [| [d t] rd IH]; intros l;
      [reflexivity | simpl; rewrite IH; reflexivity]. }
  assert (HH : H' = drop (S (length rest) - 5)
                      (rateSamples (totalsOf first) (rest ++ [(data, now)]))).
  { subst H'. rewrite Hh.
    change (networkSpeedHistory st0) with (@nil RateSample.t).
    rewrite rateSamples_snoc. cbv zeta. fold prev.
    assert (E : forall (h : list RateSample.t) x,
               History.pushShift 5 h x = fold_left (History.pushShift 5) [x] h)
      by reflexivity.
    rewrite E, <- fold_left_app.
    rewrite fold_pushShift_drop by (simpl; lia).
    cbn [app].
    rewrite length_app, Hn. simpl length.
    replace (length rest + 1)%nat with (S (length rest)) by lia. reflexivity. }
  assert (Hlen : length H' = Nat.min (S (length rest)) 5).
  { rewrite HH, length_drop. rewrite Hn, length_app. simpl. lia. }
  assert (Hidx : (S (length rest) - Nat.min (S (length rest)) 5
                  = S (length rest) - 5)%nat) by lia.
  rewrite Hlen, Hidx.
  split; f_equal.
  - rewrite sumDownload_spec, HH, foldr_add_drop_map, rateSamples_download.
    unfold rxTotals in *. cbn [map fst] in *. rewrite map_app in *.
    cbn [map fst] in *.
    rewrite gains_telescope.
    + rewrite last_last. f_equal.
      change (Counters.rx (totalsOf first)) with (totalRxOf first).
      rewrite app_comm_cons. apply app_nth1. simpl. rewrite length_map. lia.
    + exact Hrx.
    + rewrite length_app, length_map. simpl. lia.
  - rewrite sumUpload_spec, HH, foldr_add_drop_map, rateSamples_upload.
    unfold txTotals in *. cbn [map fst] in *. rewrite map_app in *.
    cbn [map fst] in *.
    rewrite gains_telescope.
    + rewrite last_last. f_equal.
      change (Counters.tx (totalsOf first)) with (totalTxOf first).
      rewrite app_comm_cons. apply app_nth1. simpl. rewrite length_map. lia.
    + exact Htx.
    + rewrite length_app, length_map. simpl. lia.
Qed.

(** *** The sequential version *)

Lemma firstRejected_None best l :
  Forall (fun e => snd e = None) l ->
  Legacy.firstRejected best l = option_map snd best.
Proof.
  revert best. induction l as [| [t [r |]] l IH]; intros best H; cbn [Legacy.firstRejected].
  - reflexivity.
  - inversion H as [| ? ? H1 _]. discriminate H1.
  - apply IH. inversion H; assumption.
Qed.

Lemma firstRejected_Some l : forall best,
  (is_Some best \/ Exists (fun e => is_Some (snd e)) l) ->
  is_Some (Legacy.firstRejected best l).
Proof.
  induction l as [| [t [r |]] l IH]; intros best H; cbn [Legacy.firstRejected].
  - destruct H as [[b ->] | H]; [eexists; reflexivity | inversion H].
  - destruct best as [[tb rb] |]; [destruct (t <? tb)%Z |];
      apply IH; left; eexists; reflexivity.
  - apply IH. destruct H as [H | H]; [left; exact H |].
    inversion H as [? ? [x Hx] | ? ? H']; [discriminate Hx | right; exact H'].
Qed.

(** The sequential [getStats] when the four promises awaited together
    and the network reading resolve, up to the call of
    [getProcessCount]. *)
Lemma legacy_getStats_closed env st m c i u :
  osutils_memory_info (Legacy.base env) = Resolved m ->
  osutils_cpu_usage (Legacy.base env) = Resolved c ->
  osutils_cpu_info (Legacy.base env) = Resolved i ->
  Legacy.osutils_system_uptime env = Resolved u ->
  isResolved (osutils_network_statsAsync (Legacy.base env)) = true ->
  let b := Legacy.base env in
  let st1 :=
    snd (getNetworkStats formatBytes (osutils_network_statsAsync b)
           (settledAt b TNetworkStats) st) in
  let st2 :=
    snd (getNetworkSpeed formatBytes (osutils_network_statsAsync_speed b)
           (settledAt b TNetworkSpeed) st1) in
  exists d n tmp h fs ns bat,
    getDiskStats formatBytes "/" (osutils_disk_usageByMountPoint b) = Resolved d
    /\ fst (getNetworkStats formatBytes (osutils_network_statsAsync b)
              (settledAt b TNetworkStats) st) = Resolved n
    /\ Legacy.getTemperatureInfo (si_cpuTemperature b) = Resolved tmp
    /\ getHeapStats formatBytes (process_memoryUsage b) = Resolved h
    /\ Legacy.getFileSystemInfo formatBytes (Legacy.si_fsSize env) = Resolved fs
    /\ fst (getNetworkSpeed formatBytes (osutils_network_statsAsync_speed b)
              (settledAt b TNetworkSpeed) st1) = Resolved ns
    /\ Legacy.getBatteryStatus (si_battery b) = Resolved bat
    /\ Legacy.getStats formatBytes env st
       = match getProcessCount (osutils_process_stats b) with
         | Resolved pc =>
             (Resolved
                (fst (Legacy.assemble formatBytes env st2 m c i u d n tmp h pc fs ns bat)),
              snd (Legacy.assemble formatBytes env st2 m c i u d n tmp h pc fs ns bat))
         | Rejected r => (Rejected r, st1)
         end.
Proof.
  intros Em Ec Ei Eu Hn b st1 st2. subst b.
  set (b := Legacy.base env) in *.
  destruct (getDiskStats_resolves formatBytes "/" (osutils_disk_usageByMountPoint b)) as [d Ed].
  destruct (getNetworkStats_resolves formatBytes (osutils_network_statsAsync b)
              (settledAt b TNetworkStats) st Hn) as [n En].
  assert (exists tmp, Legacy.getTemperatureInfo (si_cpuTemperature b) = Resolved tmp)
    as [tmp Etmp]
    by (unfold Legacy.getTemperatureInfo;
        destruct (si_cpuTemperature b) as [[main |] | r]; eexists; reflexivity).
  assert (exists h, getHeapStats formatBytes (process_memoryUsage b) = Resolved h)
    as [h Eh] by (eexists; reflexivity).
  assert (exists fs, Legacy.getFileSystemInfo formatBytes (Legacy.si_fsSize env) = Resolved fs)
    as [fs Efs].
  { unfold Legacy.getFileSystemInfo.
    destruct (Legacy.si_fsSize env) as [[l |] | r]; try (eexists; reflexivity).
    destruct (0 <? length l)%nat; [| eexists; reflexivity].
    destruct (Legacy.rootFsOf l); eexists; reflexivity. }
  destruct (getNetworkSpeed_resolves formatBytes (osutils_network_statsAsync_speed b)
              (settledAt b TNetworkSpeed) st1) as [ns Ens].
  assert (exists bat, Legacy.getBatteryStatus (si_battery b) = Resolved bat) as [bat Ebat].
  { unfold Legacy.getBatteryStatus.
    destruct (si_battery b) as [[x |] | r]; try (eexists; reflexivity).
    destruct (Battery.hasBattery x); eexists; reflexivity. }
  exists d, n, tmp, h, fs, ns, bat.
  repeat (split; [assumption |]).
  unfold Legacy.getStats. cbv zeta. fold b.
  rewrite firstRejected_None
    by (rewrite Em, Ec, Ei, Eu; repeat constructor).
  rewrite Em, Ec, Ei, Eu, Ed, Etmp, Eh, Efs, Ebat.
  cbn [Legacy.awaitOr option_map].
  destruct (getNetworkStats formatBytes (osutils_network_statsAsync b)
              (settledAt b TNetworkStats) st) as [on s1] eqn:E1.
  cbn [fst snd] in *. subst on. subst st1.
  cbn [Legacy.awaitOr].
  destruct (getProcessCount (osutils_process_stats b)) as [pc | r]; [| reflexivity].
  destruct (getNetworkSpeed formatBytes (osutils_network_statsAsync_speed b)
              (settledAt b TNetworkSpeed) s1) as [os s2] eqn:E2.
  cbn [fst snd] in *. subst os. subst st2.
  cbn [Legacy.awaitOr].
  destruct (Legacy.assemble formatBytes env s2 m c i u d n tmp h pc fs ns bat); reflexivity.
Qed.

(** X15. Awaiting the adapters together instead of one after the other
    changed nothing a caller of a resolving pass can see in the fields
    both versions compute alike: from the same module state and the same
    answers of the platform, the two versions leave the same histories
    and the same rate estimator, and their snapshots agree on every field
    except the uptime, the file systems, the battery, the disk layout and
    the temperature.  The temperature is the same number in both, printed
    with the suffix of each file.  The sequential version never touches
    the cache. *)
Theorem versions_agree env st :
  resolves (Legacy.base env) = true ->
  isResolved (Legacy.osutils_system_uptime env) = true ->
  exists old new,
    fst (Legacy.getStats formatBytes env st) = Resolved old
    /\ snapshotOf (getStats formatBytes (Legacy.base env) st) = Some new
    /\ Legacy.sameFields old new
    /\ Legacy.sameTemperature (Legacy.temperature old) (temperature new)
    /\ Legacy.sameArrays (snd (Legacy.getStats formatBytes env st))
         (stateOf (getStats formatBytes (Legacy.base env) st))
    /\ _cache (snd (Legacy.getStats formatBytes env st)) = _cache st.
Proof.
  intros Hres Hup.
  pose proof (proj1 (resolves_spec _) Hres) as Hos.
  destruct Hos as (Hm & Hc & Hi & Hn & Hp).
  destruct (isResolved_inv _ Hm) as [m Em].
  destruct (isResolved_inv _ Hc) as [c Ec].
  destruct (isResolved_inv _ Hi) as [i Ei].
  destruct (isResolved_inv _ Hup) as [u Eu].
  destruct (legacy_getStats_closed env st m c i u Em Ec Ei Eu Hn)
    as (d & n & tmp & h & fs & ns & bat & Ed & En & Etmp & Eh & _ & Ens & _ & Hold).
  cbv zeta in Hold, Ens.
  set (b := Legacy.base env) in *.
  destruct (getStats_resolves formatBytes b st (proj1 (resolves_spec _) Hres))
    as (new & st' & Hnew).
  destruct (getStats_resolved formatBytes _ _ _ _ _ Hnew)
    as (m' & c' & i' & d' & n' & tmp' & h' & pc' & fsi' & ns' & b' & dl'
        & Em' & Ec' & Ei' & Ed' & En' & Etmp' & Eh' & Epc' & _ & Ens' & _ & _ & Hasm & _).
  rewrite runAdapters_state in Hasm.
  rewrite Em in Em'. rewrite Ec in Ec'. rewrite Ei in Ei'. rewrite Ed in Ed'.
  rewrite En in En'. rewrite Eh in Eh'.
  injection Em' as <-. injection Ec' as <-. injection Ei' as <-.
  injection Ed' as <-. injection En' as <-. injection Eh' as <-.
  assert (Htemp : Legacy.sameTemperature tmp tmp').
  { unfold Legacy.getTemperatureInfo in Etmp. unfold getTemperatureInfo in Etmp'.
    destruct (si_cpuTemperature b) as [[main |] | r];
      injection Etmp as <-; injection Etmp' as <-; cbn [Legacy.sameTemperature];
      try exact I.
    exists (toFixed main 1). split; reflexivity. }
  rewrite Epc' in Hold.
  destruct (getNetworkSpeed_reads formatBytes (osutils_network_statsAsync_speed b)
              (settledAt b TNetworkSpeed)
              (snd (getNetworkStats formatBytes (osutils_network_statsAsync b)
                      (settledAt b TNetworkStats) st)) st)
    as (Hfst & Hlast & Hhist).
  { rewrite getNetworkStats_writes. reflexivity. }
  { rewrite getNetworkStats_writes. reflexivity. }
  rewrite Hfst, Ens' in Ens. injection Ens as ->.
  rewrite Hold, Hnew. unfold snapshotOf, stateOf. cbn [fst snd].
  eexists. exists new. split; [reflexivity |]. split; [reflexivity |].
  unfold assemble in Hasm. cbv zeta in Hasm.
  apply (f_equal fst) in Hasm as Hsnap. apply (f_equal snd) in Hasm as Hst.
  cbn [fst snd] in Hsnap, Hst. subst new st'.
  unfold Legacy.assemble, Legacy.sameFields, Legacy.sameArrays. cbv zeta.
  cbn [fst snd Legacy.cpu Legacy.cpu_name Legacy.ram Legacy.ram_text
       Legacy.platform Legacy.architecture Legacy.cpu_cores Legacy.hostname
       Legacy.load_average Legacy.temperature Legacy.disk Legacy.network
       Legacy.cpu_history Legacy.memory_history Legacy.network_history
       Legacy.heap Legacy.process_count Legacy.network_speed Legacy.system_time
       cpu cpu_name ram ram_text platform architecture cpu_cores hostname
       load_average temperature disk network cpu_history memory_history
       network_history heap process_count network_speed system_time].
  rewrite (getNetworkSpeed_writes formatBytes (osutils_network_statsAsync_speed b)
             (settledAt b TNetworkSpeed)
             (snd (getNetworkStats formatBytes (osutils_network_statsAsync b)
                     (settledAt b TNetworkStats) st))).
  rewrite Hlast, Hhist.
  rewrite (getNetworkStats_writes formatBytes (osutils_network_statsAsync b)
             (settledAt b TNetworkStats) st).
  unfold stateAfterAdapters.
  destruct st; cbn. repeat split; try reflexivity. exact Htemp.
Qed.

(** The rejection of [osutils.process.stats()] is the only one of the
    pass. *)
Lemma only_process_rejects env r t r' :
  isResolved (osutils_memory_info env) = true ->
  isResolved (osutils_cpu_usage env) = true ->
  isResolved (osutils_cpu_info env) = true ->
  isResolved (osutils_network_statsAsync env) = true ->
  osutils_process_stats env = Rejected r ->
  rejectionOf env t = Some r' -> t = TProcessCount /\ r' = r.
Proof.
  intros Hm Hc Hi Hn Hp Ht.
  destruct t; cbn [rejectionOf] in Ht; try discriminate Ht;
    try (match type of Ht with
         | reasonOf ?o = _ => destruct o; [discriminate Ht | discriminate]
         end).
  rewrite Hp in Ht. injection Ht as <-. split; reflexivity.
Qed.

(** X16. Where the two versions part on a failure.  When
    [osutils.process.stats()] rejects (the other promises resolving), the
    sequential version rejects with that reason before it has called
    [getNetworkSpeed]: the network history has its sample, the rate
    estimator is as it was, and stays so.  The concurrent version rejects
    with the same reason, but it started every adapter first: at the
    instant of the rejection the estimator has taken the reading of the
    pass if [getNetworkSpeed] resumed before the rejection and has not if
    it resumes after, and once every adapter has settled the estimator
    has taken it, and the network history is the one the sequential
    version leaves. *)
Theorem sequential_stops_at_rejection env st r :
  isResolved (osutils_memory_info (Legacy.base env)) = true ->
  isResolved (osutils_cpu_usage (Legacy.base env)) = true ->
  isResolved (osutils_cpu_info (Legacy.base env)) = true ->
  isResolved (Legacy.osutils_system_uptime env) = true ->
  isResolved (osutils_network_statsAsync (Legacy.base env)) = true ->
  osutils_process_stats (Legacy.base env) = Rejected r ->
  let b := Legacy.base env in
  let old := Legacy.getStats formatBytes env st in
  let new := getStats formatBytes b st in
  let now := stateAtRejection formatBytes b st in
  let speed :=
    getNetworkSpeed formatBytes (osutils_network_statsAsync_speed b)
      (settledAt b TNetworkSpeed) st in
  old = (Rejected r,
         snd (getNetworkStats formatBytes (osutils_network_statsAsync b)
                (settledAt b TNetworkStats) st))
  /\ lastNetworkStats (snd old) = lastNetworkStats st
  /\ networkSpeedHistory (snd old) = networkSpeedHistory st
  /\ fst (fst new) = Some (Rejected r)
  /\ ((settledAt b TNetworkSpeed < settledAt b TProcessCount)%Z ->
      lastNetworkStats now = lastNetworkStats (snd speed)
      /\ networkSpeedHistory now = networkSpeedHistory (snd speed))
  /\ ((settledAt b TProcessCount < settledAt b TNetworkSpeed)%Z ->
      lastNetworkStats now = lastNetworkStats st
      /\ networkSpeedHistory now = networkSpeedHistory st)
  /\ networkHistory (stateOf new) = networkHistory (snd old)
  /\ lastNetworkStats (stateOf new) = lastNetworkStats (snd speed)
  /\ networkSpeedHistory (stateOf new) = networkSpeedHistory (snd speed).
Proof.
  intros Hm Hc Hi Hup Hn Hp b old new now speed.
  destruct (isResolved_inv _ Hm) as [m Em].
  destruct (isResolved_inv _ Hc) as [c Ec].
  destruct (isResolved_inv _ Hi) as [i Ei].
  destruct (isResolved_inv _ Hup) as [u Eu].
  destruct (legacy_getStats_closed env st m c i u Em Ec Ei Eu Hn)
    as (d & n & tmp & h & fs & ns & bat & _ & _ & _ & _ & _ & _ & _ & Hold).
  cbv zeta in Hold. rewrite Hp in Hold. cbn [getProcessCount] in Hold.
  subst old new speed now b. rewrite Hold. cbn [fst snd].
  set (b := Legacy.base env) in *.
  assert (Hres : resolves b = false).
  { unfold resolves. rewrite Hp. cbn [isResolved]. apply andb_false_r. }
  assert (Hover : stateOf (getStats formatBytes b st)
                  = stateAfterAdapters formatBytes b st).
  { rewrite getStats_stateAfterCall. unfold stateAfterCall. rewrite Hres. reflexivity. }
  assert (Hfirst : exists r0, head (omap (rejectionOf b) (schedule b)) = Some r0).
  { destruct (head (omap (rejectionOf b) (schedule b))) as [r0 |] eqn:E;
      [exists r0; reflexivity |].
    apply first_rejection_None, resolves_spec in E. congruence. }
  destruct Hfirst as [r0 Hfirst].
  pose proof Hfirst as Hsplit.
  apply upToRejection_first in Hsplit
    as (before & t & after & Hsched & _ & Ht & Hsettled).
  destruct (only_process_rejects b r t r0 Hm Hc Hi Hn Hp Ht) as [-> ->].
  destruct (schedule_order b before TProcessCount after TNetworkSpeed Hsched
              ltac:(discriminate) ltac:(discriminate)) as [Hearly Hlate].
  destruct (stateAtRejection_closed b st) as (_ & _ & _ & Hl & Hh).
  cbv zeta in Hl, Hh. unfold settledFirst in Hl, Hh.
  rewrite Hsettled in Hl, Hh.
  rewrite Hover.
  split; [reflexivity |].
  split; [rewrite (getNetworkStats_writes formatBytes (osutils_network_statsAsync b)
                     (settledAt b TNetworkStats) st); destruct st; reflexivity |].
  split; [rewrite (getNetworkStats_writes formatBytes (osutils_network_statsAsync b)
                     (settledAt b TNetworkStats) st); destruct st; reflexivity |].
  split; [apply getStats_rejected_iff, Hfirst |].
  split; [intros Hlt; rewrite Hl, Hh, (Hearly Hlt); split; reflexivity |].
  split; [intros Hlt; rewrite Hl, Hh, (Hlate Hlt); split; reflexivity |].
  unfold stateAfterAdapters. cbn [networkHistory lastNetworkStats networkSpeedHistory].
  repeat split.
Qed.

(** X17. The sequential version does nothing at all when one of the
    promises it awaits first rejects: it rejects and leaves the module
    state as it found it, for good.  The concurrent version rejects as
    well, but it has started its adapters all the same: those that
    settled before the rejection have written by then, and once the last
    has settled the network history, the estimator and the cache are
    those of a complete pass, with no CPU or memory sample. *)
Theorem sequential_early_rejection env st :
  isResolved (osutils_memory_info (Legacy.base env))
  && isResolved (osutils_cpu_usage (Legacy.base env))
  && isResolved (osutils_cpu_info (Legacy.base env)) = false ->
  let b := Legacy.base env in
  let now := stateAtRejection formatBytes b st in
  (exists r, Legacy.getStats formatBytes env st = (Rejected r, st))
  /\ (exists r, fst (fst (getStats formatBytes b st)) = Some (Rejected r))
  /\ networkHistory now
     = (if among TNetworkStats (settledFirst b)
        then networkHistory (stateAfterAdapters formatBytes b st)
        else networkHistory st)
  /\ lastNetworkStats now
     = (if among TNetworkSpeed (settledFirst b)
        then lastNetworkStats (stateAfterAdapters formatBytes b st)
        else lastNetworkStats st)
  /\ stateOf (getStats formatBytes b st) = stateAfterAdapters formatBytes b st.
Proof.
  intros H b now. subst now b.
  assert (Hres : resolves (Legacy.base env) = false)
    by (unfold resolves; rewrite H; reflexivity).
  split; [| split; [| split; [| split]]].
  - unfold Legacy.getStats. cbv zeta.
    match goal with
    | |- context [Legacy.firstRejected None ?l] =>
        destruct (firstRejected_Some l None) as [r ->]; [| exists r; reflexivity]
    end.
    right.
    destruct (osutils_memory_info (Legacy.base env)) as [m | r];
      [| left; eexists; reflexivity].
    destruct (osutils_cpu_usage (Legacy.base env)) as [c | r];
      [| right; left; eexists; reflexivity].
    destruct (osutils_cpu_info (Legacy.base env)) as [i | r];
      [discriminate H | right; right; left; eexists; reflexivity].
  - destruct (head (omap (rejectionOf (Legacy.base env)) (schedule (Legacy.base env))))
      as [r |] eqn:E.
    + exists r. apply getStats_rejected_iff, E.
    + apply first_rejection_None, resolves_spec in E. congruence.
  - apply stateAtRejection_closed.
  - apply stateAtRejection_closed.
  - rewrite getStats_stateAfterCall. unfold stateAfterCall. rewrite Hres. reflexivity.
Qed.

(** X18. Which file system the sequential version describes.  Of a
    non-empty list it describes one element: the first that is mounted at
    ["/"] or ["C:"], and the first of the list when none is. *)
Theorem root_file_system fsSize :
  fsSize <> [] ->
  exists rootFs,
    Legacy.getFileSystemInfo formatBytes (Resolved (Some fsSize))
    = Resolved (Legacy.rootInfoOf formatBytes rootFs)
    /\ ((Legacy.isRoot rootFs = true
         /\ exists before after,
              fsSize = before ++ rootFs :: after
              /\ Forall (fun fs => Legacy.isRoot fs = false) before)
        \/ (Forall (fun fs => Legacy.isRoot fs = false) fsSize
            /\ head fsSize = Some rootFs)).
Proof.
  intros Hne. unfold Legacy.getFileSystemInfo, Legacy.rootFsOf.
  destruct fsSize as [| fs0 rest]; [contradiction |].
  change (0 <? length (fs0 :: rest))%nat with true. cbv iota.
  destruct (List.find Legacy.isRoot (fs0 :: rest)) as [fs |] eqn:Hfind.
  - exists fs. split; [reflexivity |]. left.
    revert Hfind. generalize (fs0 :: rest). intros l.
    induction l as [| x l IH]; [discriminate |].
    cbn [List.find]. destruct (Legacy.isRoot x) eqn:Hx.
    + intros [= ->]. split; [exact Hx |].
      exists [], l. split; [reflexivity | constructor].
    + intros Hfind. destruct (IH Hfind) as (Hr & before & after & -> & Hb).
      split; [exact Hr |].
      exists (x :: before), after. split; [reflexivity | constructor; assumption].
  - exists fs0. split; [reflexivity |]. right. split; [| reflexivity].
    apply List.Forall_forall. intros x Hin.
    exact (List.find_none _ _ Hfind x Hin).
Qed.

(** *** The memory sample *)

Lemma pushShift_last {A : Type} limit (h : list A) x :
  (0 < limit)%nat -> last (History.pushShift limit h x) = Some x.
Proof.
  intros Hl. unfold History.pushShift. cbv zeta.
  destruct (Nat.ltb_spec limit (length (h ++ [x]))) as [Hlt | Hge].
  - destruct h as [| a h]; [simpl in Hlt; lia |].
    change (tail ((a :: h) ++ [x])) with (h ++ [x]). apply last_snoc.
  - apply last_snoc.
Qed.

(** X19. The usage stored with a memory sample.  [getStats] prints the
    usage percentage with [toFixed(2)] and stores [parseFloat] of that
    string in the memory history.  For a percentage that is a finite
    number, the newest entry of [memory_history] in a snapshot holds a
    usage within 0.01 of what the library reported (the decimal printed is
    within 0.005 of it, and the double nearest to that decimal is no
    farther from the decimal than the reported double is), with the used
    and total bytes of the same reading; when the reading reports failure
    the three are 0. *)
Theorem memory_usage_read_back env st snapshot :
  snapshotOf (getStats formatBytes env st) = Some snapshot ->
  exists sample r,
    last (memory_history snapshot) = Some sample
    /\ MemSample.usage sample = Some r
    /\ match osutils_memory_info env with
       | Resolved (Success d) =>
           (Qabs (r - MemInfo.usagePercentage d) <= 1 # 100)%Q
           /\ MemSample.used sample = MemInfo.used d
           /\ MemSample.total sample = MemInfo.total d
       | _ =>
           (r == 0)%Q
           /\ MemSample.used sample = 0%Z
           /\ MemSample.total sample = 0%Z
       end.
Proof.
  intros Hsnap.
  destruct (snapshot_histories env st snapshot Hsnap) as (_ & Hmem & _).
  assert (Hres : resolves env = true).
  { apply resolves_spec, (getStats_resolved_iff env st).
    unfold snapshotOf in Hsnap.
    destruct (fst (fst (getStats formatBytes env st))) as [[s | r] |];
      try discriminate Hsnap.
    exists s. reflexivity. }
  rewrite getStats_stateAfterCall, stateAfterCall_memoryHistory, Hres in Hmem.
  exists (memSampleOf env).
  assert (Hlast : last (memory_history snapshot) = Some (memSampleOf env)).
  { rewrite Hmem. apply pushShift_last. unfold History.historyLimit. lia. }
  unfold memSampleOf in *.
  destruct (osutils_memory_info env) as [[d |] | r0].
  - exists (rounded (MemInfo.usagePercentage d) 2).
    split; [exact Hlast |]. cbn [MemSample.usage MemSample.used MemSample.total].
    split; [apply parseFloat_toFixed_rounded |].
    split; [| split; reflexivity].
    apply (Qle_trans _ (1 # 200)); [| discriminate].
    apply (rounded_close (MemInfo.usagePercentage d) 2).
  - eexists. split; [exact Hlast |]. cbn [MemSample.usage MemSample.used MemSample.total].
    split; [vm_compute; reflexivity |]. repeat split.
  - eexists. split; [exact Hlast |]. cbn [MemSample.usage MemSample.used MemSample.total].
    split; [vm_compute; reflexivity |]. repeat split.
Qed.

(** X20. What a snapshot shows and what it charts are the same numbers.
    The newest entries of [cpu_history] and [memory_history] carry the
    same timestamp, the one read after [Promise.all] has resolved; [cpu]
    is the usage of the newest CPU sample printed with two decimals; and
    [ram] is the usage of the newest memory sample printed with two
    decimals, provided the reported percentage is not negative. *)
Theorem newest_samples_match_display env st snapshot :
  snapshotOf (getStats formatBytes env st) = Some snapshot ->
  exists c m u,
    last (cpu_history snapshot) = Some c
    /\ last (memory_history snapshot) = Some m
    /\ CpuSample.timestamp c = joinedAt env
    /\ MemSample.timestamp m = joinedAt env
    /\ cpu snapshot = toFixed (CpuSample.usage c) 2 +:+ "%"
    /\ MemSample.usage m = Some u
    /\ match osutils_memory_info env with
       | Resolved (Success d) =>
           (0 <= MemInfo.usagePercentage d)%Q -> ram snapshot = toFixed u 2 +:+ "%"
       | _ => ram snapshot = toFixed u 2 +:+ "%"
       end.
Proof.
  intros Hsnap. unfold snapshotOf in Hsnap.
  destruct (getStats formatBytes env st) as [[[[s | r] |] st'] lg] eqn:Hcall;
    cbn [fst snd] in Hsnap; try discriminate Hsnap.
  injection Hsnap as ->.
  destruct (getStats_resolved formatBytes _ _ _ _ _ Hcall)
    as (m & c & i & d & n & tmp & h & pc & fsi & ns & b & dl
        & Em & _ & _ & _ & _ & _ & _ & _ & _ & _ & _ & _ & Hasm & _).
  unfold assemble in Hasm. cbv zeta in Hasm.
  apply (f_equal fst) in Hasm. cbn [fst] in Hasm. subst snapshot.
  cbn [cpu ram cpu_history memory_history cpuHistory memoryHistory
       set_memoryHistory set_cpuHistory].
  assert (Hlimit : (0 < History.historyLimit)%nat)
    by (unfold History.historyLimit; lia).
  rewrite Em.
  destruct m as [d0 |].
  - do 2 eexists. exists (rounded (MemInfo.usagePercentage d0) 2).
    split; [apply pushShift_last, Hlimit |].
    split; [apply pushShift_last, Hlimit |].
    cbn [CpuSample.timestamp MemSample.timestamp CpuSample.usage MemSample.usage].
    repeat split.
    + apply parseFloat_toFixed_rounded.
    + intros Hp. rewrite toFixed_rounded by exact Hp. reflexivity.
  - do 2 eexists. exists (0 # 100).
    split; [apply pushShift_last, Hlimit |].
    split; [apply pushShift_last, Hlimit |].
    cbn [CpuSample.timestamp MemSample.timestamp CpuSample.usage MemSample.usage].
    repeat split.
Qed.

End PassFacts.

(** *** Where graceful degradation ends *)

Example degrees_bytes :
  String.length Legacy.degrees = 5%nat /\ String.length "°C" = 3%nat.
Proof. split; reflexivity. Qed.

(** C1, where the code departs from it.  On a host on which
    [osutils.process.stats()] rejects while every other source answers,
    [getStats] does not resolve with the all-zero process counts: it
    rejects with the reason of that promise, because [getProcessCount]
    awaits it outside any [try] and so rejects itself.  [getNetworkSpeed],
    which guards its own [await] with a [try], turns the same rejection
    into its default. *)
Theorem getStats_fails_outward :
  getProcessCount (osutils_process_stats noProcEnv) = Rejected "EPERM"
  /\ fst (fst (getStats sampleFormatBytes noProcEnv Store.initial))
     = Some (Rejected "EPERM")
  /\ snapshotOf (getStats sampleFormatBytes noProcEnv Store.initial) = None
  /\ fst (getNetworkSpeed sampleFormatBytes (Rejected "EPERM") 0 Store.initial)
     = Resolved zeroSpeed.
Proof. repeat split; vm_compute; reflexivity. Qed.

(** *** The theorems at work on the sample hosts *)

Lemma cachedCall_nonpositive_ttl_witness :
  fst (fst (Cache.cachedCall id "k" (slowProducer 5 9) 0 staleCache 100%Z))
  = Resolved 9%nat
  /\ Cache.fresh
       (snd (fst (Cache.cachedCall id "k" (slowProducer 5 9) 0 staleCache 100%Z)))
       "k" 0 100%Z = None.
Proof.
  assert (Hpast : forall e, staleCache !! "k" = Some e -> (Cache.ts e <= id 100)%Z).
  { intros e He. unfold staleCache in He. rewrite lookup_insert_eq in He.
    injection He as <-. unfold id. simpl. lia. }
  destruct (cachedCall_nonpositive_ttl id "k" (slowProducer 5 9) 0 staleCache 100%Z
              ltac:(lia) Hpast) as [Hcall Hfresh].
  split; [rewrite Hcall; reflexivity | exact Hfresh].
Defined.


Lemma cached_fields_repeat_witness :
  exists snapshot1 st1 lg1 snapshot2 st2 lg2,
    getStats sampleFormatBytes storageEnv Store.initial
    = (Some (Resolved snapshot1), st1, lg1)
    /\ getStats sampleFormatBytes (storageEnvAt 6000) st1
       = (Some (Resolved snapshot2), st2, lg2)
    /\ length (file_system_info snapshot1) = 1%nat
    /\ file_system_info snapshot2 = file_system_info snapshot1
    /\ disk_layout snapshot2 = disk_layout snapshot1
    /\ battery_status snapshot2 = battery_status snapshot1.
Proof.
  eassert (H1 : getStats sampleFormatBytes storageEnv Store.initial
                = (Some (Resolved _), _, _)) by (vm_compute; reflexivity).
  match type of H1 with
  | _ = (_, ?st1, _) =>
      eassert (H2 : getStats sampleFormatBytes (storageEnvAt 6000) st1
                    = (Some (Resolved _), _, _)) by (vm_compute; reflexivity)
  end.
  destruct (cached_fields_repeat sampleFormatBytes _ _ _ _ _ _ _ _ _ H1 H2)
    as (Hfs & Hdl & Hbat).
  do 6 eexists. split; [exact H1 |]. split; [exact H2 |].
  split; [reflexivity |].
  split; [apply (Hfs (Some [rootVolume])); [reflexivity | reflexivity | vm_compute; reflexivity] |].
  split; [apply (Hdl (Some [ssd])); [reflexivity | reflexivity | vm_compute; reflexivity] |].
  apply Hbat; [reflexivity | vm_compute; reflexivity].
Defined.

Lemma failure_cached_or_retried_witness :
  exists snapshot1 st1 lg1 snapshot2 st2 lg2 snapshot3 st3 lg3,
    getStats sampleFormatBytes brokenEnv Store.initial
    = (Some (Resolved snapshot1), st1, lg1)
    /\ getStats sampleFormatBytes recoveredEnv st1
       = (Some (Resolved snapshot2), st2, lg2)
    /\ getStats sampleFormatBytes recoveredAgainEnv
         (stateAfterCalls sampleFormatBytes [recoveredEnv] st1)
       = (Some (Resolved snapshot3), st3, lg3)
    /\ battery_status snapshot2 = None
    /\ battery_status snapshot3 = None
    /\ file_system_info snapshot1 = []
    /\ getFileSystemInfo sampleFormatBytes (fsSizeProducer recoveredEnv)
       = Resolved (file_system_info snapshot2).
Proof.
  eassert (H1 : getStats sampleFormatBytes brokenEnv Store.initial
                = (Some (Resolved _), _, _)) by (vm_compute; reflexivity).
  match type of H1 with
  | _ = (_, ?st1, _) =>
      eassert (H2 : getStats sampleFormatBytes recoveredEnv st1
                    = (Some (Resolved _), _, _)) by (vm_compute; reflexivity);
      eassert (H3 : getStats sampleFormatBytes recoveredAgainEnv
                      (stateAfterCalls sampleFormatBytes [recoveredEnv] st1)
                    = (Some (Resolved _), _, _)) by (vm_compute; reflexivity)
  end.
  destruct (failure_cached_or_retried sampleFormatBytes _ _ _ _ _ H1) as (Hbat & Hfs).
  do 9 eexists. split; [exact H1 |]. split; [exact H2 |]. split; [exact H3 |].
  split.
  - eapply (Hbat "EIO" [] recoveredEnv);
      [reflexivity | reflexivity | constructor | vm_compute; reflexivity | exact H2].
  - split.
    + eapply (Hbat "EIO" [recoveredEnv] recoveredAgainEnv);
        [reflexivity | reflexivity | | vm_compute; reflexivity | exact H3].
      repeat constructor.
    + eapply (Hfs "EIO" recoveredEnv);
        [reflexivity | reflexivity | vm_compute; discriminate | exact H2].
Defined.

Lemma cached_fields_expire_witness :
  exists snapshot1 st1 lg1 snapshot2 st2 lg2,
    getStats sampleFormatBytes storageEnv Store.initial
    = (Some (Resolved snapshot1), st1, lg1)
    /\ getStats sampleFormatBytes (storageEnvAt 41000) st1
       = (Some (Resolved snapshot2), st2, lg2)
    /\ getFileSystemInfo sampleFormatBytes (fsSizeProducer (storageEnvAt 41000))
       = Resolved (file_system_info snapshot2)
    /\ getDiskLayout sampleFormatBytes (diskLayoutProducer (storageEnvAt 41000))
       = Resolved (disk_layout snapshot2)
    /\ getBatteryStatus (si_battery (storageEnvAt 41000))
       = Resolved (battery_status snapshot2).
Proof.
  eassert (H1 : getStats sampleFormatBytes storageEnv Store.initial
                = (Some (Resolved _), _, _)) by (vm_compute; reflexivity).
  match type of H1 with
  | _ = (_, ?st1, _) =>
      eassert (H2 : getStats sampleFormatBytes (storageEnvAt 41000) st1
                    = (Some (Resolved _), _, _)) by (vm_compute; reflexivity)
  end.
  destruct (cached_fields_expire sampleFormatBytes _ _ _ _ _ _ _ _ _ H1 H2)
    as (Hfs & Hdl & Hbat).
  do 6 eexists. split; [exact H1 |]. split; [exact H2 |].
  split; [apply (Hfs (Some [rootVolume])); [reflexivity | reflexivity | vm_compute; discriminate] |].
  split; [apply (Hdl (Some [ssd])); [reflexivity | reflexivity | vm_compute; discriminate] |].
  apply Hbat; [reflexivity | vm_compute; discriminate].
Defined.

Lemma network_sample_sums_witness :
  exists snapshot st' lg,
    getStats sampleFormatBytes busyEnv Store.initial
    = (Some (Resolved snapshot), st', lg)
    /\ last (network_history snapshot)
       = Some {| NetSample.timestamp := 10;
                 NetSample.input :=
                   foldr Z.add 0%Z (map NetIface.rawInputBytes (network snapshot));
                 NetSample.output :=
                   foldr Z.add 0%Z (map NetIface.rawOutputBytes (network snapshot)) |}.
Proof.
  eassert (H : getStats sampleFormatBytes busyEnv Store.initial
               = (Some (Resolved _), _, _)) by (vm_compute; reflexivity).
  destruct (network_sample_sums sampleFormatBytes _ _ _ _ _ [eth0 1000 500] H eq_refl)
    as (_ & _ & Hlast).
  do 3 eexists. split; [exact H | exact Hlast].
Defined.

Lemma rates_never_negative_witness :
  exists snapshot,
    snapshotOf (getStats sampleFormatBytes rebootedEnv
                  (stateAfterCalls sampleFormatBytes
                     [storageEnv; storageEnvAt 6000] Store.initial))
    = Some snapshot
    /\ (0 <= Speed.downloadRaw (network_speed snapshot))%Q
    /\ (0 <= Speed.uploadRaw (network_speed snapshot))%Q.
Proof.
  eassert (H : snapshotOf (getStats sampleFormatBytes rebootedEnv
                             (stateAfterCalls sampleFormatBytes
                                [storageEnv; storageEnvAt 6000] Store.initial))
               = Some _) by (vm_compute; reflexivity).
  destruct (rates_never_negative sampleFormatBytes _ _ _ H) as (Hd & Hu & _).
  eexists. split; [exact H |]. split; [exact Hd | exact Hu].
Defined.

Lemma rate_is_windowed_slope_witness :
  exists s,
    fst (getNetworkSpeed sampleFormatBytes (Resolved (Success [eth0 3000 900])) 2000
           (feedSpeed sampleFormatBytes
              [([eth0 1000 500], 0%Z); ([eth0 1500 600], 1000%Z)] Store.initial))
    = Resolved s
    /\ Speed.downloadRaw s = average (3000 - 1000) 2
    /\ Speed.uploadRaw s = average (900 - 500) 2.
Proof.
  apply (rate_is_windowed_slope sampleFormatBytes [eth0 1000 500] 0%Z
           [([eth0 1500 600], 1000%Z)] [eth0 3000 900] 2000%Z).
  - discriminate.
  - repeat constructor. discriminate.
  - discriminate.
  - repeat (constructor; try (vm_compute; discriminate)).
  - repeat (constructor; try (vm_compute; discriminate)).
Defined.

Lemma versions_agree_witness :
  exists old new,
    fst (Legacy.getStats sampleFormatBytes (legacyOn busyEnv) Store.initial)
    = Resolved old
    /\ snapshotOf (getStats sampleFormatBytes busyEnv Store.initial) = Some new
    /\ Legacy.sameFields old new
    /\ Legacy.sameTemperature (Legacy.temperature old) (temperature new)
    /\ Legacy.sameArrays
         (snd (Legacy.getStats sampleFormatBytes (legacyOn busyEnv) Store.initial))
         (stateOf (getStats sampleFormatBytes busyEnv Store.initial))
    /\ _cache (snd (Legacy.getStats sampleFormatBytes (legacyOn busyEnv) Store.initial))
       = _cache Store.initial.
Proof.
  apply (versions_agree sampleFormatBytes (legacyOn busyEnv) Store.initial);
    reflexivity.
Defined.

Lemma sequential_stops_at_rejection_witness :
  (fst (Legacy.getStats sampleFormatBytes (legacyOn noProcEnv) Store.initial)
   = Rejected "EPERM"
   /\ lastNetworkStats
        (snd (Legacy.getStats sampleFormatBytes (legacyOn noProcEnv) Store.initial))
      = None
   /\ fst (fst (getStats sampleFormatBytes noProcEnv Store.initial))
      = Some (Rejected "EPERM")
   /\ lastNetworkStats (stateAtRejection sampleFormatBytes noProcEnv Store.initial)
      = Some {| Counters.rx := 1000; Counters.tx := 500 |}
   /\ lastNetworkStats (stateOf (getStats sampleFormatBytes noProcEnv Store.initial))
      = Some {| Counters.rx := 1000; Counters.tx := 500 |})
  /\ (lastNetworkStats (stateAtRejection sampleFormatBytes hastyNoProcEnv Store.initial)
      = None
      /\ lastNetworkStats
           (stateOf (getStats sampleFormatBytes hastyNoProcEnv Store.initial))
         = Some {| Counters.rx := 1000; Counters.tx := 500 |}).
Proof.
  destruct (sequential_stops_at_rejection sampleFormatBytes (legacyOn noProcEnv)
              Store.initial "EPERM" eq_refl eq_refl eq_refl eq_refl eq_refl eq_refl)
    as (Hold & Hlast & _ & Hrej & Hearly & _ & _ & Hnew & _).
  destruct (sequential_stops_at_rejection sampleFormatBytes (legacyOn hastyNoProcEnv)
              Store.initial "EPERM" eq_refl eq_refl eq_refl eq_refl eq_refl eq_refl)
    as (_ & _ & _ & _ & _ & Hlate & _ & Hnew' & _).
  cbv zeta in Hold, Hlast, Hrej, Hearly, Hnew, Hlate, Hnew'.
  change (Legacy.base (legacyOn noProcEnv)) with noProcEnv
    in Hold, Hlast, Hrej, Hearly, Hnew.
  change (Legacy.base (legacyOn hastyNoProcEnv)) with hastyNoProcEnv in Hlate, Hnew'.
  split.
  - split; [rewrite Hold; reflexivity |].
    split; [exact Hlast |].
    split; [exact Hrej |].
    split; [| rewrite Hnew; reflexivity].
    destruct Hearly as [Hl _]; [vm_compute; reflexivity |]. rewrite Hl. reflexivity.
  - split; [| rewrite Hnew'; reflexivity].
    destruct Hlate as [Hl _]; [vm_compute; reflexivity |]. rewrite Hl. reflexivity.
Defined.

Lemma sequential_early_rejection_witness :
  (exists r,
     Legacy.getStats sampleFormatBytes
       (legacyOn (withMemory (Rejected "ENOMEM") busyEnv)) Store.initial
     = (Rejected r, Store.initial))
  /\ (exists r,
        fst (fst (getStats sampleFormatBytes (withMemory (Rejected "ENOMEM") busyEnv)
                    Store.initial))
        = Some (Rejected r))
  /\ length (networkHistory
               (stateAtRejection sampleFormatBytes
                  (withMemory (Rejected "ENOMEM") busyEnv) Store.initial)) = 1%nat
  /\ stateOf (getStats sampleFormatBytes (withMemory (Rejected "ENOMEM") busyEnv)
                Store.initial)
     = stateAfterAdapters sampleFormatBytes (withMemory (Rejected "ENOMEM") busyEnv)
         Store.initial.
Proof.
  destruct (sequential_early_rejection sampleFormatBytes
              (legacyOn (withMemory (Rejected "ENOMEM") busyEnv)) Store.initial
              eq_refl)
    as (Hold & Hnew & Hnet & _ & Hover).
  cbv zeta in Hnet, Hnew, Hover.
  change (Legacy.base (legacyOn (withMemory (Rejected "ENOMEM") busyEnv)))
    with (withMemory (Rejected "ENOMEM") busyEnv) in Hnet, Hnew, Hover.
  split; [exact Hold |]. split; [exact Hnew |]. split; [| exact Hover].
  rewrite Hnet. reflexivity.
Defined.

Lemma root_file_system_witness :
  exists rootFs,
    Legacy.getFileSystemInfo sampleFormatBytes (Resolved (Some [bootVolume; rootEntry]))
    = Resolved (Legacy.rootInfoOf sampleFormatBytes rootFs)
    /\ ((Legacy.isRoot rootFs = true
         /\ exists before after,
              [bootVolume; rootEntry] = before ++ rootFs :: after
              /\ Forall (fun fs => Legacy.isRoot fs = false) before)
        \/ (Forall (fun fs => Legacy.isRoot fs = false) [bootVolume; rootEntry]
            /\ head [bootVolume; rootEntry] = Some rootFs)).
Proof.
  apply (root_file_system sampleFormatBytes [bootVolume; rootEntry]). discriminate.
Defined.

Lemma memory_usage_read_back_witness :
  exists snapshot sample r,
    snapshotOf (getStats sampleFormatBytes fractionEnv Store.initial) = Some snapshot
    /\ last (memory_history snapshot) = Some sample
    /\ MemSample.usage sample = Some r
    /\ (Qabs (r - (98765 # 8000)) <= 1 # 100)%Q
    /\ MemSample.used sample = 988%Z
    /\ MemSample.total sample = 8000%Z.
Proof.
  eassert (H : snapshotOf (getStats sampleFormatBytes fractionEnv Store.initial)
               = Some _) by (vm_compute; reflexivity).
  destruct (memory_usage_read_back sampleFormatBytes _ _ _ H)
    as (sample & r & Hlast & Husage & Hclose & Hused & Htotal).
  eexists. exists sample, r. split; [exact H |].
  split; [exact Hlast |]. split; [exact Husage |].
  split; [exact Hclose |]. split; [exact Hused | exact Htotal].
Defined.

Lemma newest_samples_match_display_witness :
  exists snapshot c m u,
    snapshotOf (getStats sampleFormatBytes fractionEnv Store.initial) = Some snapshot
    /\ last (cpu_history snapshot) = Some c
    /\ last (memory_history snapshot) = Some m
    /\ CpuSample.timestamp c = MemSample.timestamp m
    /\ cpu snapshot = toFixed (CpuSample.usage c) 2 +:+ "%"
    /\ MemSample.usage m = Some u
    /\ ram snapshot = toFixed u 2 +:+ "%".
Proof.
  eassert (H : snapshotOf (getStats sampleFormatBytes fractionEnv Store.initial)
               = Some _) by (vm_compute; reflexivity).
  destruct (newest_samples_match_display sampleFormatBytes _ _ _ H)
    as (c & m & u & Hc & Hm & Htc & Htm & Hcpu & Hu & Hram).
  eexists. exists c, m, u. split; [exact H |].
  split; [exact Hc |]. split; [exact Hm |].
  split; [rewrite Htc, Htm; reflexivity |].
  split; [exact Hcpu |]. split; [exact Hu |].
  apply Hram. vm_compute. discriminate.
Defined.

Lemma getStats_transition_witness :
  stateAfterCalls sampleFormatBytes [storageEnv; storageEnvAt 6000] Store.initial
  = stateAfterResolved sampleFormatBytes (storageEnvAt 6000)
      (stateAfterResolved sampleFormatBytes storageEnv Store.initial).
Proof.
  apply (getStats_transition sampleFormatBytes [storageEnv; storageEnvAt 6000]
           Store.initial).
  repeat constructor.
Defined.

Lemma history_windows_witness :
  length (cpuHistory (stateAfterCalls sampleFormatBytes [busyEnv; deadEnv] Store.initial))
  = 2%nat
  /\ length (memoryHistory
               (stateAfterCalls sampleFormatBytes [busyEnv; deadEnv] Store.initial))
     = 2%nat
  /\ length (networkHistory
               (stateAfterCalls sampleFormatBytes [busyEnv; deadEnv] Store.initial))
     = 1%nat.
Proof.
  destruct (history_windows sampleFormatBytes [busyEnv; deadEnv]
              ltac:(repeat constructor))
    as (Hc & Hm & Hn).
  cbv zeta in Hc, Hm, Hn. rewrite Hc, Hm, Hn. repeat split.
Defined.
